(** * A user-space virtual machine monitor: loader, CPU bring-up, BIOS stubs
      and exit dispatch

    Shallow embedding of [src/kvm.c], [src/main.c] and [src/bios/bios-rom.S].

    - C integers are [Z] with the wrap-around of their width written out;
      bytes in memory and in files are [Byte.byte].
    - Guest RAM is a function from guest-physical offsets to bytes; host
      pointers are [Z] addresses and every access through a host pointer is
      checked against the RAM buffer (an access outside it is undefined in C
      and is reported as [Fault]).
    - [die]/[die_perror] end the process: they are the [Die] outcome.
    - The hypervisor, the host and the file behind a descriptor are oracles
      passed as records. *)

From Stdlib Require Import Bool String ZArith List Lia.
From Stdlib.Strings Require Import Byte Ascii.
From Stdlib Require Import FunctionalExtensionality.
From Equations Require Import Equations.
Import ListNotations.
Open Scope Z_scope.

(** ** Outcomes of fallible code *)

Inductive outcome (A : Type) : Type :=
| Ok (a : A)          (* the function returned *)
| Die (msg : string)  (* die() / die_perror(): the process is gone *)
| Fault.              (* undefined behaviour: access outside a buffer *)
Arguments Ok {A} a.
Arguments Die {A} msg.
Arguments Fault {A}.

Definition bind {A B} (m : outcome A) (f : A -> outcome B) : outcome B :=
  match m with
  | Ok a => f a
  | Die msg => Die msg
  | Fault => Fault
  end.

Notation "x <- m ;; f" := (bind m (fun x => f))
  (at level 61, m at next level, right associativity).
Notation "' pat <- m ;; f" := (bind m (fun x => match x with pat => f end))
  (at level 61, pat pattern, m at next level, right associativity).

(** Did the function return, and with what? *)
Definition returned {A} (p : A -> bool) (m : outcome A) : bool :=
  match m with
  | Ok a => p a
  | _ => false
  end.

(** [die_unless c msg]: [if (!c) die(msg);] *)
Definition die_unless (c : bool) (msg : string) : outcome unit :=
  if c then Ok tt else Die msg.

(** ** C integer types *)

Definition u8 (x : Z) : Z := x mod 2 ^ 8.
Definition u16 (x : Z) : Z := x mod 2 ^ 16.
Definition u32 (x : Z) : Z := x mod 2 ^ 32.
Definition u64 (x : Z) : Z := x mod 2 ^ 64.

(** The value of a byte, and the byte that holds the low 8 bits of [x]. *)
Definition Z_of_byte (b : byte) : Z := Z.of_N (Byte.to_N b).
Definition byte_of_Z (x : Z) : byte :=
  match Byte.of_N (Z.to_N (x mod 256)) with
  | Some b => b
  | None => x00
  end.

(** Little-endian layout of an [n]-byte integer. *)
Fixpoint le_encode (n : nat) (x : Z) : list byte :=
  match n with
  | O => []
  | S n' => byte_of_Z x :: le_encode n' (x / 256)
  end.

Fixpoint le_decode (bs : list byte) : Z :=
  match bs with
  | [] => 0
  | b :: r => Z_of_byte b + 256 * le_decode r
  end.

(** ** Byte-addressed memory *)

Definition mem := Z -> byte.

Definition in_range (lo len a : Z) : bool := (lo <=? a) && (a <? lo + len).

Definition mem_write (m : mem) (off : Z) (bs : list byte) : mem :=
  fun a => if in_range off (Z.of_nat (length bs)) a
           then nth (Z.to_nat (a - off)) bs x00
           else m a.

Definition mem_fill (m : mem) (off len : Z) (v : byte) : mem :=
  fun a => if in_range off len a then v else m a.

Definition mem_read (m : mem) (off : Z) (n : nat) : list byte :=
  map (fun i => m (off + Z.of_nat i)) (seq 0 n).

(** ** Files and descriptors *)

(** What [open] returned: the bytes of the file, whether the descriptor
    can seek (a regular file can, a FIFO cannot) and the file offset. *)
Record fd := mkfd {
  fd_data : list byte;
  fd_seekable : bool;
  fd_pos : nat
}.

(** [lseek(fd, 0, SEEK_SET)]: [None] is the negative return. *)
Definition lseek_set0 (f : fd) : option fd :=
  if fd_seekable f then Some (mkfd (fd_data f) true 0) else None.

(** [read(fd, buf, count)]: the bytes transferred and the descriptor after. *)
Definition read (f : fd) (count : Z) : list byte * fd :=
  let bs := firstn (Z.to_nat count) (skipn (fd_pos f) (fd_data f)) in
  (bs, mkfd (fd_data f) (fd_seekable f) (fd_pos f + length bs)%nat).

Definition fd_remaining (f : fd) : nat := length (skipn (fd_pos f) (fd_data f)).

Module Kvm.

(** ** Register files of <linux/kvm.h> *)

Record kvm_segment := mk_segment {
  base : Z; limit : Z; selector : Z; type_ : Z;
  present : Z; dpl : Z; db : Z; s : Z; l : Z; g : Z; avl : Z; unusable : Z
}.

Record kvm_dtable := mk_dtable { dt_base : Z; dt_limit : Z }.

Record kvm_sregs := mk_sregs {
  cs : kvm_segment; ds : kvm_segment; es : kvm_segment;
  fs : kvm_segment; gs : kvm_segment; ss : kvm_segment;
  tr : kvm_segment; ldt : kvm_segment;
  gdt : kvm_dtable; idt : kvm_dtable;
  cr0 : Z; cr2 : Z; cr3 : Z; cr4 : Z; cr8 : Z;
  efer : Z; apic_base : Z;
  interrupt_bitmap : list Z
}.

Record kvm_regs := mk_regs {
  rax : Z; rbx : Z; rcx : Z; rdx : Z;
  rsi : Z; rdi : Z; rsp : Z; rbp : Z;
  r8 : Z; r9 : Z; r10 : Z; r11 : Z;
  r12 : Z; r13 : Z; r14 : Z; r15 : Z;
  rip : Z; rflags : Z
}.

Record kvm_fpu := mk_fpu {
  fpr : list Z; fcw : Z; fsw : Z; ftwx : Z;
  last_opcode : Z; last_ip : Z; last_dp : Z;
  xmm : list Z; mxcsr : Z
}.

Record kvm_msr_entry := mk_msr { index : Z; data : Z }.

(** ** The interrupt table (kvm/interrupt.h) *)

Record real_intr_desc := mk_intr { segment : Z; offset : Z }.

Definition interrupt_table := list real_intr_desc.

(** Modelled from the spec: [interrupt_table__setup], declared in
    kvm/interrupt.h and defined outside src/. "setup(default): fills all 256
    entries with default." *)
Definition interrupt_table__setup (tbl : interrupt_table) (d : real_intr_desc)
  : interrupt_table := repeat d 256.

Fixpoint set_nth {A} (n : nat) (x : A) (xs : list A) : list A :=
  match xs, n with
  | [], _ => []
  | _ :: r, O => x :: r
  | y :: r, S n' => y :: set_nth n' x r
  end.

(** Modelled from the spec: [interrupt_table__set], defined outside src/.
    "set(vec, desc): overwrites a single entry." *)
Definition interrupt_table__set (tbl : interrupt_table) (d : real_intr_desc)
  (num : Z) : interrupt_table := set_nth (Z.to_nat num) d tbl.

(** Modelled from the spec: the byte image written by
    [interrupt_table__copy], defined outside src/. "writes the table into
    guest RAM in canonical real-mode layout (offset first, segment second,
    4 bytes per entry)", both halves little-endian. *)
Definition interrupt_table__bytes (tbl : interrupt_table) : list byte :=
  flat_map (fun d => le_encode 2 (offset d) ++ le_encode 2 (segment d)) tbl.

(** ** The monitor state (struct kvm of kvm/kvm.h)

    [ram] is the content of the buffer at [ram_start], indexed by the
    offset from [ram_start].  The handles to the hypervisor are in the
    oracles. *)
Record kvm := mk_kvm {
  ram_start : Z;
  ram_size : Z;
  ram : mem;
  boot_selector : Z;
  boot_ip : Z;
  boot_sp : Z;
  regs : kvm_regs;
  sregs : kvm_sregs;
  fpu : kvm_fpu;
  msrs : list kvm_msr_entry;
  intr_table : interrupt_table
}.

Definition set_ram (k : kvm) (m : mem) : kvm :=
  mk_kvm (ram_start k) (ram_size k) m (boot_selector k) (boot_ip k)
         (boot_sp k) (regs k) (sregs k) (fpu k) (msrs k) (intr_table k).

Definition set_boot (k : kvm) (sel ip sp : Z) : kvm :=
  mk_kvm (ram_start k) (ram_size k) (ram k) sel ip sp
         (regs k) (sregs k) (fpu k) (msrs k) (intr_table k).

Definition set_regs (k : kvm) (r : kvm_regs) : kvm :=
  mk_kvm (ram_start k) (ram_size k) (ram k) (boot_selector k) (boot_ip k)
         (boot_sp k) r (sregs k) (fpu k) (msrs k) (intr_table k).

Definition set_sregs (k : kvm) (sr : kvm_sregs) : kvm :=
  mk_kvm (ram_start k) (ram_size k) (ram k) (boot_selector k) (boot_ip k)
         (boot_sp k) (regs k) sr (fpu k) (msrs k) (intr_table k).

Definition set_fpu (k : kvm) (f : kvm_fpu) : kvm :=
  mk_kvm (ram_start k) (ram_size k) (ram k) (boot_selector k) (boot_ip k)
         (boot_sp k) (regs k) (sregs k) f (msrs k) (intr_table k).

Definition set_msrs (k : kvm) (ms : list kvm_msr_entry) : kvm :=
  mk_kvm (ram_start k) (ram_size k) (ram k) (boot_selector k) (boot_ip k)
         (boot_sp k) (regs k) (sregs k) (fpu k) ms (intr_table k).

Definition set_intr_table (k : kvm) (t : interrupt_table) : kvm :=
  mk_kvm (ram_start k) (ram_size k) (ram k) (boot_selector k) (boot_ip k)
         (boot_sp k) (regs k) (sregs k) (fpu k) (msrs k) t.

(** ** Address translation *)

(** [self->ram_start <= p && p < (self->ram_start + self->ram_size)] *)
Definition host_ptr_in_ram (self : kvm) (p : Z) : bool :=
  (ram_start self <=? p) && (p <? u64 (ram_start self + ram_size self)).

(** [((uint32_t)selector << 4) + (uint32_t) offset] on [uint16_t] arguments *)
Definition segment_to_flat (selector offset : Z) : Z :=
  u32 (u32 (Z.shiftl (u16 selector) 4) + u16 offset).

(** [self->ram_start + offset], [offset] an [unsigned long] *)
Definition guest_flat_to_host (self : kvm) (offset : Z) : Z :=
  u64 (ram_start self + u64 offset).

Definition guest_real_to_host (self : kvm) (selector offset : Z) : Z :=
  let flat := segment_to_flat selector offset in
  guest_flat_to_host self flat.

(** ** Accesses through host pointers *)

(** The [len] bytes at [p] all lie in the RAM buffer. *)
Definition host_range_ok (self : kvm) (p len : Z) : bool :=
  (len =? 0) ||
  ((ram_start self <=? p) && (p + len <=? ram_start self + ram_size self)).

(** [memcpy(p, bs, length bs)] and the buffer side of [read(fd, p, ...)] *)
Definition host_store (self : kvm) (p : Z) (bs : list byte) : outcome kvm :=
  if host_range_ok self p (Z.of_nat (length bs))
  then Ok (set_ram self (mem_write (ram self) (p - ram_start self) bs))
  else Fault.

(** [memset(p, v, len)] *)
Definition host_memset (self : kvm) (p v len : Z) : outcome kvm :=
  if host_range_ok self p len
  then Ok (set_ram self
             (mem_fill (ram self) (p - ram_start self) len (byte_of_Z v)))
  else Fault.

(** [*(uint8_t * )p] *)
Definition host_load8 (self : kvm) (p : Z) : outcome Z :=
  if host_range_ok self p 1
  then Ok (Z_of_byte (ram self (p - ram_start self)))
  else Fault.

(** ** [kvm__init] *)

(** What the host answers during [kvm__init]. *)
Record host := mk_host {
  cpuid1_ecx : Z;                  (* host_cpuid with eax = 1: ecx *)
  calloc_ok : bool;
  open_dev : string -> Z;          (* open(kvm_dev, O_RDWR) *)
  open_enoent : bool;              (* errno == ENOENT after a failed open *)
  get_api_version : Z;
  create_vm : Z;
  check_extension : Z -> Z;        (* ioctl(KVM_CHECK_EXTENSION, ext) *)
  set_tss_addr : Z;
  create_pit2 : Z;
  memalign : option Z;             (* posix_memalign: the buffer, if any *)
  heap_content : mem;              (* what the fresh buffer holds *)
  set_user_memory_region : Z;
  create_irqchip : Z;
  create_vcpu : Z;
  get_vcpu_mmap_size : Z;
  mmap_ok : bool
}.

(** <linux/kvm.h> *)
Definition KVM_API_VERSION : Z := 12.
Definition KVM_CAP_IRQCHIP : Z := 0.
Definition KVM_CAP_HLT : Z := 1.
Definition KVM_CAP_USER_MEMORY : Z := 3.
Definition KVM_CAP_SET_TSS_ADDR : Z := 4.
Definition KVM_CAP_EXT_CPUID : Z := 7.
Definition KVM_CAP_COALESCED_MMIO : Z := 15.
Definition KVM_CAP_IRQ_ROUTING : Z := 25.
Definition KVM_CAP_IRQ_INJECT_STATUS : Z := 26.
Definition KVM_CAP_PIT2 : Z := 33.

Definition kvm_req_ext : list (string * Z) :=
  [ ("KVM_CAP_COALESCED_MMIO"%string, KVM_CAP_COALESCED_MMIO);
    ("KVM_CAP_SET_TSS_ADDR"%string, KVM_CAP_SET_TSS_ADDR);
    ("KVM_CAP_PIT2"%string, KVM_CAP_PIT2);
    ("KVM_CAP_USER_MEMORY"%string, KVM_CAP_USER_MEMORY);
    ("KVM_CAP_IRQ_ROUTING"%string, KVM_CAP_IRQ_ROUTING);
    ("KVM_CAP_IRQCHIP"%string, KVM_CAP_IRQCHIP);
    ("KVM_CAP_HLT"%string, KVM_CAP_HLT);
    ("KVM_CAP_IRQ_INJECT_STATUS"%string, KVM_CAP_IRQ_INJECT_STATUS);
    ("KVM_CAP_EXT_CPUID"%string, KVM_CAP_EXT_CPUID) ].

Definition kvm__supports_extension (h : host) (extension : Z) : bool :=
  let ret := check_extension h extension in
  if ret <? 0 then false else negb (ret =? 0).

(** The [for] loop of [kvm__check_extensions] from index [i] on; the
    failure value is [(int)-i]. *)
Fixpoint check_extensions_from (h : host) (exts : list (string * Z)) (i : Z)
  : Z :=
  match exts with
  | [] => 0
  | e :: rest =>
      if negb (kvm__supports_extension h (snd e)) then - i
      else check_extensions_from h rest (i + 1)
  end.

Definition kvm__check_extensions (h : host) : Z :=
  check_extensions_from h kvm_req_ext 0.

Section Init.

(** kvm/cpufeature.h is not under src/: the bit number of the VMX feature
    in CPUID.1:ECX is a parameter. *)
Variable KVM__X86_FEATURE_VMX : Z.

Definition kvm__cpu_supports_vm (h : host) : bool :=
  negb (Z.land (cpuid1_ecx h) (Z.shiftl 1 KVM__X86_FEATURE_VMX) =? 0).

Definition zero_segment : kvm_segment := mk_segment 0 0 0 0 0 0 0 0 0 0 0 0.
Definition zero_dtable : kvm_dtable := mk_dtable 0 0.
Definition zero_sregs : kvm_sregs :=
  mk_sregs zero_segment zero_segment zero_segment zero_segment zero_segment
           zero_segment zero_segment zero_segment zero_dtable zero_dtable
           0 0 0 0 0 0 0 (repeat 0 4).
Definition zero_regs : kvm_regs := mk_regs 0 0 0 0 0 0 0 0 0 0 0 0 0 0 0 0 0 0.
Definition zero_fpu : kvm_fpu :=
  mk_fpu (repeat 0 128) 0 0 0 0 0 0 (repeat 0 256) 0.

(** [kvm__new]: a [calloc]ed struct; its RAM pointer is NULL. *)
Definition kvm__new (h : host) : outcome kvm :=
  _ <- die_unless (calloc_ok h) "out of memory" ;;
  Ok (mk_kvm 0 0 (fun _ => x00) 0 0 0 zero_regs zero_sregs zero_fpu []
             (repeat (mk_intr 0 0) 256)).

Definition kvm__init (h : host) (kvm_dev : string) : outcome kvm :=
  _ <- die_unless (kvm__cpu_supports_vm h)
         "Your CPU does not support hardware virtualization" ;;
  self <- kvm__new h ;;
  _ <- (if open_dev h kvm_dev <? 0
        then (if open_enoent h
              then Die "'%s' not found. Please make sure you have CONFIG_KVM enabled."
              else Die "open")
        else Ok tt) ;;
  _ <- die_unless (get_api_version h =? KVM_API_VERSION)
         "KVM_API_VERSION ioctl" ;;
  _ <- die_unless (0 <=? create_vm h) "KVM_CREATE_VM ioctl" ;;
  _ <- die_unless (kvm__check_extensions h =? 0)
         "A required KVM extention is not supported by OS" ;;
  _ <- die_unless (0 <=? set_tss_addr h) "KVM_SET_TSS_ADDR ioctl" ;;
  _ <- die_unless (0 <=? create_pit2 h) "KVM_CREATE_PIT2 ioctl" ;;
  let size := 64 * 1024 * 1024 in
  self <- match memalign h with
          | Some p =>
              Ok (mk_kvm p size (heap_content h) (boot_selector self)
                         (boot_ip self) (boot_sp self) (regs self)
                         (sregs self) (fpu self) (msrs self)
                         (intr_table self))
          | None => Die "out of memory"
          end ;;
  _ <- die_unless (0 <=? set_user_memory_region h)
         "KVM_SET_USER_MEMORY_REGION ioctl" ;;
  _ <- die_unless (0 <=? create_irqchip h) "KVM_CREATE_IRQCHIP ioctl" ;;
  _ <- die_unless (0 <=? create_vcpu h) "KVM_CREATE_VCPU ioctl" ;;
  _ <- die_unless (0 <=? get_vcpu_mmap_size h)
         "KVM_GET_VCPU_MMAP_SIZE ioctl" ;;
  _ <- die_unless (mmap_ok h) "unable to mmap vcpu fd" ;;
  Ok self.

End Init.

(** What [posix_memalign] promises for a buffer of [size] bytes at [p]:
    it is not NULL and lies inside the 64-bit address space. *)
Definition valid_buffer (p size : Z) : Prop :=
  0 < p /\ 0 <= size /\ p + size < 2 ^ 64.

Definition host_ok (h : host) : Prop :=
  forall p, memalign h = Some p -> valid_buffer p (64 * 1024 * 1024).

(** The monitor as a successful [kvm__init] leaves it: 64 MiB of RAM in a
    valid buffer. *)
Definition monitor_ok (self : kvm) : Prop :=
  valid_buffer (ram_start self) (ram_size self) /\
  ram_size self = 64 * 1024 * 1024.

(** ** The kernel loader *)

Definition BOOT_LOADER_SELECTOR : Z := 0x1000.
Definition BOOT_LOADER_IP : Z := 0x0000.
Definition BOOT_LOADER_SP : Z := 0x8000.
Definition BOOT_CMDLINE_OFFSET : Z := 0x20000.
Definition BOOT_PROTOCOL_REQUIRED : Z := 0x202.
Definition BZ_KERNEL_START : Z := 0x100000.
Definition BZIMAGE_MAGIC : list byte := [x48; x64; x72; x53].  (* HdrS *)
Definition BZ_DEFAULT_SETUP_SECTS : Z := 4.

(** <asm/bootparam.h>: [sizeof(struct boot_params)], [hdr_offset(member)]
    for the members the loader touches, and the heap flag. *)
Definition sizeof_boot_params : Z := 4096.
Definition hdr_setup_sects : Z := 0x1f1.
Definition hdr_header : Z := 0x202.
Definition hdr_version : Z := 0x206.
Definition hdr_type_of_loader : Z := 0x210.
Definition hdr_loadflags : Z := 0x211.
Definition hdr_heap_end_ptr : Z := 0x224.
Definition hdr_cmd_line_ptr : Z := 0x228.
Definition hdr_cmdline_size : Z := 0x238.
Definition CAN_USE_HEAP : Z := 0x80.

(** The local [struct boot_params boot] after [read(fd, &boot, sizeof(boot))]:
    the bytes the read delivered, over what the stack held before. *)
Definition boot_buf (got : list byte) (uninit : mem) : mem :=
  mem_write uninit 0 got.

Definition boot_field (boot : mem) (off : Z) (n : nat) : Z :=
  le_decode (mem_read boot off n).

(** [memcmp(xs, ys, n) == 0] for two [n]-byte objects *)
Fixpoint bytes_eqb (xs ys : list byte) : bool :=
  match xs, ys with
  | [], [] => true
  | x :: xs', y :: ys' => Byte.eqb x y && bytes_eqb xs' ys'
  | _, _ => false
  end.

(** [strlen] of the C string held in [s ++ [x00]] *)
Fixpoint strlen (s : list byte) : nat :=
  match s with
  | [] => O
  | c :: r => if Byte.eqb c x00 then O else S (strlen r)
  end.

(** [memcpy(p, s, n)] from the C string [s]: reading past its terminator
    leaves the source object. *)
Definition host_memcpy_str (self : kvm) (p : Z) (s : list byte) (n : Z)
  : outcome kvm :=
  if n <=? Z.of_nat (strlen s) + 1
  then host_store self p (firstn (Z.to_nat n) (s ++ [x00]))
  else Fault.

Definition inspect {A} (a : A) : {b : A | a = b} := exist _ a eq_refl.

(** [while ((nr = read(fd, p, count)) > 0) p += nr;] *)
Equations? read_loop_n (count : Z) (self : kvm) (f : fd) (p : Z)
  : outcome (kvm * fd * Z) by wf (fd_remaining f) lt :=
  read_loop_n count self f p with inspect (length (fst (read f count))) := {
    | exist _ O _ => Ok (self, snd (read f count), p)
    | exist _ (S _) _ with host_store self p (fst (read f count)) := {
        | Ok self' =>
            read_loop_n count self' (snd (read f count))
                        (u64 (p + Z.of_nat (length (fst (read f count)))))
        | Die msg => Die msg
        | Fault => Fault } }.
Proof.
  unfold fd_remaining, read in *. cbn [snd fst fd_pos fd_data] in *.
  rewrite !length_skipn. rewrite length_firstn, length_skipn in *. lia.
Qed.

(** [while ((nr = read(fd, p, 65536)) > 0) p += nr;] *)
Definition read_loop : kvm -> fd -> Z -> outcome (kvm * fd * Z) :=
  read_loop_n 65536.

(** What the read loop amounts to: the rest of the file in one piece at
    [p], or a fault when it does not fit into the RAM buffer. *)
Definition read_loop_result (self : kvm) (f : fd) (p : Z)
  : outcome (kvm * fd * Z) :=
  let rest := skipn (fd_pos f) (fd_data f) in
  if host_range_ok self p (Z.of_nat (length rest))
  then Ok (set_ram self (mem_write (ram self) (p - ram_start self) rest),
           mkfd (fd_data f) (fd_seekable f) (fd_pos f + length rest),
           p + Z.of_nat (length rest))
  else Fault.

Definition load_flat_binary (self : kvm) (f : fd) : outcome (bool * kvm * fd) :=
  f <- match lseek_set0 f with Some f' => Ok f' | None => Die "lseek" end ;;
  let p := guest_real_to_host self BOOT_LOADER_SELECTOR BOOT_LOADER_IP in
  '(self, f, _) <- read_loop self f p ;;
  let self := set_boot self BOOT_LOADER_SELECTOR BOOT_LOADER_IP BOOT_LOADER_SP in
  Ok (true, self, f).

(** What kvm/bios.h and kvm/interrupt.h declare and the BIOS blobs hold;
    none of it is under src/. *)
Record bios_env := mk_bios {
  BDA_START : Z;
  BIOS_INTR_NEXT : Z -> Z -> Z;
  REAL_SEGMENT : Z -> Z;
  REAL_INTR_SIZE : Z;
  intfake : list byte;    (* the bytes from intfake to intfake_end *)
  int10 : list byte       (* the bytes from int10 to int10_end *)
}.

(** Modelled from the spec: [interrupt_table__copy], defined outside src/.
    The table image goes to [p]; the layout is the canonical one whatever
    the third argument. *)
Definition interrupt_table__copy (self : kvm) (p : Z) (size : Z) : outcome kvm :=
  host_store self p (interrupt_table__bytes (intr_table self)).

Section Loader.

Variable B : bios_env.

(** [guest_hdr(kvm, member)] *)
Definition guest_hdr (self : kvm) (member : Z) : Z :=
  guest_real_to_host self BOOT_LOADER_SELECTOR member.

(** Lines 322-324: the local [cmdline_size], the length of the command
    line with its NUL, cut down to [boot.hdr.cmdline_size]. *)
Definition cmdline_size (str : list byte) (boot_cmdline_size : Z) : Z :=
  (* a string in memory is shorter than the address space: no wrap *)
  let cmdline_size := Z.of_nat (strlen str) + 1 in
  if cmdline_size >? boot_cmdline_size then boot_cmdline_size
  else cmdline_size.

(** Lines 320-328: the command line. [boot_cmdline_size] is
    [boot.hdr.cmdline_size]; the length of the copy is [cmdline_size - 1]
    in [size_t]. *)
Definition copy_cmdline (self : kvm) (kernel_cmdline : option (list byte))
  (boot_cmdline_size : Z) : outcome kvm :=
  let p := guest_flat_to_host self BOOT_CMDLINE_OFFSET in
  match kernel_cmdline with
  | Some str =>
      let cmdline_size := cmdline_size str boot_cmdline_size in
      self <- host_memset self p 0 boot_cmdline_size ;;
      host_memcpy_str self p str (u64 (cmdline_size - 1))
  | None => Ok self
  end.

(** Lines 339-350: the fields of the guest header that are updated. *)
Definition patch_header (self : kvm) : outcome kvm :=
  self <- host_store self (guest_hdr self hdr_cmd_line_ptr)
            (le_encode 4 BOOT_CMDLINE_OFFSET) ;;
  self <- host_store self (guest_hdr self hdr_type_of_loader)
            (le_encode 1 0xff) ;;
  self <- host_store self (guest_hdr self hdr_heap_end_ptr)
            (le_encode 2 0xfe00) ;;
  let p := guest_hdr self hdr_loadflags in
  old <- host_load8 self p ;;
  host_store self p (le_encode 1 (Z.lor old CAN_USE_HEAP)).

(** Lines 360-385: the fake real-mode vector table. *)
Definition setup_bios (self : kvm) : outcome kvm :=
  let intr_addr := u32 (BIOS_INTR_NEXT B (BDA_START B + 0) 16) in
  self <- host_store self (guest_flat_to_host self intr_addr) (intfake B) ;;
  let intr := mk_intr (REAL_SEGMENT B intr_addr) 0 in
  let self := set_intr_table self
                (interrupt_table__setup (intr_table self) intr) in
  let intr_addr :=
    u32 (BIOS_INTR_NEXT B (BDA_START B + Z.of_nat (length (intfake B))) 16) in
  self <- host_store self (guest_flat_to_host self intr_addr) (int10 B) ;;
  let intr := mk_intr (REAL_SEGMENT B intr_addr) 0 in
  let self := set_intr_table self
                (interrupt_table__set (intr_table self) intr 0x10) in
  interrupt_table__copy self (guest_flat_to_host self 0) (REAL_INTR_SIZE B).

(** [setup_sects << 9] for the header's [setup_sects] byte *)
Definition bz_setup_size (boot_setup_sects : Z) : Z :=
  let boot_setup_sects :=
    if boot_setup_sects =? 0 then BZ_DEFAULT_SETUP_SECTS
    else boot_setup_sects in
  let setup_sects := u64 (boot_setup_sects + 1) in
  u64 (Z.shiftl setup_sects 9).

(** Lines 303-319: the real-mode setup to [BOOT_LOADER_SELECTOR:BOOT_LOADER_IP]
    and the rest of the file to [BZ_KERNEL_START]. *)
Definition copy_image (self : kvm) (f : fd) (setup_size : Z)
  : outcome (kvm * fd) :=
  f <- match lseek_set0 f with Some f' => Ok f' | None => Die "lseek" end ;;
  let p := guest_real_to_host self BOOT_LOADER_SELECTOR BOOT_LOADER_IP in
  let got := read f setup_size in
  self <- host_store self p (fst got) ;;
  _ <- die_unless (Z.of_nat (length (fst got)) =? setup_size) "read" ;;
  let p := guest_flat_to_host self BZ_KERNEL_START in
  '(self, f, _) <- read_loop self (snd got) p ;;
  Ok (self, f).

(** [read(fd, &boot, sizeof(boot))]: the local [boot] and the descriptor
    after the read.  [uninit] is what the stack held where [boot] is
    allocated; the return value of the read is not looked at. *)
Definition read_boot_params (f : fd) (uninit : mem) : mem * fd :=
  let got := read f sizeof_boot_params in
  (boot_buf (fst got) uninit, snd got).

(** Lines 303-387: what [load_bzimage] does once it has taken the file
    for a bzImage. *)
Definition load_bzimage_body (self : kvm) (f : fd)
  (kernel_cmdline : option (list byte)) (boot : mem)
  : outcome (bool * kvm * fd) :=
  let setup_size := bz_setup_size (boot_field boot hdr_setup_sects 1) in
  '(self, f) <- copy_image self f setup_size ;;
  self <- copy_cmdline self kernel_cmdline
            (boot_field boot hdr_cmdline_size 4) ;;
  self <- patch_header self ;;
  let self := set_boot self BOOT_LOADER_SELECTOR (BOOT_LOADER_IP + 0x200)
                       BOOT_LOADER_SP in
  self <- setup_bios self ;;
  Ok (true, self, f).

Definition load_bzimage (self : kvm) (f : fd)
  (kernel_cmdline : option (list byte)) (uninit : mem)
  : outcome (bool * kvm * fd) :=
  f <- match lseek_set0 f with Some f' => Ok f' | None => Die "lseek" end ;;
  let '(boot, f) := read_boot_params f uninit in
  if negb (bytes_eqb (mem_read boot hdr_header 4) BZIMAGE_MAGIC)
  then Ok (false, self, f)
  else if boot_field boot hdr_version 2 <? BOOT_PROTOCOL_REQUIRED
  then (* warning("Too old kernel") *) Ok (false, self, f)
  else load_bzimage_body self f kernel_cmdline boot.

(** [kernel_file] is what [open(kernel_filename, O_RDONLY)] gives: [None]
    when the file cannot be opened. *)
Definition kvm__load_kernel (self : kvm) (kernel_file : option fd)
  (kernel_cmdline : option (list byte)) (uninit : mem) : outcome (bool * kvm) :=
  match kernel_file with
  | None => Die "unable to open kernel"
  | Some f =>
      '(ret, self', f') <- load_bzimage self f kernel_cmdline uninit ;;
      if ret then Ok (ret, self')
      else
        '(ret, self', f') <- load_flat_binary self' f' ;;
        if ret then Ok (ret, self')
        else Die "%s is not a valid bzImage or flat binary"
  end.

End Loader.

(** The file seen as a byte array, and an [n]-byte little-endian field of
    its header. *)
Definition file_mem (data : list byte) : mem :=
  fun a => nth (Z.to_nat a) data x00.

Definition file_field (data : list byte) (off : Z) (n : nat) : Z :=
  boot_field (file_mem data) off n.

(** The header's [setup_sects], 4 when the field is zero. *)
Definition file_setup_sects (data : list byte) : Z :=
  let n := file_field data hdr_setup_sects 1 in
  if n =? 0 then BZ_DEFAULT_SETUP_SECTS else n.

(** The BIOS stubs, placed as kvm/bios.h says, end below the real-mode
    setup at 0x10000. *)
Definition bios_low (B : bios_env) : bool :=
  (u32 (BIOS_INTR_NEXT B (BDA_START B + 0) 16)
     + Z.of_nat (length (intfake B)) <=? 0x10000)
  && (u32 (BIOS_INTR_NEXT B (BDA_START B + Z.of_nat (length (intfake B))) 16)
        + Z.of_nat (length (int10 B)) <=? 0x10000).

(** The memory [patch_header] leaves. *)
Definition header_patched (m : mem) : mem :=
  let m3 :=
    mem_write
      (mem_write (mem_write m 0x10228 (le_encode 4 BOOT_CMDLINE_OFFSET))
                 0x10210 (le_encode 1 0xff))
      0x10224 (le_encode 2 0xfe00) in
  mem_write m3 0x10211 (le_encode 1 (Z.lor (Z_of_byte (m3 0x10211)) CAN_USE_HEAP)).

(** The guest addresses [patch_header] writes, and those the command line
    (when there is one) may overwrite for a header with
    [cmdline_size = C]. *)
Definition header_patch_addr (a : Z) : bool :=
  in_range (0x10000 + hdr_cmd_line_ptr) 4 a
  || (a =? 0x10000 + hdr_type_of_loader)
  || in_range (0x10000 + hdr_heap_end_ptr) 2 a
  || (a =? 0x10000 + hdr_loadflags).

Definition cmdline_window (cmd : option (list byte)) (C a : Z) : bool :=
  match cmd with
  | None => false
  | Some _ => in_range BOOT_CMDLINE_OFFSET C a
  end.

(** A RAM buffer seen through guest-physical addresses *)
Definition guest_u8 (self : kvm) (a : Z) : Z := Z_of_byte (ram self a).
Definition guest_u16 (self : kvm) (a : Z) : Z := le_decode (mem_read (ram self) a 2).
Definition guest_u32 (self : kvm) (a : Z) : Z := le_decode (mem_read (ram self) a 4).

(** ** CPU bring-up *)

(** What the VCPU and the host answer during [kvm__reset_vcpu]: the segment
    state that [KVM_GET_SREGS] delivers ([None]: the ioctl failed), the
    return values of the setting ioctls and whether the [calloc] of
    [kvm_msrs__new] gives memory. *)
Record vcpu := mk_vcpu {
  get_sregs : option kvm_sregs;
  set_sregs_ret : Z;
  set_regs_ret : Z;
  set_fpu_ret : Z;
  msrs_calloc_ok : bool;
  set_msrs_ret : Z
}.

Definition USHRT_MAX : Z := 65535.

(** [(uint32_t)selector * 16] on a [uint16_t] argument *)
Definition selector_to_base (selector : Z) : Z := u32 (u16 selector * 16).

(** [seg.selector = sel; seg.base = b;] with the widths of [kvm_segment] *)
Definition seg_load (seg : kvm_segment) (sel b : Z) : kvm_segment :=
  mk_segment (u64 b) (limit seg) (u16 sel) (type_ seg) (present seg)
             (dpl seg) (db seg) (s seg) (l seg) (g seg) (avl seg)
             (unusable seg).

Definition kvm__setup_sregs (v : vcpu) (self : kvm) : outcome kvm :=
  sr <- match get_sregs v with
        | Some sr => Ok sr
        | None => Die "KVM_GET_SREGS failed"
        end ;;
  let sel := boot_selector self in
  let sr :=
    mk_sregs (seg_load (cs sr) sel (selector_to_base sel))
             (seg_load (ds sr) sel (selector_to_base sel))
             (seg_load (es sr) sel (selector_to_base sel))
             (seg_load (fs sr) sel (selector_to_base sel))
             (seg_load (gs sr) sel (selector_to_base sel))
             (seg_load (ss sr) sel (selector_to_base sel))
             (tr sr) (ldt sr) (gdt sr) (idt sr)
             (cr0 sr) (cr2 sr) (cr3 sr) (cr4 sr) (cr8 sr)
             (efer sr) (apic_base sr) (interrupt_bitmap sr) in
  let self := set_sregs self sr in
  _ <- die_unless (0 <=? set_sregs_ret v) "KVM_SET_SREGS failed" ;;
  Ok self.

Definition kvm__setup_regs (v : vcpu) (self : kvm) : outcome kvm :=
  let r := mk_regs 0 0 0 0 0 0 (u64 (boot_sp self)) (u64 (boot_sp self))
                   0 0 0 0 0 0 0 0 (u64 (boot_ip self)) 0x2 in
  let self := set_regs self r in
  _ <- die_unless (negb (rip (regs self) >? USHRT_MAX))
         "ip 0x%lx is too high for real mode" ;;
  _ <- die_unless (0 <=? set_regs_ret v) "KVM_SET_REGS failed" ;;
  Ok self.

Definition kvm__setup_fpu (v : vcpu) (self : kvm) : outcome kvm :=
  let self := set_fpu self
    (mk_fpu (repeat 0 128) 0x37f 0 0 0 0 0 (repeat 0 256) 0x1f80) in
  _ <- die_unless (0 <=? set_fpu_ret v) "KVM_SET_FPU failed" ;;
  Ok self.

Definition MSR_IA32_TIME_STAMP_COUNTER : Z := 0x10.
Definition MSR_IA32_SYSENTER_CS : Z := 0x174.
Definition MSR_IA32_SYSENTER_ESP : Z := 0x175.
Definition MSR_IA32_SYSENTER_EIP : Z := 0x176.
Definition MSR_IA32_STAR : Z := 0xc0000081.
Definition MSR_IA32_LSTAR : Z := 0xc0000082.
Definition MSR_IA32_CSTAR : Z := 0xc0000083.
Definition MSR_IA32_FMASK : Z := 0xc0000084.
Definition MSR_IA32_KERNEL_GS_BASE : Z := 0xc0000102.

(** [kvm_msrs__new]: a [calloc]ed list with room for [nmsrs] entries, none
    of them in use ([nmsrs] of the struct is 0). *)
Definition kvm_msrs__new (v : vcpu) (nmsrs : Z)
  : outcome (list kvm_msr_entry) :=
  _ <- die_unless (msrs_calloc_ok v) "out of memory" ;;
  Ok [].

(** [CONFIG_X86_64] is the build-time switch of the same name. *)
Definition kvm__setup_msrs (CONFIG_X86_64 : bool) (v : vcpu) (self : kvm)
  : outcome kvm :=
  fresh <- kvm_msrs__new v 100 ;;
  let entries :=
    fresh ++
    [ mk_msr MSR_IA32_SYSENTER_CS 0;
      mk_msr MSR_IA32_SYSENTER_ESP 0;
      mk_msr MSR_IA32_SYSENTER_EIP 0 ]
    ++ (if CONFIG_X86_64
        then [ mk_msr MSR_IA32_STAR 0;
               mk_msr MSR_IA32_CSTAR 0;
               mk_msr MSR_IA32_KERNEL_GS_BASE 0;
               mk_msr MSR_IA32_FMASK 0;
               mk_msr MSR_IA32_LSTAR 0 ]
        else [])
    ++ [ mk_msr MSR_IA32_TIME_STAMP_COUNTER 0 ] in
  let self := set_msrs self entries in
  _ <- die_unless (0 <=? set_msrs_ret v) "KVM_SET_MSRS failed" ;;
  Ok self.

Definition kvm__reset_vcpu (CONFIG_X86_64 : bool) (v : vcpu) (self : kvm)
  : outcome kvm :=
  self <- kvm__setup_sregs v self ;;
  self <- kvm__setup_regs v self ;;
  self <- kvm__setup_fpu v self ;;
  kvm__setup_msrs CONFIG_X86_64 v self.

(** The six segment registers that bring-up loads. *)
Definition boot_segments (sr : kvm_sregs) : list kvm_segment :=
  [cs sr; ss sr; ds sr; es sr; fs sr; gs sr].

(** Everything of a segment register but its selector and base. *)
Definition seg_rest (seg : kvm_segment) : list Z :=
  [limit seg; type_ seg; present seg; dpl seg; db seg; s seg; l seg; g seg;
   avl seg; unusable seg].

(** What bring-up leaves in a segment register: the boot selector, sixteen
    times it as base, and the rest as the hypervisor returned it. *)
Definition seg_booted (self : kvm) (seg seg0 : kvm_segment) : Prop :=
  selector seg = boot_selector self /\
  base seg = boot_selector self * 16 /\
  seg_rest seg = seg_rest seg0.

End Kvm.

(** ** Diagnostics: instruction pointers and memory dumps of kvm.c *)

Module Debug.
Import Kvm.

(** [ip - (cs << 4)] in [uint64_t], [cs] the selector of the cached CS *)
Definition ip_flat_to_real (self : kvm) (ip : Z) : Z :=
  let cs := u64 (selector (cs (sregs self))) in
  u64 (u64 ip - u64 (Z.shiftl cs 4)).

(** [self->sregs.cr0 & 0x01] *)
Definition is_in_protected_mode (self : kvm) : bool :=
  negb (Z.land (cr0 (sregs self)) 0x01 =? 0).

Definition ip_to_flat (self : kvm) (ip : Z) : Z :=
  if is_in_protected_mode self then u64 ip
  else
    let cs := u64 (selector (cs (sregs self))) in
    u64 (u64 ip + u64 (Z.shiftl cs 4)).

(** [p[0] ... p[n - 1]] through a host pointer *)
Definition host_load_bytes (self : kvm) (p : Z) (n : nat)
  : outcome (list byte) :=
  if host_range_ok self p (Z.of_nat n)
  then Ok (mem_read (ram self) (p - ram_start self) n)
  else Fault.

(** [*p] for a [uint64_t *p] *)
Definition host_load64 (self : kvm) (p : Z) : outcome Z :=
  bs <- host_load_bytes self p 8 ;;
  Ok (le_decode bs).

(** One line of [kvm__dump_mem]: the address printed and the eight bytes
    after it. *)
Record dump_line := mk_line { line_addr : Z; line_bytes : list byte }.

(** [for (n = 0; n < size; n+=8)] from [n] on; [size] is a multiple of 8
    and [todo] turns are left before [n] reaches it. *)
Fixpoint dump_loop (self : kvm) (addr p n : Z) (todo : nat)
  : outcome (list dump_line) :=
  match todo with
  | O => Ok []
  | S todo' =>
      if negb (host_ptr_in_ram self (u64 (p + n))) then Ok []   (* break *)
      else
        bs <- host_load_bytes self (u64 (p + n)) 8 ;;
        rest <- dump_loop self addr p (n + 8) todo' ;;
        Ok (mk_line (u64 (addr + n)) bs :: rest)
  end.

(** [kvm__dump_mem]: the lines printed *)
Definition kvm__dump_mem (self : kvm) (addr size : Z)
  : outcome (list dump_line) :=
  let size := Z.land (u64 size) (u64 (Z.lnot 7)) in
  if size =? 0 then Ok []
  else
    let p := guest_flat_to_host self addr in
    dump_loop self addr p 0 (Z.to_nat (size / 8)).

(** What the VCPU answers to the register ioctls of the dump functions;
    [None] is the negative return. *)
Record vcpu_state := mk_vcpu_state {
  now_regs : option kvm_regs;      (* KVM_GET_REGS *)
  now_sregs : option kvm_sregs     (* KVM_GET_SREGS *)
}.

(** [kvm__show_registers]: both register sets are fetched into locals and
    printed; the monitor is not changed.  The result is what is printed.
    (The message after a failed KVM_GET_SREGS names KVM_GET_REGS.) *)
Definition kvm__show_registers (v : vcpu_state)
  : outcome (kvm_regs * kvm_sregs) :=
  r <- match now_regs v with
       | Some r => Ok r
       | None => Die "KVM_GET_REGS failed"
       end ;;
  sr <- match now_sregs v with
        | Some sr => Ok sr
        | None => Die "KVM_GET_REGS failed"
        end ;;
  Ok (r, sr).

(** One byte of the "Code:" line; [at_ip] is set for the byte printed
    between angle brackets. *)
Record code_byte := mk_code { at_ip : bool; code : Z }.

(** [for (i = 0; i < code_len; i++, ip++)] with [todo] turns left *)
Fixpoint code_loop (self : kvm) (ip : Z) (todo : nat)
  : outcome (list code_byte) :=
  match todo with
  | O => Ok []
  | S todo' =>
      if negb (host_ptr_in_ram self ip) then Ok []              (* break *)
      else
        c <- host_load8 self ip ;;
        let here :=
          ip =? guest_flat_to_host self (ip_to_flat self (rip (regs self))) in
        rest <- code_loop self (u64 (ip + 1)) todo' ;;
        Ok (mk_code here c :: rest)
  end.

(** [kvm__show_code]: the monitor with the registers it fetched, the bytes
    of the "Code:" line and the lines under "Stack:". *)
Definition kvm__show_code (v : vcpu_state) (self : kvm)
  : outcome (kvm * list code_byte * list dump_line) :=
  let code_bytes := 64 in
  let code_prologue := u32 (code_bytes * 43) / 64 in
  let code_len := code_bytes in
  r <- match now_regs v with
       | Some r => Ok r
       | None => Die "KVM_GET_REGS failed"
       end ;;
  let self := set_regs self r in
  sr <- match now_sregs v with
        | Some sr => Ok sr
        | None => Die "KVM_GET_SREGS failed"
        end ;;
  let self := set_sregs self sr in
  let ip :=
    guest_flat_to_host self
      (u64 (ip_to_flat self (rip (regs self)) - code_prologue)) in
  code <- code_loop self ip (Z.to_nat code_len) ;;
  stack <- kvm__dump_mem self (rsp (regs self)) 32 ;;
  Ok (self, code, stack).

(** What [kvm__show_page_tables] prints. *)
Inductive page_tables :=
| NoTables                                (* it returned before printing *)
| Tables3 (pte4 pte3 pte2 : Z)
| Tables4 (pte4 pte3 pte2 pte1 : Z).

(** [pte & ~0xfff] in [uint64_t] *)
Definition page_base (pte : Z) : Z := Z.land pte (u64 (Z.lnot 0xfff)).

Definition kvm__show_page_tables (v : vcpu_state) (self : kvm)
  : outcome (kvm * page_tables) :=
  if negb (is_in_protected_mode self) then Ok (self, NoTables)
  else
    sr <- match now_sregs v with
          | Some sr => Ok sr
          | None => Die "KVM_GET_SREGS failed"
          end ;;
    let self := set_sregs self sr in
    let pte4 := guest_flat_to_host self (cr3 (sregs self)) in
    if negb (host_ptr_in_ram self pte4) then Ok (self, NoTables)
    else
      v4 <- host_load64 self pte4 ;;
      let pte3 := guest_flat_to_host self (page_base v4) in
      if negb (host_ptr_in_ram self pte3) then Ok (self, NoTables)
      else
        v3 <- host_load64 self pte3 ;;
        let pte2 := guest_flat_to_host self (page_base v3) in
        if negb (host_ptr_in_ram self pte2) then Ok (self, NoTables)
        else
          v2 <- host_load64 self pte2 ;;
          let pte1 := guest_flat_to_host self (page_base v2) in
          if negb (host_ptr_in_ram self pte1) then Ok (self, NoTables)
          else if negb (Z.land v2 (Z.shiftl 1 7) =? 0)
          then Ok (self, Tables3 v4 v3 v2)
          else
            v1 <- host_load64 self pte1 ;;
            Ok (self, Tables4 v4 v3 v2 v1).

End Debug.

Module Main.
Import Kvm.

(** ** The exit-dispatch loop of [main] *)

(** <linux/kvm.h> *)
Definition KVM_EXIT_UNKNOWN : Z := 0.
Definition KVM_EXIT_EXCEPTION : Z := 1.
Definition KVM_EXIT_IO : Z := 2.
Definition KVM_EXIT_HYPERCALL : Z := 3.
Definition KVM_EXIT_DEBUG : Z := 4.
Definition KVM_EXIT_HLT : Z := 5.
Definition KVM_EXIT_MMIO : Z := 6.
Definition KVM_EXIT_IRQ_WINDOW_OPEN : Z := 7.
Definition KVM_EXIT_SHUTDOWN : Z := 8.
Definition KVM_EXIT_FAIL_ENTRY : Z := 9.
Definition KVM_EXIT_INTR : Z := 10.
Definition KVM_EXIT_SET_TPR : Z := 11.
Definition KVM_EXIT_TPR_ACCESS : Z := 12.
Definition KVM_EXIT_S390_SIEIC : Z := 13.
Definition KVM_EXIT_S390_RESET : Z := 14.
Definition KVM_EXIT_DCR : Z := 15.
Definition KVM_EXIT_NMI : Z := 16.
Definition KVM_EXIT_INTERNAL_ERROR : Z := 17.

(** [kvm_exit_reasons] of kvm.c *)
Definition kvm_exit_reasons : list string :=
  [ "KVM_EXIT_UNKNOWN"; "KVM_EXIT_EXCEPTION"; "KVM_EXIT_IO";
    "KVM_EXIT_HYPERCALL"; "KVM_EXIT_DEBUG"; "KVM_EXIT_HLT"; "KVM_EXIT_MMIO";
    "KVM_EXIT_IRQ_WINDOW_OPEN"; "KVM_EXIT_SHUTDOWN"; "KVM_EXIT_FAIL_ENTRY";
    "KVM_EXIT_INTR"; "KVM_EXIT_SET_TPR"; "KVM_EXIT_TPR_ACCESS";
    "KVM_EXIT_S390_SIEIC"; "KVM_EXIT_S390_RESET"; "KVM_EXIT_DCR";
    "KVM_EXIT_NMI"; "KVM_EXIT_INTERNAL_ERROR" ]%string.

(** One turn of [for (;;)] as the monitor sees it: what [KVM_RUN] returned,
    the run area and the guest RAM it left, what the device handlers
    answer for this exit and what the register ioctls of the dump functions
    deliver. *)
Record run_event := mk_event {
  run_ret : Z;                 (* ioctl(vcpu_fd, KVM_RUN, 0) *)
  exit_reason : Z;             (* kvm->kvm_run->exit_reason *)
  hardware_exit_reason : Z;    (* kvm->kvm_run->hw.hardware_exit_reason *)
  emulate_io : bool;           (* kvm__emulate_io(...) *)
  emulate_mmio : bool;         (* kvm__emulate_mmio(...) *)
  guest_ram : mem;             (* guest RAM as the guest left it *)
  vcpu_now : Debug.vcpu_state  (* KVM_GET_REGS, KVM_GET_SREGS *)
}.

(** [kvm__run]: the guest runs on the RAM buffer until the next exit. *)
Definition kvm__run (self : kvm) (e : run_event) : outcome kvm :=
  _ <- die_unless (0 <=? run_ret e) "KVM_RUN failed" ;;
  Ok (set_ram self (guest_ram e)).

(** How one arm of the [switch] ends. *)
Inductive arm := Break | GotoExitKvm.

(** The [switch (kvm->kvm_run->exit_reason)] *)
Definition dispatch (self : kvm) (e : run_event) : outcome (arm * kvm) :=
  if exit_reason e =? KVM_EXIT_DEBUG then
    _ <- Debug.kvm__show_registers (vcpu_now e) ;;
    '(self, _, _) <- Debug.kvm__show_code (vcpu_now e) self ;;
    Ok (Break, self)
  else if exit_reason e =? KVM_EXIT_IO then
    let ret := emulate_io e in
    if negb ret then Ok (GotoExitKvm, self) else Ok (Break, self)
  else if exit_reason e =? KVM_EXIT_MMIO then
    let ret := emulate_mmio e in
    if negb ret then Ok (GotoExitKvm, self) else Ok (Break, self)
  else if exit_reason e =? KVM_EXIT_INTR then
    (* serial8250__interrupt(kvm) *) Ok (Break, self)
  else Ok (GotoExitKvm, self).

(** What [main] writes to stderr at [exit_kvm]. *)
Inductive stderr_line :=
| ExitReasonLine (reason : Z) (name : string)  (* KVM exit reason: ... *)
| ExitCodeLine (code : Z).                     (* KVM exit code: ... *)

Record main_result := mk_result { status : Z; stderr : list stderr_line }.

(** From the label [exit_kvm] to [return 0]. *)
Definition exit_kvm (self : kvm) (e : run_event) : outcome main_result :=
  name <- match nth_error kvm_exit_reasons (Z.to_nat (exit_reason e)) with
          | Some n => Ok n
          | None => Fault   (* read past the end of kvm_exit_reasons *)
          end ;;
  let out := [ExitReasonLine (exit_reason e) name] in
  let out :=
    if exit_reason e =? KVM_EXIT_UNKNOWN
    then out ++ [ExitCodeLine (hardware_exit_reason e)]
    else out in
  _ <- Debug.kvm__show_registers (vcpu_now e) ;;
  '(self, _, _) <- Debug.kvm__show_code (vcpu_now e) self ;;
  '(self, _) <- Debug.kvm__show_page_tables (vcpu_now e) self ;;
  (* kvm__delete(kvm) *)
  Ok (mk_result 0 out).

(** The loop over the exits the hypervisor delivers, then the tail of
    [main].  [None]: the events are used up and the loop is still running. *)
Fixpoint main_loop (self : kvm) (events : list run_event)
  : option (outcome main_result) :=
  match events with
  | [] => None
  | e :: rest =>
      match kvm__run self e with
      | Ok self =>
          match dispatch self e with
          | Ok (Break, self) => main_loop self rest
          | Ok (GotoExitKvm, self) => Some (exit_kvm self e)
          | Die msg => Some (Die msg)
          | Fault => Some Fault
          end
      | Die msg => Some (Die msg)
      | Fault => Some Fault
      end
  end.

(** Modelled from the spec: the exit status of [die] and [die_perror]
    (kvm/util.h, defined outside src/): "1 on any fatal path". *)
Definition die_status : Z := 1.

(** The exit status of the process, when it has one. *)
Definition process_status (o : outcome main_result) : option Z :=
  match o with
  | Ok r => Some (status r)
  | Die _ => Some die_status
  | Fault => None
  end.

(** [handle_sigquit]: the same dump as at [exit_kvm], then [exit(1)]. *)
Definition handle_sigquit (self : kvm) (v : Debug.vcpu_state) : outcome Z :=
  _ <- Debug.kvm__show_registers v ;;
  '(self, _, _) <- Debug.kvm__show_code v self ;;
  '(self, _) <- Debug.kvm__show_page_tables v self ;;
  (* kvm__delete(kvm) *)
  Ok 1.

End Main.

Module BiosRom.

(** ** The real-mode machine the BIOS stubs run on

    Only the registers the stubs name are kept.  Of the flags, the stubs
    branch on ZF and CF only, so the arithmetic instructions update these
    two bits and leave the others alone. *)

Record machine := mk_machine {
  eax : Z; ebx : Z; ecx : Z; edx : Z; edi : Z;
  esp : Z;
  cs : Z; ss : Z; fs : Z;
  ip : Z;
  eflags : Z;
  memory : mem
}.

Definition EFLAGS_CF : Z := Z.shiftl 1 0.
Definition EFLAGS_ZF : Z := Z.shiftl 1 6.

Definition set_eax (m : machine) (v : Z) : machine :=
  mk_machine v (ebx m) (ecx m) (edx m) (edi m) (esp m) (cs m) (ss m) (fs m)
             (ip m) (eflags m) (memory m).
Definition set_ebx (m : machine) (v : Z) : machine :=
  mk_machine (eax m) v (ecx m) (edx m) (edi m) (esp m) (cs m) (ss m) (fs m)
             (ip m) (eflags m) (memory m).
Definition set_ecx (m : machine) (v : Z) : machine :=
  mk_machine (eax m) (ebx m) v (edx m) (edi m) (esp m) (cs m) (ss m) (fs m)
             (ip m) (eflags m) (memory m).
Definition set_edx (m : machine) (v : Z) : machine :=
  mk_machine (eax m) (ebx m) (ecx m) v (edi m) (esp m) (cs m) (ss m) (fs m)
             (ip m) (eflags m) (memory m).
Definition set_edi (m : machine) (v : Z) : machine :=
  mk_machine (eax m) (ebx m) (ecx m) (edx m) v (esp m) (cs m) (ss m) (fs m)
             (ip m) (eflags m) (memory m).
Definition set_esp (m : machine) (v : Z) : machine :=
  mk_machine (eax m) (ebx m) (ecx m) (edx m) (edi m) v (cs m) (ss m) (fs m)
             (ip m) (eflags m) (memory m).
Definition set_cs (m : machine) (v : Z) : machine :=
  mk_machine (eax m) (ebx m) (ecx m) (edx m) (edi m) (esp m) v (ss m) (fs m)
             (ip m) (eflags m) (memory m).
Definition set_fs (m : machine) (v : Z) : machine :=
  mk_machine (eax m) (ebx m) (ecx m) (edx m) (edi m) (esp m) (cs m) (ss m) v
             (ip m) (eflags m) (memory m).
Definition set_ip (m : machine) (v : Z) : machine :=
  mk_machine (eax m) (ebx m) (ecx m) (edx m) (edi m) (esp m) (cs m) (ss m)
             (fs m) v (eflags m) (memory m).
Definition set_eflags (m : machine) (v : Z) : machine :=
  mk_machine (eax m) (ebx m) (ecx m) (edx m) (edi m) (esp m) (cs m) (ss m)
             (fs m) (ip m) v (memory m).
Definition set_memory (m : machine) (v : mem) : machine :=
  mk_machine (eax m) (ebx m) (ecx m) (edx m) (edi m) (esp m) (cs m) (ss m)
             (fs m) (ip m) (eflags m) v.

(** Sub-registers *)
Definition al (m : machine) : Z := Z.land (eax m) 0xff.
Definition ah (m : machine) : Z := Z.land (Z.shiftr (eax m) 8) 0xff.
Definition bx (m : machine) : Z := Z.land (ebx m) 0xffff.
Definition sp (m : machine) : Z := Z.land (esp m) 0xffff.
Definition set_bx (m : machine) (v : Z) : machine :=
  set_ebx m (Z.lor (Z.land (ebx m) 0xffff0000) (Z.land v 0xffff)).

(** Flag bits *)
Definition flag (m : machine) (bit : Z) : bool :=
  negb (Z.land (eflags m) bit =? 0).
Definition set_flag (m : machine) (bit : Z) (b : bool) : machine :=
  set_eflags m (if b then Z.lor (eflags m) bit
                else Z.land (eflags m) (Z.lnot bit)).

(** Real-mode address of [seg:off] *)
Definition linear (seg off : Z) : Z := seg * 16 + off.

Definition load (m : machine) (a : Z) (n : nat) : Z :=
  le_decode (mem_read (memory m) a n).
Definition store (m : machine) (a : Z) (n : nat) (v : Z) : machine :=
  set_memory m (mem_write (memory m) a (le_encode n v)).

(** The stack pointer moved by [d] bytes: SP wraps in its 16 bits, the
    upper half of ESP stays. *)
Definition sp_add (e d : Z) : Z := e - e mod 2 ^ 16 + (e mod 2 ^ 16 + d) mod 2 ^ 16.

(** [push] and [pop] of [n] bytes on the 16-bit stack *)
Definition push (n : nat) (v : Z) (m : machine) : machine :=
  let m := set_esp m (sp_add (esp m) (- Z.of_nat n)) in
  store m (linear (ss m) (sp m)) n v.
Definition pop_value (n : nat) (m : machine) : Z :=
  load m (linear (ss m) (sp m)) n.
Definition pop_done (n : nat) (m : machine) : machine :=
  set_esp m (sp_add (esp m) (Z.of_nat n)).

(** [pushw %r], [pushl %r], [popw %r], [popl %r] *)
Definition pushw (r : machine -> Z) (m : machine) : machine := push 2 (r m) m.
Definition pushl (r : machine -> Z) (m : machine) : machine := push 4 (r m) m.
Definition popw (set : machine -> Z -> machine) (m : machine) : machine :=
  pop_done 2 (set m (pop_value 2 m)).
Definition popl (set : machine -> Z -> machine) (m : machine) : machine :=
  pop_done 4 (set m (pop_value 4 m)).

(** Instructions in program order *)
Notation "m |> f" := (f m) (at level 45, left associativity, only parsing).

(** Modelled from the spec: the [IRET] macro of kvm/assembly.h (not under
    src/): "a single IRET", opcode 0xCF, the 16-bit interrupt return that
    pops IP, CS and FLAGS. *)
Definition IRET (m : machine) : machine :=
  let m := pop_done 2 (set_ip m (pop_value 2 m)) in
  let m := pop_done 2 (set_cs m (pop_value 2 m)) in
  pop_done 2
    (set_eflags m (Z.lor (Z.land (eflags m) 0xffff0000) (pop_value 2 m))).

(** [test $imm, reg]: AND, result dropped; CF cleared, ZF from the result *)
Definition test (imm v : Z) (m : machine) : machine :=
  set_flag (set_flag m EFLAGS_CF false) EFLAGS_ZF (Z.land v imm =? 0).

(** [cmp $imm, reg]: reg - imm, result dropped; CF is the borrow *)
Definition cmp (imm v : Z) (m : machine) : machine :=
  set_flag (set_flag m EFLAGS_CF (v <? imm)) EFLAGS_ZF (v =? imm).

(** ** [bios_intfake] *)
Definition bios_intfake (m : machine) : machine := IRET m.

Section Int10.

(** macro.S and kvm/bios.h are not under src/: the two stack macros, the
    VGA constants and the value of the label [cursor] are parameters. *)
Variable stack_swap : machine -> machine.
Variable stack_restore : machine -> machine.
Variable VGA_RAM_SEG : Z.
Variable VGA_PAGE_SIZE : Z.
Variable cursor : Z.

(** From [putchar:] to the label [1:].  Under [.code16gcc] a [push] or
    [pop] of a segment register moves 4 bytes. *)
Definition putchar (m : machine) : machine :=
  let m := stack_swap m in
  let m := push 4 (fs m) m in                            (* push %fs *)
  let m := push 2 (bx m) m in                            (* push %bx *)
  let m := set_bx m VGA_RAM_SEG in                       (* mov $VGA_RAM_SEG, %bx *)
  let m := set_fs m (bx m) in                            (* mov %bx, %fs *)
  let m := set_bx m (load m (linear (cs m) cursor) 2) in (* mov %cs:(cursor), %bx *)
  let m := store m (linear (fs m) (bx m)) 1 (al m) in    (* mov %al, %fs:(%bx) *)
  let m :=                                               (* inc %bx *)
    let r := Z.land (bx m + 1) 0xffff in
    set_flag (set_bx m r) EFLAGS_ZF (r =? 0) in
  let m := test VGA_PAGE_SIZE (bx m) m in                (* test $VGA_PAGE_SIZE, %bx *)
  let m :=
    if flag m EFLAGS_CF then m                           (* jb putchar_new *)
    else                                                 (* xor %bx, %bx *)
      set_flag (set_flag (set_bx m 0) EFLAGS_CF false) EFLAGS_ZF true in
  let m := store m (linear (fs m) cursor) 2 (bx m) in    (* mov %bx, %fs:(cursor) *)
  let m := pop_done 2 (set_bx m (pop_value 2 m)) in      (* pop %bx *)
  let m := pop_done 4 (set_fs m (Z.land (pop_value 4 m) 0xffff)) in (* pop %fs *)
  stack_restore m.

(** ** [bios_int10] *)
Definition bios_int10 (m : machine) : machine :=
  let m := test 0x0e (ah m) m in                         (* test $0x0e, %ah *)
  if negb (flag m EFLAGS_ZF) then IRET m                 (* jne 1f *)
  else IRET (putchar m).

End Int10.

Section Int15.

(** [e820_query_map] is defined outside src/: the effect of
    [call e820_query_map], up to and including its return, is a
    parameter. *)
Variable call_e820_query_map : machine -> machine.

(** From [pushw %fs] to [popw %fs]: the register frame for
    [e820_query_map], the call, and the registers taken back. *)
Definition e820_call (m : machine) : machine :=
  m |> pushw fs
    |> pushl edx
    |> pushl ecx
    |> pushl edi
    |> pushl ebx
    |> pushl eax
    |> (fun m => set_eax m (esp m))      (* movl %esp, %eax *)
    |> call_e820_query_map               (* call e820_query_map *)
    |> popl set_eax
    |> popl set_ebx
    |> popl set_edi
    |> popl set_ecx
    |> popl set_edx
    |> popw set_fs.

(** [andl $~EFLAGS_CF, 0x4(%esp)] *)
Definition clear_cf_image (m : machine) : machine :=
  let a := linear (ss m) (u32 (esp m + 4)) in
  let r := Z.land (load m a 4) (u32 (Z.lnot EFLAGS_CF)) in
  let m := store m a 4 r in
  set_flag (set_flag m EFLAGS_CF false) EFLAGS_ZF (r =? 0).

(** From [pushw %fs] to the label [1:] *)
Definition e820 (m : machine) : machine := clear_cf_image (e820_call m).

(** ** [bios_int15] *)
Definition bios_int15 (m : machine) : machine :=
  let m := cmp 0xE820 (eax m) m in                       (* cmp $0xE820, %eax *)
  if negb (flag m EFLAGS_ZF) then IRET m                 (* jne 1f *)
  else IRET (e820 m).

End Int15.

(** The interrupt frame at [ss:sp] on entry to a handler holds IP, CS and
    FLAGS; this is its FLAGS image. *)
Definition saved_flags_addr (m : machine) : Z := linear (ss m) (esp m + 4).
Definition saved_flags (mm : mem) (m : machine) : Z :=
  le_decode (mem_read mm (saved_flags_addr m) 2).

(** What a callee owes its caller: it returns with the stack pointer and
    the stack segment it was called with. *)
Definition keeps_stack (f : machine -> machine) : Prop :=
  forall m, esp (f m) = esp m /\ ss (f m) = ss m.

(** A register setter that leaves the stack registers alone. *)
Definition off_stack (set : machine -> Z -> machine) : Prop :=
  forall m v, esp (set m v) = esp m /\ ss (set m v) = ss m.

(** The frame of the handler lies inside the 16-bit stack segment. *)
Definition frame_in_segment (m : machine) : Prop :=
  0 <= esp m /\ esp m + 8 <= 2 ^ 16.

End BiosRom.

(** ** Concrete inputs *)

Module Samples.
Import Kvm.

(** A host on which every step of [kvm__init] works; its CPUID.1:ECX has
    bit 5 set. *)
Definition good_host : host :=
  mk_host (Z.shiftl 1 5) true (fun _ => 3) false 12 4
          (fun _ => 1) 0 0 (Some 0x7f0000000000) (fun _ => x00)
          0 0 5 12288 true.

(** A monitor with zeroed RAM at a typical address. *)
Definition monitor0 : kvm :=
  mk_kvm 0x7f0000000000 (64 * 1024 * 1024) (fun _ => x00) 0 0 0
         zero_regs zero_sregs zero_fpu [] (repeat (mk_intr 0 0) 256).

(** Modelled from the spec: the values of kvm/bios.h for the samples.  The
    stubs start at the BIOS data area (0x400), each at a 16-byte boundary;
    a real-mode segment is the address shifted right by 4; [intfake] is
    the single IRET (0xCF).  The bytes of [int10] are a stand-in. *)
Definition bios0 : bios_env :=
  mk_bios 0x400 (fun addr align => (addr + align - 1) / align * align)
          (fun addr => Z.shiftr addr 4) 4 [xcf] [xcf].

(** A 1 KiB boot sector and setup header: zeroes but for [setup_sects],
    the magic, the protocol version and [cmdline_size]. *)
Definition bzimage_header (version setup_sects cmdline_size : Z) : list byte :=
  repeat x00 (Z.to_nat hdr_setup_sects)
  ++ le_encode 1 setup_sects
  ++ repeat x00 (Z.to_nat (hdr_header - hdr_setup_sects - 1))
  ++ BZIMAGE_MAGIC
  ++ le_encode 2 version
  ++ repeat x00 (Z.to_nat (hdr_cmdline_size - hdr_version - 2))
  ++ le_encode 4 cmdline_size
  ++ repeat x00 (Z.to_nat (1024 - hdr_cmdline_size - 4)).

(** Protocol 2.02, one setup sector after the boot sector, then three
    bytes of kernel; the command line may take 8 bytes. *)
Definition good_bzimage : fd :=
  mkfd (bzimage_header 0x0202 1 8 ++ [x01; x02; x03]) true 0.

(** The same header with protocol version 2.01. *)
Definition old_bzimage : fd := mkfd (bzimage_header 0x0201 1 8) true 0.

(** Protocol 2.02 with [setup_sects = 0]: five sectors are due, two are
    there. *)
Definition short_bzimage : fd := mkfd (bzimage_header 0x0202 0 8) true 0.

(** The header of [good_bzimage] with [cmdline_size = 0]. *)
Definition nosize_bzimage : fd :=
  mkfd (bzimage_header 0x0202 1 0 ++ [x01; x02; x03]) true 0.

(** The two HLTs of a minimal flat binary, and the empty file. *)
Definition flat_hlt : fd := mkfd [xf4; xf4] true 0.
Definition empty_file : fd := mkfd [] true 0.

(** abcdefghij *)
Definition cmdline0 : list byte :=
  [x61; x62; x63; x64; x65; x66; x67; x68; x69; x6a].

Definition stack0 : mem := fun _ => x00.

(** A VCPU stopped in real mode at 0x1000:0x0200 with the stack pointer at
    0x8000, and one stopped at 0x0000:0x0010. *)
Definition real_regs (ip : Z) : kvm_regs :=
  mk_regs 0 0 0 0 0 0 0x8000 0x8000 0 0 0 0 0 0 0 0 ip 0x2.
Definition real_sregs (sel : Z) : kvm_sregs :=
  mk_sregs (mk_segment (sel * 16) 0xffff sel 11 1 0 0 1 0 0 0 0)
           zero_segment zero_segment zero_segment zero_segment zero_segment
           zero_segment zero_segment zero_dtable zero_dtable
           0x60000010 0 0 0 0 0 0 (repeat 0 4).
Definition stopped (sel ip : Z) : Debug.vcpu_state :=
  Debug.mk_vcpu_state (Some (real_regs ip)) (Some (real_sregs sel)).

(** Exits of the run loop: HLT, UNKNOWN with a hardware code, an I/O exit
    whose handler returns false, SHUTDOWN, a timer INTR, and a DEBUG exit
    of single-stepping; guest RAM is zero and the VCPU stands in real mode
    at 0x1000:0x0200. *)
Definition exit_event (reason code : Z) (io : bool) : Main.run_event :=
  Main.mk_event 0 reason code io true (fun _ => x00) (stopped 0x1000 0x200).
Definition hlt_event : Main.run_event := exit_event Main.KVM_EXIT_HLT 0 true.
Definition unknown_event : Main.run_event :=
  exit_event Main.KVM_EXIT_UNKNOWN 0x21 true.
Definition io_unhandled_event : Main.run_event :=
  exit_event Main.KVM_EXIT_IO 0 false.
Definition shutdown_event : Main.run_event :=
  exit_event Main.KVM_EXIT_SHUTDOWN 0 true.
Definition intr_event : Main.run_event := exit_event Main.KVM_EXIT_INTR 0 true.
Definition debug_event : Main.run_event := exit_event Main.KVM_EXIT_DEBUG 0 true.

(** A real-mode caller at 0x1000:0x1234 with FLAGS 0x0202 (carry clear)
    has executed INT with [eax] in EAX: the frame IP, CS, FLAGS lies at
    0000:7000. *)
Definition int_frame : mem :=
  mem_write (fun _ => x00) 0x7000 [x34; x12; x00; x10; x02; x02].
Definition int_call (eax : Z) : BiosRom.machine :=
  BiosRom.mk_machine eax 0 0 0 0 0x7000 0x40 0 0 0 0x2 int_frame.

(** Teletype output of the letter A, and subfunction 0 with the same
    AL. *)
Definition tty_call : BiosRom.machine := int_call 0x0E41.
Definition mode_call : BiosRom.machine := int_call 0x0041.

(** INT 15h with AX = 0x5300, and with EAX = 0xE820. *)
Definition apm_call : BiosRom.machine := int_call 0x5300.
Definition e820_entry : BiosRom.machine := int_call 0xE820.

(** A monitor after a bzImage load, and a VCPU whose ioctls all work. *)
Definition booted : kvm := set_boot monitor0 0x1000 0x200 0x8000.
Definition vcpu0 : vcpu :=
  mk_vcpu (Some (mk_sregs (mk_segment 0xffff0000 0xffff 0xf000 11 1 0 0 1 0 0 0 0)
                          (mk_segment 0 0xffff 0 3 1 0 0 1 0 0 0 0)
                          (mk_segment 0 0xffff 0 3 1 0 0 1 0 0 0 0)
                          (mk_segment 0 0xffff 0 3 1 0 0 1 0 0 0 0)
                          (mk_segment 0 0xffff 0 3 1 0 0 1 0 0 0 0)
                          (mk_segment 0 0xffff 0 3 1 0 0 1 0 0 0 0)
                          (mk_segment 0 0xffff 0 11 1 0 0 0 0 0 0 0)
                          (mk_segment 0 0xffff 0 2 1 0 0 0 0 0 0 0)
                          (mk_dtable 0 0xffff) (mk_dtable 0 0xffff)
                          0x60000010 0 0 0 0 0 0xfee00900 (repeat 0 4)))
          0 0 0 true 0.

End Samples.

(** ** The command line of [main] (main.c) *)

Module Args.

(** [!strncmp(arg, option, strlen(option))] *)
Definition option_matches (arg option : string) : bool :=
  String.prefix option arg.

(** [&arg[n]] for a string of at least [n] characters *)
Fixpoint skip (n : nat) (s : string) : string :=
  match n, s with
  | O, _ => s
  | S n', String _ r => skip n' r
  | S _, EmptyString => EmptyString
  end.

(** [arg[0]]: the terminating NUL for the empty string *)
Definition first_char (s : string) : ascii :=
  match s with
  | String c _ => c
  | EmptyString => Ascii.zero
  end.

(** <ctype.h> in the C locale *)
Definition isspace (c : ascii) : bool :=
  let n := nat_of_ascii c in
  (((9 <=? n) && (n <=? 13)) || (n =? 32))%nat.

Definition isdigit (c : ascii) : bool :=
  let n := nat_of_ascii c in
  ((48 <=? n) && (n <=? 57))%nat.

Fixpoint skip_spaces (s : string) : string :=
  match s with
  | String c r => if isspace c then skip_spaces r else s
  | EmptyString => s
  end.

(** The decimal digits at the head of [s], after the value [acc] *)
Fixpoint digits (s : string) (acc : Z) : Z :=
  match s with
  | String c r =>
      if isdigit c
      then digits r (10 * acc + (Z.of_nat (nat_of_ascii c) - 48))
      else acc
  | EmptyString => acc
  end.

Definition LONG_MAX : Z := 2 ^ 63 - 1.
Definition LONG_MIN : Z := - 2 ^ 63.

(** [atol]: white space, an optional sign, decimal digits; a value that a
    [long] cannot hold is undefined. *)
Definition atol (s : string) : outcome Z :=
  let s := skip_spaces s in
  let v :=
    match s with
    | String "-" r => - digits r 0
    | String "+" r => digits r 0
    | _ => digits s 0
    end in
  if (LONG_MIN <=? v) && (v <=? LONG_MAX) then Ok v else Fault.

(** [v << k] on a [long]: undefined for a negative [v] and on overflow *)
Definition shl_long (v k : Z) : outcome Z :=
  if (0 <=? v) && (v * 2 ^ k <=? LONG_MAX) then Ok (v * 2 ^ k) else Fault.

(** The locals of [main] that the options set, the global [ioport_debug]
    and the warnings written. *)
Record options := mk_options {
  kernel_filename : option string;
  initrd_filename : option string;
  image_filename : option string;
  kernel_cmdline : option string;
  kvm_dev : string;
  ram_size : Z;
  single_step : bool;
  ioport_debug : bool;
  warnings : list string
}.

(** The initialisers of [main]; [ioport_debug] is defined outside src/ and
    has the value [dbg] when [main] starts. *)
Definition initial (dbg : bool) : options :=
  mk_options None None None None "/dev/kvm" (Z.shiftl 64 20) false dbg [].

Definition set_kernel_filename (o : options) (v : string) : options :=
  mk_options (Some v) (initrd_filename o) (image_filename o)
             (kernel_cmdline o) (kvm_dev o) (ram_size o) (single_step o)
             (ioport_debug o) (warnings o).
Definition set_initrd_filename (o : options) (v : string) : options :=
  mk_options (kernel_filename o) (Some v) (image_filename o)
             (kernel_cmdline o) (kvm_dev o) (ram_size o) (single_step o)
             (ioport_debug o) (warnings o).
Definition set_image_filename (o : options) (v : string) : options :=
  mk_options (kernel_filename o) (initrd_filename o) (Some v)
             (kernel_cmdline o) (kvm_dev o) (ram_size o) (single_step o)
             (ioport_debug o) (warnings o).
Definition set_kernel_cmdline (o : options) (v : string) : options :=
  mk_options (kernel_filename o) (initrd_filename o) (image_filename o)
             (Some v) (kvm_dev o) (ram_size o) (single_step o)
             (ioport_debug o) (warnings o).
Definition set_kvm_dev (o : options) (v : string) : options :=
  mk_options (kernel_filename o) (initrd_filename o) (image_filename o)
             (kernel_cmdline o) v (ram_size o) (single_step o)
             (ioport_debug o) (warnings o).
Definition set_ram_size (o : options) (v : Z) : options :=
  mk_options (kernel_filename o) (initrd_filename o) (image_filename o)
             (kernel_cmdline o) (kvm_dev o) v (single_step o)
             (ioport_debug o) (warnings o).
Definition set_single_step (o : options) (v : bool) : options :=
  mk_options (kernel_filename o) (initrd_filename o) (image_filename o)
             (kernel_cmdline o) (kvm_dev o) (ram_size o) v
             (ioport_debug o) (warnings o).
Definition set_ioport_debug (o : options) (v : bool) : options :=
  mk_options (kernel_filename o) (initrd_filename o) (image_filename o)
             (kernel_cmdline o) (kvm_dev o) (ram_size o) (single_step o)
             v (warnings o).
Definition warning (o : options) (arg : string) : options :=
  mk_options (kernel_filename o) (initrd_filename o) (image_filename o)
             (kernel_cmdline o) (kvm_dev o) (ram_size o) (single_step o)
             (ioport_debug o) (warnings o ++ [arg]).

(** One turn of [for (i = 1; i < argc; i++)] on [arg = argv[i]] *)
Definition parse_arg (o : options) (arg : string) : outcome options :=
  if option_matches arg "--kernel=" then
    Ok (set_kernel_filename o (skip 9 arg))
  else if option_matches arg "--image=" then
    Ok (set_image_filename o (skip 8 arg))
  else if option_matches arg "--initrd=" then
    Ok (set_initrd_filename o (skip 9 arg))
  else if option_matches arg "--params=" then
    Ok (set_kernel_cmdline o (skip 9 arg))
  else if option_matches arg "--kvm-dev=" then
    Ok (set_kvm_dev o (skip 10 arg))
  else if option_matches arg "--single-step" then
    Ok (set_single_step o true)
  else if option_matches arg "--mem=" then
    n <- atol (skip 6 arg) ;;
    val <- shl_long n 20 ;;
    if val <? ram_size o
    then Die "Not enough memory specified: %sMB (min %luMB)"
    else Ok (set_ram_size o val)
  else if option_matches arg "--ioport-debug" then
    Ok (set_ioport_debug o true)
  else
    (* any unspecified arg is kernel image *)
    if negb (Ascii.eqb (first_char arg) "-")
    then Ok (set_kernel_filename o arg)
    else Ok (warning o arg).               (* Unknown option: %s *)

(** The whole loop over [argv[1]] ... [argv[argc - 1]] *)
Fixpoint parse_args (o : options) (args : list string) : outcome options :=
  match args with
  | [] => Ok o
  | arg :: rest =>
      o <- parse_arg o arg ;;
      parse_args o rest
  end.

(** How the start of [main] ends. *)
Inductive startup :=
| Usage                  (* usage(argv): the usage line and exit(1) *)
| Start (o : options).   (* on to kvm__init *)

(** [main] up to the call of [kvm__init], on [argv[1]] ... *)
Definition main_options (dbg : bool) (args : list string) : outcome startup :=
  o <- parse_args (initial dbg) args ;;
  match kernel_filename o with
  | None => Ok Usage
  | Some _ => Ok (Start o)
  end.

End Args.

(** ** The register frame of INT 15h, E820 (bios-rom.S) *)

Module E820.
Import BiosRom.

(** From [pushw %fs] to [movl %esp, %eax]: the machine as
    [e820_query_map] is called. *)
Definition e820_enter (m : machine) : machine :=
  m |> pushw fs
    |> pushl edx
    |> pushl ecx
    |> pushl edi
    |> pushl ebx
    |> pushl eax
    |> (fun m => set_eax m (esp m)).

(** From [popl %eax] to [popw %fs]: the registers taken back. *)
Definition e820_leave (m : machine) : machine :=
  m |> popl set_eax
    |> popl set_ebx
    |> popl set_edi
    |> popl set_ecx
    |> popl set_edx
    |> popw set_fs.

End E820.

(** ** More concrete inputs *)

Module MoreSamples.
Import Kvm.

(** A host whose hypervisor lacks KVM_CAP_COALESCED_MMIO, the first entry
    of [kvm_req_ext], and one that lacks KVM_CAP_PIT2, the third. *)
Definition no_mmio_host : host :=
  mk_host (Z.shiftl 1 5) true (fun _ => 3) false 12 4
          (fun e => if e =? KVM_CAP_COALESCED_MMIO then 0 else 1)
          0 0 (Some 0x7f0000000000) (fun _ => x00)
          0 0 5 12288 true.
Definition no_pit2_host : host :=
  mk_host (Z.shiftl 1 5) true (fun _ => 3) false 12 4
          (fun e => if e =? KVM_CAP_PIT2 then 0 else 1)
          0 0 (Some 0x7f0000000000) (fun _ => x00)
          0 0 5 12288 true.

(** 64 MiB of zeroes: more than the RAM above 0x10000 holds. *)
Definition huge_file : fd :=
  mkfd (repeat x00 (Z.to_nat (64 * 1024 * 1024))) true 0.

(** Guest RAM that holds its own address: byte [a] is [a mod 256]. *)
Definition ramp : kvm := set_ram Samples.monitor0 (fun a => byte_of_Z a).

End MoreSamples.

(** * Properties *)

(** ** Bytes and memory *)

Lemma Z_of_byte_range (b : byte) : 0 <= Z_of_byte b < 256.
Proof.
  unfold Z_of_byte. pose proof (Byte.to_N_bounded b) as Hb. lia.
Qed.

Lemma Z_of_byte_of_Z (x : Z) : Z_of_byte (byte_of_Z x) = x mod 256.
Proof.
  unfold Z_of_byte, byte_of_Z.
  assert (Hr : 0 <= x mod 256 < 256) by (apply Z.mod_pos_bound; lia).
  destruct (Byte.of_N (Z.to_N (x mod 256))) as [b|] eqn:E.
  - apply Byte.to_of_N in E. rewrite E. lia.
  - apply Byte.of_N_None_iff in E. lia.
Qed.

Lemma byte_of_Z_of_byte (b : byte) : byte_of_Z (Z_of_byte b) = b.
Proof.
  unfold byte_of_Z. rewrite Z.mod_small by apply Z_of_byte_range.
  unfold Z_of_byte. rewrite N2Z.id, Byte.of_to_N. reflexivity.
Qed.

Lemma in_range_true lo len a : in_range lo len a = true <-> lo <= a < lo + len.
Proof. unfold in_range. rewrite andb_true_iff, Z.leb_le, Z.ltb_lt. tauto. Qed.

Lemma in_range_false lo len a :
  in_range lo len a = false <-> a < lo \/ lo + len <= a.
Proof.
  unfold in_range. rewrite andb_false_iff, Z.leb_gt, Z.ltb_ge. tauto.
Qed.

Lemma mem_write_in m off bs a :
  off <= a < off + Z.of_nat (length bs) ->
  mem_write m off bs a = nth (Z.to_nat (a - off)) bs x00.
Proof.
  intros H. unfold mem_write.
  apply in_range_true in H. rewrite H. reflexivity.
Qed.

Lemma mem_write_out m off bs a :
  a < off \/ off + Z.of_nat (length bs) <= a ->
  mem_write m off bs a = m a.
Proof.
  intros H. unfold mem_write.
  apply in_range_false in H. rewrite H. reflexivity.
Qed.

Lemma mem_write_nil m off : mem_write m off [] = m.
Proof.
  apply functional_extensionality. intros a.
  apply mem_write_out. cbn. lia.
Qed.

Lemma mem_write_app m off xs ys :
  mem_write (mem_write m off xs) (off + Z.of_nat (length xs)) ys
  = mem_write m off (xs ++ ys).
Proof.
  apply functional_extensionality. intros a.
  destruct (Z_lt_dec a off) as [Hlo|Hlo].
  { rewrite !mem_write_out by lia. reflexivity. }
  destruct (Z_lt_dec a (off + Z.of_nat (length xs))) as [Hx|Hx].
  { rewrite mem_write_out by lia.
    rewrite !mem_write_in by (rewrite ?length_app; lia).
    rewrite app_nth1 by lia. reflexivity. }
  destruct (Z_lt_dec a (off + Z.of_nat (length xs) + Z.of_nat (length ys)))
    as [Hy|Hy].
  { rewrite !mem_write_in by (rewrite ?length_app; lia).
    rewrite app_nth2 by lia. f_equal. lia. }
  rewrite !mem_write_out by (rewrite ?length_app; lia). reflexivity.
Qed.

Lemma mem_read_length m off n : length (mem_read m off n) = n.
Proof. unfold mem_read. rewrite length_map, length_seq. reflexivity. Qed.

Lemma mem_read_ext m m' off n :
  (forall a, off <= a < off + Z.of_nat n -> m a = m' a) ->
  mem_read m off n = mem_read m' off n.
Proof.
  intros H. unfold mem_read. apply map_ext_in. intros i Hi.
  apply in_seq in Hi. apply H. lia.
Qed.

Lemma mem_read_nth m off n i d :
  (i < n)%nat -> nth i (mem_read m off n) d = m (off + Z.of_nat i).
Proof.
  intros Hi. unfold mem_read.
  set (f := fun j : nat => m (off + Z.of_nat j)).
  rewrite nth_indep with (d' := f O) by (rewrite length_map, length_seq; lia).
  rewrite map_nth, seq_nth by lia. reflexivity.
Qed.

Lemma mem_read_write m off bs :
  mem_read (mem_write m off bs) off (length bs) = bs.
Proof.
  apply nth_ext with (d := x00) (d' := x00).
  - apply mem_read_length.
  - intros i Hi. rewrite mem_read_length in Hi.
    rewrite mem_read_nth by lia.
    rewrite mem_write_in by lia. f_equal. lia.
Qed.

(** ** Outcomes *)

Lemma die_unless_ok c msg u : die_unless c msg = Ok u -> c = true.
Proof. unfold die_unless. destruct c; [reflexivity | discriminate]. Qed.

(** Splits every hypothesis [x <- m ;; f = Ok r] into the success of [m]
    and of what follows it. *)
Ltac binds :=
  repeat match goal with
  | H : bind ?m _ = Ok _ |- _ =>
      let E := fresh "E" in
      destruct m eqn:E; cbn [bind] in H; try discriminate H
  | H : Ok _ = Ok _ |- _ => inversion H; subst; clear H
  | H : die_unless _ _ = Ok _ |- _ => apply die_unless_ok in H
  end.

Module KvmFacts.
Import Kvm.

(** ** Address translation *)

Lemma u64_small x : 0 <= x < 2 ^ 64 -> u64 x = x.
Proof. apply Z.mod_small. Qed.

Lemma kvm__init_ram vmx h dev self :
  kvm__init vmx h dev = Ok self ->
  memalign h = Some (ram_start self) /\ ram_size self = 64 * 1024 * 1024.
Proof.
  unfold kvm__init, kvm__new. intros H. binds.
  destruct (memalign h) as [p|]; [|discriminate]. binds.
  cbn. auto.
Qed.

Lemma kvm__init_monitor_ok vmx h dev self :
  host_ok h -> kvm__init vmx h dev = Ok self -> monitor_ok self.
Proof.
  intros Hh H. apply kvm__init_ram in H. destruct H as [Hp Hs].
  split; [|exact Hs]. rewrite Hs. apply Hh, Hp.
Qed.

Lemma flat_to_host_eq self off :
  monitor_ok self -> 0 <= off <= ram_size self ->
  guest_flat_to_host self off = ram_start self + off.
Proof.
  intros [(Hp & Hs & Hend) _] Hoff. unfold guest_flat_to_host.
  rewrite (u64_small off) by lia. apply u64_small. lia.
Qed.

Lemma segment_to_flat_eq sel off :
  0 <= sel < 2 ^ 16 -> 0 <= off < 2 ^ 16 ->
  segment_to_flat sel off = Z.shiftl sel 4 + off.
Proof.
  intros Hs Ho. unfold segment_to_flat, u16, u32.
  rewrite (Z.mod_small sel), (Z.mod_small off) by lia.
  rewrite Z.shiftl_mul_pow2 by lia.
  rewrite (Z.mod_small (sel * 2 ^ 4)) by lia.
  apply Z.mod_small. lia.
Qed.

(** C8.  After a successful [kvm__init], [guest_flat_to_host] maps every
    offset below [ram_size] to a host pointer inside
    [ram_start, ram_start + ram_size), for which [host_ptr_in_ram] holds;
    and for every 16-bit selector and offset [guest_real_to_host] is
    [guest_flat_to_host] of [(sel << 4) + off]. *)
Theorem translation_in_ram (KVM__X86_FEATURE_VMX : Z) (h : host)
  (dev : string) (self : kvm) :
  host_ok h ->
  kvm__init KVM__X86_FEATURE_VMX h dev = Ok self ->
  (forall off, 0 <= off < ram_size self ->
     ram_start self <= guest_flat_to_host self off
       < ram_start self + ram_size self
     /\ host_ptr_in_ram self (guest_flat_to_host self off) = true)
  /\ (forall sel off, 0 <= sel < 2 ^ 16 -> 0 <= off < 2 ^ 16 ->
        guest_real_to_host self sel off
        = guest_flat_to_host self (Z.shiftl sel 4 + off)).
Proof.
  intros Hh Hinit. pose proof (kvm__init_monitor_ok _ _ _ _ Hh Hinit) as Hok.
  split.
  - intros off Hoff. rewrite flat_to_host_eq by (auto; lia).
    split; [lia|]. unfold host_ptr_in_ram.
    destruct Hok as [(Hp & Hs & Hend) _].
    rewrite u64_small by lia.
    apply andb_true_iff. rewrite Z.leb_le, Z.ltb_lt. lia.
  - intros sel off Hs Ho. unfold guest_real_to_host.
    rewrite segment_to_flat_eq by assumption. reflexivity.
Qed.

Lemma translation_in_ram_witness :
  exists self,
    kvm__init 5 Samples.good_host "/dev/kvm" = Ok self /\
    ((forall off, 0 <= off < ram_size self ->
        ram_start self <= guest_flat_to_host self off
          < ram_start self + ram_size self
        /\ host_ptr_in_ram self (guest_flat_to_host self off) = true)
     /\ (forall sel off, 0 <= sel < 2 ^ 16 -> 0 <= off < 2 ^ 16 ->
           guest_real_to_host self sel off
           = guest_flat_to_host self (Z.shiftl sel 4 + off))).
Proof.
  eexists. split.
  - vm_compute. reflexivity.
  - apply (translation_in_ram 5 Samples.good_host "/dev/kvm").
    + intros p Hp. vm_compute in Hp. inversion Hp; subst.
      unfold valid_buffer. lia.
    + vm_compute. reflexivity.
Defined.

(** ** CPU bring-up *)

Lemma selector_to_base_eq sel :
  0 <= sel < 2 ^ 16 -> selector_to_base sel = sel * 16.
Proof.
  intros H. unfold selector_to_base, u16, u32.
  rewrite (Z.mod_small sel) by lia. apply Z.mod_small. lia.
Qed.

Lemma seg_load_spec seg sel :
  0 <= sel < 2 ^ 16 ->
  let seg' := seg_load seg sel (selector_to_base sel) in
  selector seg' = sel /\ base seg' = sel * 16 /\ seg_rest seg' = seg_rest seg.
Proof.
  intros H. cbn. rewrite selector_to_base_eq by assumption.
  unfold u16, u64. rewrite !Z.mod_small by lia. auto.
Qed.

(** C9.  When [kvm__reset_vcpu] returns, CS, SS, DS, ES, FS and GS hold the
    boot selector and sixteen times it as base, their other fields and the
    GDT, IDT, LDT are what [KVM_GET_SREGS] returned, [rflags] is 2, [rip]
    is [boot_ip] and [rsp], [rbp] are [boot_sp]; and whenever [boot_ip]
    exceeds 0xFFFF bring-up dies. *)
Theorem reset_vcpu_state (CONFIG_X86_64 : bool) (v : vcpu) (self : kvm) :
  0 <= boot_selector self < 2 ^ 16 ->
  0 <= boot_ip self < 2 ^ 64 ->
  0 <= boot_sp self < 2 ^ 64 ->
  (forall self', kvm__reset_vcpu CONFIG_X86_64 v self = Ok self' ->
     exists sr0, get_sregs v = Some sr0 /\
       Forall2 (seg_booted self) (boot_segments (sregs self'))
               (boot_segments sr0) /\
       gdt (sregs self') = gdt sr0 /\
       idt (sregs self') = idt sr0 /\
       ldt (sregs self') = ldt sr0 /\
       rflags (regs self') = 0x2 /\
       rip (regs self') = boot_ip self /\
       rsp (regs self') = boot_sp self /\
       rbp (regs self') = boot_sp self)
  /\ (0xFFFF < boot_ip self ->
      exists msg, kvm__reset_vcpu CONFIG_X86_64 v self = Die msg).
Proof.
  intros Hsel Hip Hsp. split.
  - intros self' H.
    unfold kvm__reset_vcpu, kvm__setup_sregs, kvm__setup_regs,
      kvm__setup_fpu, kvm__setup_msrs in H.
    destruct (get_sregs v) as [sr0|] eqn:Hget; [|discriminate H].
    cbn [bind] in H. binds.
    exists sr0. split; [reflexivity|]. cbn.
    rewrite !u64_small by lia.
    repeat split;
      try (repeat constructor; apply seg_load_spec; assumption).
  - intros Hbig.
    unfold kvm__reset_vcpu, kvm__setup_sregs, kvm__setup_regs.
    destruct (get_sregs v) as [sr0|]; [|eexists; reflexivity].
    cbn [bind].
    destruct (0 <=? set_sregs_ret v); cbn; [|eexists; reflexivity].
    rewrite u64_small by lia.
    replace (boot_ip self >? USHRT_MAX) with true
      by (symmetry; apply Z.gtb_lt; unfold USHRT_MAX; lia).
    cbn. eexists; reflexivity.
Qed.

Lemma reset_vcpu_state_witness :
  exists self',
    kvm__reset_vcpu true Samples.vcpu0 Samples.booted = Ok self' /\
    selector (cs (sregs self')) = 0x1000 /\
    base (cs (sregs self')) = 0x10000 /\
    limit (cs (sregs self')) = 0xffff /\
    rflags (regs self') = 0x2 /\
    rip (regs self') = 0x200 /\
    rsp (regs self') = 0x8000 /\
    rbp (regs self') = 0x8000.
Proof.
  destruct (reset_vcpu_state true Samples.vcpu0 Samples.booted) as [H _].
  - cbn. lia.
  - cbn. lia.
  - cbn. lia.
  - assert (E : exists self',
               kvm__reset_vcpu true Samples.vcpu0 Samples.booted = Ok self')
      by (vm_compute; eexists; reflexivity).
    destruct E as (self' & E). exists self'. split; [exact E|].
    destruct (H self' E) as (sr0 & Hget & Hseg & _ & _ & _ & Hfl & Hip & Hsp & Hbp).
    inversion Hget; subst sr0; clear Hget.
    inversion Hseg as [|s1 s2 l1 l2 (Hs & Hb & Hr) _]; subst.
    cbn in Hs, Hb, Hr, Hip, Hsp, Hbp.
    inversion Hr. auto 10.
Defined.

End KvmFacts.

(** ** The read loop *)

Module LoaderFacts.
Import Kvm KvmFacts.

Lemma read_fst f c :
  fst (read f c) = firstn (Z.to_nat c) (skipn (fd_pos f) (fd_data f)).
Proof. reflexivity. Qed.

Lemma read_snd f c :
  snd (read f c)
  = mkfd (fd_data f) (fd_seekable f) (fd_pos f + length (fst (read f c))).
Proof. reflexivity. Qed.

Lemma read_rest f c :
  skipn (fd_pos (snd (read f c))) (fd_data (snd (read f c)))
  = skipn (Z.to_nat c) (skipn (fd_pos f) (fd_data f)).
Proof.
  rewrite read_snd, read_fst. cbn [fd_pos fd_data].
  set (rest := skipn (fd_pos f) (fd_data f)).
  rewrite Nat.add_comm, <- skipn_skipn. fold rest.
  rewrite length_firstn.
  destruct (Nat.le_ge_cases (Z.to_nat c) (length rest)) as [H|H].
  - rewrite Nat.min_l by exact H. reflexivity.
  - rewrite Nat.min_r by exact H.
    rewrite !skipn_all2 by lia. reflexivity.
Qed.

Lemma set_ram_same self : set_ram self (ram self) = self.
Proof. destruct self. reflexivity. Qed.

Lemma set_ram_set_ram self m m' : set_ram (set_ram self m) m' = set_ram self m'.
Proof. reflexivity. Qed.

Lemma host_range_ok_set_ram self m p len :
  host_range_ok (set_ram self m) p len = host_range_ok self p len.
Proof. reflexivity. Qed.

Lemma flat_to_host_set_ram self m x :
  guest_flat_to_host (set_ram self m) x = guest_flat_to_host self x.
Proof. reflexivity. Qed.

Lemma host_store_ok self p bs self' :
  host_store self p bs = Ok self' ->
  host_range_ok self p (Z.of_nat (length bs)) = true /\
  self' = set_ram self (mem_write (ram self) (p - ram_start self) bs).
Proof.
  unfold host_store. destruct (host_range_ok _ _ _); [|discriminate].
  intros H. inversion H. auto.
Qed.

Lemma host_store_not_die self p bs msg : host_store self p bs <> Die msg.
Proof. unfold host_store. destruct (host_range_ok _ _ _); discriminate. Qed.

Lemma host_store_fault self p bs :
  host_store self p bs = Fault ->
  host_range_ok self p (Z.of_nat (length bs)) = false.
Proof.
  unfold host_store. destruct (host_range_ok _ _ _); [discriminate|auto].
Qed.

Lemma host_range_ok_true self p len :
  host_range_ok self p len = true <->
  len = 0 \/ (ram_start self <= p /\ p + len <= ram_start self + ram_size self).
Proof.
  unfold host_range_ok.
  rewrite orb_true_iff, andb_true_iff, Z.eqb_eq, !Z.leb_le. tauto.
Qed.

Lemma host_range_ok_false self p len :
  host_range_ok self p len = false <->
  len <> 0 /\ (p < ram_start self \/ ram_start self + ram_size self < p + len).
Proof.
  unfold host_range_ok.
  rewrite orb_false_iff, andb_false_iff, Z.eqb_neq, !Z.leb_gt. tauto.
Qed.

Lemma read_loop_n_eq count self f p :
  0 < count ->
  valid_buffer (ram_start self) (ram_size self) ->
  read_loop_n count self f p = read_loop_result self f p.
Proof.
  apply (read_loop_n_elim (fun count self f p r =>
    0 < count -> valid_buffer (ram_start self) (ram_size self) ->
    r = read_loop_result self f p)); clear count self f p.
  - (* read returned 0 *)
    intros count self f e p _ Hc Hv. unfold read_loop_result.
    rewrite read_snd, e. rewrite read_fst in e.
    set (rest := skipn (fd_pos f) (fd_data f)) in *.
    assert (Hrest : rest = []).
    { destruct rest as [|b r]; [reflexivity|].
      destruct (Z.to_nat count) eqn:Ec; [lia | discriminate e]. }
    rewrite Hrest. cbn [length Z.of_nat].
    replace (host_range_ok self p 0) with true by reflexivity.
    rewrite mem_write_nil, set_ram_same, Z.add_0_r. reflexivity.
  - (* a chunk was stored *)
    intros count self f n e p self' IH Hst _ Hc Hv.
    apply host_store_ok in Hst. destruct Hst as [Hok ->].
    rewrite e in Hok. apply host_range_ok_true in Hok.
    destruct Hok as [Hok|[Hlo Hhi]]; [lia|].
    destruct Hv as (Hp & Hs & Hend).
    specialize (IH Hc (conj Hp (conj Hs Hend))).
    rewrite IH. unfold read_loop_result.
    rewrite read_rest. rewrite read_snd. cbn [fd_data fd_seekable fd_pos].
    rewrite e. rewrite read_fst in *.
    set (rest := skipn (fd_pos f) (fd_data f)) in *.
    set (c := Z.to_nat count) in *.
    assert (Hsplit : rest = firstn c rest ++ skipn c rest)
      by (symmetry; apply firstn_skipn).
    assert (Hlen : length rest = (S n + length (skipn c rest))%nat).
    { rewrite Hsplit at 1. rewrite length_app, e. reflexivity. }
    rewrite u64_small by lia.
    cbn [ram_start ram_size set_ram ram].
    replace (host_range_ok self p (Z.of_nat (length rest)))
      with (host_range_ok self (p + Z.of_nat (S n))
              (Z.of_nat (length (skipn c rest)))).
    2:{ unfold host_range_ok. rewrite Hlen.
        destruct (Z.of_nat (length (skipn c rest)) =? 0) eqn:E0.
        - apply Z.eqb_eq in E0. cbn [orb]. symmetry.
          apply orb_true_iff. right. apply andb_true_iff.
          rewrite !Z.leb_le. lia.
        - apply Z.eqb_neq in E0.
          replace (Z.of_nat (S n + length (skipn c rest)) =? 0) with false
            by (symmetry; apply Z.eqb_neq; lia).
          cbn [orb]. f_equal.
          + apply Bool.eq_true_iff_eq. rewrite !Z.leb_le. lia.
          + f_equal. lia. }
    rewrite host_range_ok_set_ram, set_ram_set_ram.
    destruct (host_range_ok self (p + Z.of_nat (S n)) _); [|reflexivity].
    f_equal. f_equal; [f_equal|].
    + f_equal.
      replace (p + Z.of_nat (S n) - ram_start self)
        with (p - ram_start self + Z.of_nat (length (firstn c rest)))
        by (rewrite e; lia).
      rewrite mem_write_app, <- Hsplit. reflexivity.
    + f_equal. lia.
    + lia.
  - intros count self f n e p msg Hst. exfalso.
    exact (host_store_not_die _ _ _ _ Hst).
  - (* the chunk does not fit *)
    intros count self f n e p Hst _ Hc Hv. unfold read_loop_result.
    apply host_store_fault in Hst. rewrite e in Hst.
    apply host_range_ok_false in Hst. destruct Hst as [_ Hst].
    rewrite read_fst in e.
    set (rest := skipn (fd_pos f) (fd_data f)) in *.
    assert (Hle : (S n <= length rest)%nat).
    { rewrite <- e. rewrite length_firstn. lia. }
    replace (host_range_ok self p (Z.of_nat (length rest))) with false;
      [reflexivity|].
    symmetry. apply host_range_ok_false. lia.
Qed.

Lemma read_loop_eq self f p :
  valid_buffer (ram_start self) (ram_size self) ->
  read_loop self f p = read_loop_result self f p.
Proof. intros Hv. apply read_loop_n_eq; [lia | exact Hv]. Qed.

(** ** Fixed guest addresses *)

Lemma monitor_ok_set_ram self m : monitor_ok self -> monitor_ok (set_ram self m).
Proof. intros H. exact H. Qed.

Lemma monitor_ok_buffer self :
  monitor_ok self -> valid_buffer (ram_start self) (ram_size self).
Proof. intros [H _]. exact H. Qed.

Lemma real_to_host_boot self off :
  monitor_ok self -> 0 <= off < 2 ^ 16 ->
  guest_real_to_host self BOOT_LOADER_SELECTOR off
  = ram_start self + (0x10000 + off).
Proof.
  intros Hok Hoff. unfold guest_real_to_host.
  rewrite segment_to_flat_eq by (unfold BOOT_LOADER_SELECTOR; lia).
  change (Z.shiftl BOOT_LOADER_SELECTOR 4) with 0x10000.
  apply flat_to_host_eq; [exact Hok|]. destruct Hok as [_ ->]. lia.
Qed.

Lemma host_range_ok_at self X len :
  0 <= X -> 0 <= len ->
  host_range_ok self (ram_start self + X) len = (X + len <=? ram_size self) || (len =? 0).
Proof.
  intros HX Hl. unfold host_range_ok.
  replace (ram_start self <=? ram_start self + X) with true
    by (symmetry; apply Z.leb_le; lia).
  cbn [andb].
  replace (ram_start self + X + len <=? ram_start self + ram_size self)
    with (X + len <=? ram_size self)
    by (apply Bool.eq_true_iff_eq; rewrite !Z.leb_le; lia).
  apply orb_comm.
Qed.

Lemma host_store_at self X bs :
  0 <= X -> X + Z.of_nat (length bs) <= ram_size self ->
  host_store self (ram_start self + X) bs
  = Ok (set_ram self (mem_write (ram self) X bs)).
Proof.
  intros HX Hfit. unfold host_store.
  rewrite host_range_ok_at by lia.
  replace (X + Z.of_nat (length bs) <=? ram_size self) with true
    by (symmetry; apply Z.leb_le; lia).
  cbn [orb]. do 3 f_equal. lia.
Qed.

Lemma host_store_set_ram_at self m X bs :
  0 <= X -> X + Z.of_nat (length bs) <= ram_size self ->
  host_store (set_ram self m) (ram_start self + X) bs
  = Ok (set_ram self (mem_write m X bs)).
Proof. intros HX Hfit. exact (host_store_at (set_ram self m) X bs HX Hfit). Qed.

Lemma host_store_at_ok self X bs self' :
  0 <= X ->
  host_store self (ram_start self + X) bs = Ok self' ->
  self' = set_ram self (mem_write (ram self) X bs) /\
  (bs = [] \/ X + Z.of_nat (length bs) <= ram_size self).
Proof.
  intros HX H. apply host_store_ok in H. destruct H as [Hr ->].
  replace (ram_start self + X - ram_start self) with X by lia.
  split; [reflexivity|].
  rewrite host_range_ok_at in Hr by lia.
  apply orb_true_iff in Hr. destruct Hr as [Hr|Hr].
  - right. apply Z.leb_le in Hr. exact Hr.
  - left. apply Z.eqb_eq in Hr. destruct bs; [reflexivity | discriminate].
Qed.

(** ** The flat-binary branch *)

(** What [load_flat_binary] leaves when it returns. *)
Lemma load_flat_binary_eq self f :
  monitor_ok self ->
  load_flat_binary self f
  = if fd_seekable f
    then if Z.of_nat (length (fd_data f)) <=? ram_size self - 0x10000
         then Ok (true,
                  set_boot (set_ram self (mem_write (ram self) 0x10000 (fd_data f)))
                           BOOT_LOADER_SELECTOR BOOT_LOADER_IP BOOT_LOADER_SP,
                  mkfd (fd_data f) true (length (fd_data f)))
         else Fault
    else Die "lseek".
Proof.
  intros Hok. unfold load_flat_binary, lseek_set0.
  destruct (fd_seekable f); [|reflexivity]. cbn [bind].
  rewrite real_to_host_boot by (auto; unfold BOOT_LOADER_IP; lia).
  rewrite read_loop_eq by (apply monitor_ok_buffer; exact Hok).
  unfold read_loop_result. cbn [fd_pos fd_data fd_seekable skipn].
  rewrite host_range_ok_at by (unfold BOOT_LOADER_IP; lia).
  replace (ram_start self + (65536 + BOOT_LOADER_IP) - ram_start self)
    with 0x10000 by (unfold BOOT_LOADER_IP; lia).
  assert (Hsz : ram_size self = 64 * 1024 * 1024) by apply Hok.
  destruct (Z.of_nat (length (fd_data f)) <=? ram_size self - 0x10000) eqn:E.
  - apply Z.leb_le in E.
    replace (65536 + BOOT_LOADER_IP + Z.of_nat (length (fd_data f))
             <=? ram_size self) with true
      by (symmetry; apply Z.leb_le; unfold BOOT_LOADER_IP; lia).
    reflexivity.
  - apply Z.leb_gt in E.
    replace (65536 + BOOT_LOADER_IP + Z.of_nat (length (fd_data f))
             <=? ram_size self) with false
      by (symmetry; apply Z.leb_gt; unfold BOOT_LOADER_IP; lia).
    replace (Z.of_nat (length (fd_data f)) =? 0) with false
      by (symmetry; apply Z.eqb_neq; lia).
    reflexivity.
Qed.

(** ** The header as read from the file *)

Lemma le_decode_range bs : 0 <= le_decode bs < 256 ^ Z.of_nat (length bs).
Proof.
  induction bs as [|b r IH]; [cbn; lia|].
  cbn [le_decode length]. rewrite Nat2Z.inj_succ, Z.pow_succ_r by lia.
  pose proof (Z_of_byte_range b). lia.
Qed.

Lemma boot_field_range boot off n : 0 <= boot_field boot off n < 256 ^ Z.of_nat n.
Proof.
  unfold boot_field. pose proof (le_decode_range (mem_read boot off n)) as H.
  rewrite mem_read_length in H. exact H.
Qed.

Lemma read_boot_params_spec data uninit boot f0 :
  read_boot_params (mkfd data true 0) uninit = (boot, f0) ->
  fd_data f0 = data /\ fd_seekable f0 = true /\
  forall a, 0 <= a < Z.of_nat (length data) -> a < sizeof_boot_params ->
            boot a = file_mem data a.
Proof.
  unfold read_boot_params. intros H.
  pose proof (f_equal fst H) as Hboot. pose proof (f_equal snd H) as Hf0.
  cbn [fst snd] in Hboot, Hf0. clear H. subst boot f0.
  split; [reflexivity|]. split; [reflexivity|]. intros a Ha Hb.
  unfold boot_buf, file_mem. rewrite read_fst.
  cbn [fd_pos fd_data skipn].
  rewrite mem_write_in by (rewrite length_firstn; lia).
  rewrite nth_firstn, Z.sub_0_r.
  replace (Z.to_nat a <? Z.to_nat sizeof_boot_params)%nat with true
    by (symmetry; apply Nat.ltb_lt; lia).
  reflexivity.
Qed.

Lemma boot_field_from_file data boot off n :
  (forall a, 0 <= a < Z.of_nat (length data) -> a < sizeof_boot_params ->
             boot a = file_mem data a) ->
  0 <= off -> off + Z.of_nat n <= Z.of_nat (length data) ->
  off + Z.of_nat n <= sizeof_boot_params ->
  boot_field boot off n = file_field data off n.
Proof.
  intros Hboot H0 H1 H2. unfold file_field, boot_field. f_equal.
  apply mem_read_ext. intros a Ha. apply Hboot; lia.
Qed.

Lemma bz_setup_size_eq n :
  0 <= n < 256 ->
  bz_setup_size n = ((if n =? 0 then BZ_DEFAULT_SETUP_SECTS else n) + 1) * 512.
Proof.
  intros Hn. unfold bz_setup_size, BZ_DEFAULT_SETUP_SECTS.
  destruct (n =? 0);
    [ rewrite (u64_small (4 + 1)) by lia | rewrite (u64_small (n + 1)) by lia ];
    rewrite Z.shiftl_mul_pow2 by lia; rewrite u64_small by lia; lia.
Qed.

(** ** The stages of [load_bzimage] *)

Lemma copy_image_ok self f setup_size self1 f1 :
  monitor_ok self -> 0 <= setup_size ->
  copy_image self f setup_size = Ok (self1, f1) ->
  fd_seekable f = true /\
  setup_size <= Z.of_nat (length (fd_data f)) /\
  self1 = set_ram self
            (mem_write
               (mem_write (ram self) 0x10000
                  (firstn (Z.to_nat setup_size) (fd_data f)))
               0x100000 (skipn (Z.to_nat setup_size) (fd_data f))).
Proof.
  intros Hok Hss H. unfold copy_image, lseek_set0 in H.
  destruct (fd_seekable f); [|discriminate H]. cbn [bind] in H.
  rewrite real_to_host_boot in H by (auto; unfold BOOT_LOADER_IP; lia).
  rewrite read_snd, read_fst in H. cbn [fd_pos fd_data fd_seekable skipn] in H.
  binds.
  apply host_store_at_ok in E; [|unfold BOOT_LOADER_IP; lia].
  destruct E as [-> _].
  apply Z.eqb_eq in E0.
  rewrite read_loop_eq in E1 by (apply monitor_ok_buffer; exact Hok).
  unfold read_loop_result in E1.
  destruct (host_range_ok _ _ _); [|discriminate E1].
  inversion E1; subst; clear E1.
  injection H as <- <-.
  set (setup := firstn (Z.to_nat setup_size) (fd_data f)) in *.
  split; [reflexivity|]. split.
  { rewrite <- E0. subst setup. rewrite length_firstn. lia. }
  assert (Hsz : ram_size self = 64 * 1024 * 1024) by apply Hok.
  rewrite set_ram_set_ram, flat_to_host_set_ram.
  cbn [fd_pos fd_data ram ram_start set_ram].
  rewrite flat_to_host_eq by (auto; rewrite Hsz; unfold BZ_KERNEL_START; lia).
  replace (ram_start self + BZ_KERNEL_START - ram_start self) with 0x100000
    by (unfold BZ_KERNEL_START; lia).
  replace (length setup) with (Z.to_nat setup_size) by lia.
  unfold BOOT_LOADER_IP. reflexivity.
Qed.

Lemma strlen_le s : (strlen s <= length s)%nat.
Proof.
  induction s as [|c r IH]; cbn; [lia|]. destruct (Byte.eqb c x00); lia.
Qed.

Lemma copy_cmdline_frame self cmd C self2 :
  monitor_ok self -> 0 <= C < 2 ^ 32 ->
  copy_cmdline self cmd C = Ok self2 ->
  exists m2, self2 = set_ram self m2 /\
    forall a, cmd = None \/ a < 0x20000 \/ 0x20000 + C <= a ->
              m2 a = ram self a.
Proof.
  intros Hok HC H. unfold copy_cmdline, cmdline_size in H.
  destruct cmd as [str|].
  2:{ inversion H; subst. exists (ram self2).
      rewrite set_ram_same. auto. }
  rewrite flat_to_host_eq in H
    by (auto; destruct Hok as [_ ->]; unfold BOOT_CMDLINE_OFFSET; lia).
  unfold host_memset, host_memcpy_str in H.
  destruct (host_range_ok self _ C); [|discriminate H]. cbn [bind] in H.
  destruct (_ <=? _) eqn:En; [|discriminate H]. apply Z.leb_le in En.
  apply host_store_ok in H. destruct H as [Hr ->].
  eexists. split; [reflexivity|]. intros a [Ha|Ha]; [discriminate Ha|].
  cbn [ram set_ram ram_start]. unfold BOOT_CMDLINE_OFFSET.
  assert (Hsz : ram_size self = 64 * 1024 * 1024) by apply Hok.
  pose proof (strlen_le str) as Hstr.
  assert (Hn : Z.of_nat (length (firstn
                (Z.to_nat (u64 ((if Z.of_nat (strlen str) + 1 >? C
                                 then C else Z.of_nat (strlen str) + 1) - 1)))
                (str ++ [x00]))) <= C).
  { apply host_range_ok_true in Hr. cbn [ram_start ram_size set_ram] in Hr.
    rewrite length_firstn, length_app in *. cbn [length] in *.
    destruct (Z.of_nat (strlen str) + 1 >? C) eqn:Eg.
    - destruct (Z.eq_dec C 0) as [->|Hnz].
      + exfalso. change (u64 (0 - 1)) with (2 ^ 64 - 1) in *. lia.
      + rewrite u64_small by lia. lia.
    - rewrite Z.gtb_ltb in Eg. apply Z.ltb_ge in Eg.
      rewrite u64_small by lia. lia. }
  rewrite mem_write_out by lia. unfold mem_fill.
  replace (in_range _ C a) with false
    by (symmetry; apply in_range_false; lia).
  reflexivity.
Qed.

(** The local [cmdline_size] never exceeds the header's; when that is at
    least 1, [cmdline_size - 1] characters of the command line exist. *)
Lemma cmdline_size_range str C :
  1 <= C -> 1 <= cmdline_size str C <= C /\
            cmdline_size str C - 1 <= Z.of_nat (strlen str).
Proof.
  intros HC. unfold cmdline_size.
  destruct (Z.of_nat (strlen str) + 1 >? C) eqn:E.
  - apply Z.gtb_lt in E. lia.
  - rewrite Z.gtb_ltb in E. apply Z.ltb_ge in E. lia.
Qed.

(** With a header [cmdline_size] of at least 1 the copy is the zeroed
    region of [C] bytes with the first [cmdline_size - 1] characters of
    the command line over it. *)
Lemma copy_cmdline_some self str C self2 :
  monitor_ok self -> 1 <= C < 2 ^ 32 ->
  copy_cmdline self (Some str) C = Ok self2 ->
  0x20000 + C <= ram_size self /\
  self2 = set_ram self
            (mem_write (mem_fill (ram self) 0x20000 C x00) 0x20000
                       (firstn (Z.to_nat (cmdline_size str C - 1)) str)).
Proof.
  intros Hok HC H. unfold copy_cmdline in H.
  assert (Hsz : ram_size self = 64 * 1024 * 1024) by apply Hok.
  destruct (cmdline_size_range str C) as ([Hn1 Hn2] & Hn3); [lia|].
  rewrite flat_to_host_eq in H
    by (auto; rewrite Hsz; unfold BOOT_CMDLINE_OFFSET; lia).
  unfold host_memset, host_memcpy_str in H.
  rewrite host_range_ok_at in H by (unfold BOOT_CMDLINE_OFFSET; lia).
  replace (C =? 0) with false in H by (symmetry; apply Z.eqb_neq; lia).
  rewrite orb_false_r in H.
  destruct (BOOT_CMDLINE_OFFSET + C <=? ram_size self) eqn:Efit;
    [|discriminate H].
  apply Z.leb_le in Efit. cbn [bind] in H.
  rewrite u64_small in H by lia.
  replace (cmdline_size str C - 1 <=? Z.of_nat (strlen str) + 1) with true in H
    by (symmetry; apply Z.leb_le; lia).
  apply host_store_ok in H. destruct H as [_ ->].
  split; [unfold BOOT_CMDLINE_OFFSET in Efit; lia|].
  rewrite set_ram_set_ram. cbn [ram set_ram ram_start].
  replace (ram_start self + BOOT_CMDLINE_OFFSET - ram_start self)
    with 0x20000 by (unfold BOOT_CMDLINE_OFFSET; lia).
  rewrite firstn_app.
  pose proof (strlen_le str).
  replace (Z.to_nat (cmdline_size str C - 1) - length str)%nat with O by lia.
  cbn [firstn]. rewrite app_nil_r.
  change (byte_of_Z 0) with x00. reflexivity.
Qed.

Lemma guest_hdr_eq self member :
  monitor_ok self -> 0 <= member < 2 ^ 16 ->
  guest_hdr self member = ram_start self + (0x10000 + member).
Proof. intros Hok Hm. unfold guest_hdr. apply real_to_host_boot; assumption. Qed.

Lemma patch_header_eq self :
  monitor_ok self ->
  patch_header self = Ok (set_ram self (header_patched (ram self))).
Proof.
  intros Hok. assert (Hsz : ram_size self = 64 * 1024 * 1024) by apply Hok.
  unfold patch_header.
  rewrite guest_hdr_eq by (auto; unfold hdr_cmd_line_ptr; lia).
  rewrite host_store_at by (cbn [length le_encode]; rewrite ?Hsz;
                            unfold hdr_cmd_line_ptr; lia).
  cbn [bind].
  rewrite guest_hdr_eq
    by (try apply monitor_ok_set_ram; auto; unfold hdr_type_of_loader; lia).
  cbn [ram_start set_ram].
  rewrite host_store_set_ram_at
    by (cbn [length le_encode]; rewrite ?Hsz; unfold hdr_type_of_loader; lia).
  cbn [bind].
  rewrite guest_hdr_eq
    by (try apply monitor_ok_set_ram; auto; unfold hdr_heap_end_ptr; lia).
  cbn [ram_start set_ram].
  rewrite host_store_set_ram_at
    by (cbn [length le_encode]; rewrite ?Hsz; unfold hdr_heap_end_ptr; lia).
  cbn [bind].
  rewrite guest_hdr_eq
    by (try apply monitor_ok_set_ram; auto; unfold hdr_loadflags; lia).
  cbn [ram_start set_ram ram].
  unfold host_load8.
  change (host_range_ok (set_ram self ?m) ?p ?n) with (host_range_ok self p n).
  rewrite host_range_ok_at by (unfold hdr_loadflags; lia).
  replace (65536 + hdr_loadflags + 1 <=? ram_size self) with true
    by (symmetry; apply Z.leb_le; rewrite Hsz; unfold hdr_loadflags; lia).
  cbn [orb bind ram set_ram ram_start].
  rewrite host_store_set_ram_at
    by (cbn [length le_encode]; rewrite ?Hsz; unfold hdr_loadflags; lia).
  replace (ram_start self + (65536 + hdr_loadflags) - ram_start self)
    with (65536 + hdr_loadflags) by lia.
  reflexivity.
Qed.

Lemma interrupt_table_bytes_length tbl :
  length (interrupt_table__bytes tbl) = (4 * length tbl)%nat.
Proof.
  unfold interrupt_table__bytes.
  induction tbl as [|d r IH]; [reflexivity|].
  cbn [flat_map length]. rewrite length_app, IH. cbn [length le_encode app]. lia.
Qed.

Lemma set_nth_length {A} n (x : A) xs : length (set_nth n x xs) = length xs.
Proof.
  revert n. induction xs as [|y r IH]; intros [|n]; cbn; auto.
Qed.

(** The BIOS stubs and the vector table touch nothing from 0x10000 on and
    leave the entry state alone. *)
Lemma setup_bios_frame B self self' :
  monitor_ok self -> bios_low B = true ->
  setup_bios B self = Ok self' ->
  boot_selector self' = boot_selector self /\
  boot_ip self' = boot_ip self /\
  boot_sp self' = boot_sp self /\
  forall a, 0x10000 <= a -> ram self' a = ram self a.
Proof.
  intros Hok Hlow H. assert (Hsz : ram_size self = 64 * 1024 * 1024) by apply Hok.
  unfold bios_low in Hlow. apply andb_true_iff in Hlow.
  destruct Hlow as [H1 H2]. apply Z.leb_le in H1, H2.
  unfold setup_bios, interrupt_table__copy in H.
  set (a1 := u32 (BIOS_INTR_NEXT B (BDA_START B + 0) 16)) in *.
  set (a2 := u32 (BIOS_INTR_NEXT B
                    (BDA_START B + Z.of_nat (length (intfake B))) 16)) in *.
  assert (Ha1 : 0 <= a1) by (apply Z.mod_pos_bound; lia).
  assert (Ha2 : 0 <= a2) by (apply Z.mod_pos_bound; lia).
  rewrite flat_to_host_eq in H by (auto; lia).
  destruct (host_store self _ (intfake B)) as [k1| |] eqn:E1;
    [|discriminate H ..].
  apply host_store_at_ok in E1; [|lia]. destruct E1 as [-> _].
  cbn [bind] in H.
  rewrite flat_to_host_eq in H by (auto; cbn [ram_size set_ram set_intr_table]; lia).
  cbn [ram_start set_ram set_intr_table] in H.
  match type of H with
  | context [host_store ?k (ram_start self + a2) ?bs] =>
      destruct (host_store k (ram_start self + a2) bs) as [k2| |] eqn:E2;
        [|discriminate H ..];
      apply (host_store_at_ok k a2 bs) in E2; [|lia]
  end.
  destruct E2 as [-> _]. cbn [bind] in H.
  rewrite flat_to_host_eq in H by (auto; cbn [ram_size set_ram set_intr_table]; lia).
  cbn [ram_start set_ram set_intr_table intr_table] in H.
  apply host_store_ok in H. destruct H as [_ ->].
  cbn [boot_selector boot_ip boot_sp ram ram_start set_ram set_intr_table
       intr_table].
  repeat split. intros a Ha.
  rewrite !mem_write_out; [reflexivity | lia | lia |].
  right. rewrite interrupt_table_bytes_length.
  unfold interrupt_table__set, interrupt_table__setup.
  rewrite set_nth_length, repeat_length. lia.
Qed.

(** ** [load_bzimage] as a whole *)

Lemma bytes_eqb_eq xs ys : bytes_eqb xs ys = true -> xs = ys.
Proof.
  revert ys. induction xs as [|x r IH]; intros [|y ys] H;
    try discriminate H; [reflexivity|].
  cbn in H. apply andb_true_iff in H. destruct H as [Hx Hr].
  apply Byte.byte_dec_bl in Hx. f_equal; auto.
Qed.

Lemma bytes_eqb_refl xs : bytes_eqb xs xs = true.
Proof.
  induction xs as [|x r IH]; [reflexivity|]. cbn.
  rewrite IH, (Byte.byte_dec_lb eq_refl). reflexivity.
Qed.

Lemma file_setup_sects_range data : 1 <= file_setup_sects data <= 255.
Proof.
  unfold file_setup_sects, file_field.
  pose proof (boot_field_range (file_mem data) hdr_setup_sects 1) as Hr.
  change (256 ^ Z.of_nat 1) with 256 in Hr.
  destruct (_ =? 0) eqn:E0; unfold BZ_DEFAULT_SETUP_SECTS; [lia|].
  apply Z.eqb_neq in E0. lia.
Qed.

Lemma copy_image_pos self f g setup_size :
  fd_data f = fd_data g -> fd_seekable f = fd_seekable g ->
  copy_image self f setup_size = copy_image self g setup_size.
Proof.
  intros Hd Hs. unfold copy_image, lseek_set0. rewrite Hd, Hs. reflexivity.
Qed.

Section Bzimage.

Variable B : bios_env.

Lemma load_bzimage_eq self f cmd uninit :
  load_bzimage B self f cmd uninit
  = if fd_seekable f then
      let bf := read_boot_params (mkfd (fd_data f) true 0) uninit in
      if negb (bytes_eqb (mem_read (fst bf) hdr_header 4) BZIMAGE_MAGIC)
      then Ok (false, self, snd bf)
      else if boot_field (fst bf) hdr_version 2 <? BOOT_PROTOCOL_REQUIRED
      then Ok (false, self, snd bf)
      else load_bzimage_body B self (snd bf) cmd (fst bf)
    else Die "lseek".
Proof.
  unfold load_bzimage, lseek_set0.
  destruct (fd_seekable f); [|reflexivity]. cbn [bind].
  destruct (read_boot_params _ uninit) as [boot f0]. reflexivity.
Qed.

Lemma load_bzimage_loaded self f cmd uninit self' f' :
  monitor_ok self ->
  load_bzimage B self f cmd uninit = Ok (true, self', f') ->
  let data := fd_data f in
  let setup_size := (file_setup_sects data + 1) * 512 in
  fd_seekable f = true /\
  1024 <= setup_size <= Z.of_nat (length data) /\
  mem_read (file_mem data) hdr_header 4 = BZIMAGE_MAGIC /\
  BOOT_PROTOCOL_REQUIRED <= file_field data hdr_version 2 /\
  exists self1 self2,
    copy_image self f setup_size = Ok (self1, f') /\
    copy_cmdline self1 cmd (file_field data hdr_cmdline_size 4) = Ok self2 /\
    setup_bios B (set_boot (set_ram self2 (header_patched (ram self2)))
                           BOOT_LOADER_SELECTOR (BOOT_LOADER_IP + 0x200)
                           BOOT_LOADER_SP) = Ok self'.
Proof.
  intros Hok H data setup_size.
  rewrite load_bzimage_eq in H.
  destruct (fd_seekable f) eqn:Hseek; [|discriminate H].
  fold data in H.
  destruct (read_boot_params _ uninit) as [boot f0] eqn:Eboot.
  cbv zeta in H. cbn [fst snd] in H.
  apply read_boot_params_spec in Eboot. destruct Eboot as (Hd0 & Hs0 & Hboot).
  destruct (bytes_eqb (mem_read boot hdr_header 4) BZIMAGE_MAGIC) eqn:Emagic;
    cbn [negb] in H; [|discriminate H].
  destruct (boot_field boot hdr_version 2 <? BOOT_PROTOCOL_REQUIRED) eqn:Ever;
    [discriminate H|].
  apply Z.ltb_ge in Ever. apply bytes_eqb_eq in Emagic.
  unfold load_bzimage_body in H.
  pose proof (boot_field_range boot hdr_setup_sects 1) as Hn.
  change (256 ^ Z.of_nat 1) with 256 in Hn.
  rewrite bz_setup_size_eq in H by exact Hn.
  destruct (copy_image self f0 _) as [[self1 f1]| |] eqn:Ecopy;
    [|discriminate H ..].
  cbn [bind] in H.
  rewrite (copy_image_pos self f0 f) in Ecopy
    by (first [exact Hd0 | rewrite Hs0, Hseek; reflexivity]).
  pose proof Ecopy as Ecopy'.
  apply copy_image_ok in Ecopy'; auto;
    [|destruct (_ =? 0); unfold BZ_DEFAULT_SETUP_SECTS; lia].
  destruct Ecopy' as (_ & Hlen & Hself1). fold data in Hlen.
  assert (Hbig : 1024 <= Z.of_nat (length data)).
  { destruct (boot_field boot hdr_setup_sects 1 =? 0) eqn:E0;
      unfold BZ_DEFAULT_SETUP_SECTS in Hlen; [lia|].
    apply Z.eqb_neq in E0. lia. }
  assert (Hfld : forall off n, 0 <= off -> off + Z.of_nat n <= 1024 ->
             boot_field boot off n = file_field data off n).
  { intros off n H0 H1. apply boot_field_from_file;
      [exact Hboot | | | unfold sizeof_boot_params]; lia. }
  rewrite (Hfld hdr_setup_sects 1%nat) in * by (unfold hdr_setup_sects; lia).
  rewrite (Hfld hdr_version 2%nat) in * by (unfold hdr_version; lia).
  rewrite (Hfld hdr_cmdline_size 4%nat) in * by (unfold hdr_cmdline_size; lia).
  assert (Hmag : mem_read (file_mem data) hdr_header 4 = BZIMAGE_MAGIC).
  { rewrite <- Emagic. symmetry. apply mem_read_ext. intros a Ha.
    apply Hboot; unfold hdr_header, sizeof_boot_params in *; lia. }
  fold (file_setup_sects data) in *. fold setup_size in Ecopy, Hlen.
  assert (Hok1 : monitor_ok self1) by (rewrite Hself1; exact Hok).
  destruct (copy_cmdline self1 cmd _) as [self2| |] eqn:Ecmd;
    [|discriminate H ..].
  cbn [bind] in H.
  pose proof Ecmd as Ecmd'.
  apply copy_cmdline_frame in Ecmd'; auto;
    [|exact (boot_field_range (file_mem data) hdr_cmdline_size 4)].
  destruct Ecmd' as (m2 & Hself2 & _).
  assert (Hok2 : monitor_ok self2) by (rewrite Hself2; exact Hok1).
  rewrite patch_header_eq in H by exact Hok2. cbn [bind] in H.
  destruct (setup_bios B _) as [self4| |] eqn:Ebios; [|discriminate H ..].
  cbn [bind] in H. injection H as <- <-.
  split; [reflexivity|]. split.
  { split; [|exact Hlen]. subst setup_size.
    pose proof (file_setup_sects_range data). lia. }
  split; [exact Hmag|]. split; [exact Ever|].
  exists self1, self2. auto.
Qed.

Lemma lor_heap_byte (b : byte) :
  Z.lor (Z_of_byte b) CAN_USE_HEAP mod 256 = Z.lor (Z_of_byte b) CAN_USE_HEAP.
Proof. destruct b; reflexivity. Qed.

Lemma header_patched_fields m :
  let m' := header_patched m in
  le_decode (mem_read m' (0x10000 + hdr_cmd_line_ptr) 4) = 0x20000 /\
  Z_of_byte (m' (0x10000 + hdr_type_of_loader)) = 0xff /\
  le_decode (mem_read m' (0x10000 + hdr_heap_end_ptr) 2) = 0xfe00 /\
  Z_of_byte (m' (0x10000 + hdr_loadflags))
  = Z.lor (Z_of_byte (m (0x10000 + hdr_loadflags))) CAN_USE_HEAP.
Proof.
  unfold header_patched, hdr_cmd_line_ptr, hdr_type_of_loader,
    hdr_heap_end_ptr, hdr_loadflags.
  split; [reflexivity | split; [reflexivity | split; [reflexivity|]]].
  rewrite mem_write_in by (cbn [length le_encode]; lia).
  replace (Z.to_nat (65536 + 529 - 66065)) with O by lia.
  cbn [nth le_encode]. rewrite Z_of_byte_of_Z, lor_heap_byte.
  rewrite !mem_write_out by (cbn [length le_encode]; lia).
  reflexivity.
Qed.

Lemma header_patched_out m a :
  header_patch_addr a = false -> header_patched m a = m a.
Proof.
  unfold header_patch_addr, header_patched, hdr_cmd_line_ptr,
    hdr_type_of_loader, hdr_heap_end_ptr, hdr_loadflags.
  intros H. apply orb_false_iff in H. destruct H as [H H4].
  apply orb_false_iff in H. destruct H as [H H3].
  apply orb_false_iff in H. destruct H as [H1 H2].
  apply in_range_false in H1, H3. apply Z.eqb_neq in H2, H4.
  rewrite !mem_write_out by (cbn [length le_encode]; lia). reflexivity.
Qed.

Lemma file_mem_firstn data n a :
  0 <= a < Z.of_nat n -> nth (Z.to_nat a) (firstn n data) x00 = file_mem data a.
Proof.
  intros Ha. unfold file_mem. rewrite nth_firstn.
  replace (Z.to_nat a <? n)%nat with true by (symmetry; apply Nat.ltb_lt; lia).
  reflexivity.
Qed.

Lemma file_mem_skipn data n a :
  0 <= a -> nth (Z.to_nat a) (skipn n data) x00 = file_mem data (Z.of_nat n + a).
Proof.
  intros Ha. unfold file_mem. rewrite nth_skipn. f_equal. lia.
Qed.

(** The RAM a successful [load_bzimage] leaves from 0x10000 on: the two
    copies, then the command line, then the header patch. *)
Lemma load_bzimage_final self f cmd uninit self' f' :
  monitor_ok self -> bios_low B = true ->
  load_bzimage B self f cmd uninit = Ok (true, self', f') ->
  let data := fd_data f in
  let setup_size := (file_setup_sects data + 1) * 512 in
  let C := file_field data hdr_cmdline_size 4 in
  let m1 := mem_write
              (mem_write (ram self) 0x10000 (firstn (Z.to_nat setup_size) data))
              0x100000 (skipn (Z.to_nat setup_size) data) in
  exists m2,
    setup_size <= Z.of_nat (length data) /\
    copy_image self f setup_size = Ok (set_ram self m1, f') /\
    copy_cmdline (set_ram self m1) cmd C = Ok (set_ram self m2) /\
    boot_selector self' = BOOT_LOADER_SELECTOR /\
    boot_ip self' = BOOT_LOADER_IP + 0x200 /\
    boot_sp self' = BOOT_LOADER_SP /\
    forall a, 0x10000 <= a -> ram self' a = header_patched m2 a.
Proof.
  intros Hok Hlow H data setup_size C m1.
  apply load_bzimage_loaded in H; [|exact Hok].
  destruct H as (Hseek & [Hlo Hhi] & _ & _ & self1 & self2 & Hc & Hcmd & Hb).
  fold data in Hlo, Hhi, Hc, Hcmd. fold setup_size in Hlo, Hhi, Hc.
  fold C in Hcmd.
  pose proof Hc as Hc'. apply copy_image_ok in Hc'; [|exact Hok|lia].
  destruct Hc' as (_ & _ & Hself1). fold data in Hself1. fold m1 in Hself1.
  subst self1.
  pose proof Hcmd as Hcmd'.
  apply copy_cmdline_frame in Hcmd';
    [|exact Hok|exact (boot_field_range (file_mem data) hdr_cmdline_size 4)].
  destruct Hcmd' as (m2 & Hself2 & _). rewrite set_ram_set_ram in Hself2.
  subst self2. exists m2.
  apply setup_bios_frame in Hb; [|exact Hok|exact Hlow].
  destruct Hb as (Hsel & Hip & Hsp & Hram).
  repeat split; auto.
Qed.

(** C6.  For every [load_bzimage] that returns true, with [n] the header's
    [setup_sects] (4 when zero): the loader's copy step puts exactly the
    first [(n+1)*512] bytes of the file at linear 0x10000 and the rest at
    linear 0x100000, and at the end these bytes are still there wherever
    the header patch and the command line did not go; the header in guest
    RAM has [cmd_line_ptr = 0x20000], [type_of_loader = 0xFF],
    [heap_end_ptr = 0xFE00] and [loadflags] OR-ed with bit 7; and the
    entry state is [boot_selector = 0x1000], [boot_ip = 0x0200],
    [boot_sp = 0x8000]. *)
Theorem bzimage_layout self f cmd uninit self' f' :
  monitor_ok self -> bios_low B = true ->
  load_bzimage B self f cmd uninit = Ok (true, self', f') ->
  let data := fd_data f in
  let n := file_setup_sects data in
  let setup_size := (n + 1) * 512 in
  let C := file_field data hdr_cmdline_size 4 in
  (exists self1,
     copy_image self f setup_size = Ok (self1, f') /\
     mem_read (ram self1) 0x10000 (Z.to_nat setup_size)
     = firstn (Z.to_nat setup_size) data /\
     mem_read (ram self1) 0x100000 (length data - Z.to_nat setup_size)
     = skipn (Z.to_nat setup_size) data) /\
  (forall a, 0x10000 <= a < 0x10000 + setup_size ->
     header_patch_addr a = false -> cmdline_window cmd C a = false ->
     ram self' a = file_mem data (a - 0x10000)) /\
  (forall a, 0x100000 <= a < 0x100000 + (Z.of_nat (length data) - setup_size) ->
     cmdline_window cmd C a = false ->
     ram self' a = file_mem data (setup_size + (a - 0x100000))) /\
  guest_u32 self' (0x10000 + hdr_cmd_line_ptr) = 0x20000 /\
  guest_u8 self' (0x10000 + hdr_type_of_loader) = 0xFF /\
  guest_u16 self' (0x10000 + hdr_heap_end_ptr) = 0xFE00 /\
  guest_u8 self' (0x10000 + hdr_loadflags)
  = Z.lor (file_field data hdr_loadflags 1) 0x80 /\
  boot_selector self' = 0x1000 /\
  boot_ip self' = 0x0200 /\
  boot_sp self' = 0x8000.
Proof.
  intros Hok Hlow H data n setup_size C.
  pose proof (file_setup_sects_range data) as Hn. fold n in Hn.
  apply load_bzimage_final in H; [|exact Hok|exact Hlow].
  fold data in H. fold n in H. fold setup_size in H. fold C in H.
  destruct H as (m2 & Hlen & Hcopy & Hcmd & Hsel & Hip & Hsp & Hram).
  set (m1 := mem_write
               (mem_write (ram self) 0x10000 (firstn (Z.to_nat setup_size) data))
               0x100000 (skipn (Z.to_nat setup_size) data)) in *.
  assert (Hsetup : forall a, 0x10000 <= a < 0x10000 + setup_size ->
                     m1 a = file_mem data (a - 0x10000)).
  { intros a Ha. unfold m1.
    rewrite mem_write_out by lia.
    rewrite mem_write_in by (rewrite length_firstn; lia).
    apply file_mem_firstn. lia. }
  assert (Hkern : forall a,
             0x100000 <= a < 0x100000 + (Z.of_nat (length data) - setup_size) ->
             m1 a = file_mem data (setup_size + (a - 0x100000))).
  { intros a Ha. unfold m1.
    rewrite mem_write_in by (rewrite length_skipn; lia).
    rewrite file_mem_skipn by lia. f_equal. lia. }
  apply copy_cmdline_frame in Hcmd;
    [|exact Hok|exact (boot_field_range (file_mem data) hdr_cmdline_size 4)].
  destruct Hcmd as (m2' & Hm2 & Hframe).
  assert (m2' = m2) as ->.
  { apply (f_equal ram) in Hm2. cbn [ram set_ram] in Hm2. congruence. }
  clear Hm2. cbn [ram set_ram] in Hframe.
  assert (Hwin : forall a, cmdline_window cmd C a = false -> m2 a = m1 a).
  { intros a Ha. apply Hframe. unfold cmdline_window in Ha.
    destruct cmd; [|auto]. right.
    apply in_range_false in Ha. unfold BOOT_CMDLINE_OFFSET in Ha. lia. }
  pose proof (header_patched_fields m2) as (Hf1 & Hf2 & Hf3 & Hf4).
  split; [|split; [|split; [|split; [|split; [|split; [|split]]]]]].
  - exists (set_ram self m1). split; [exact Hcopy|]. cbn [ram set_ram].
    split.
    + transitivity
        (mem_read (mem_write (ram self) 0x10000
                             (firstn (Z.to_nat setup_size) data))
                  0x10000 (length (firstn (Z.to_nat setup_size) data))).
      * rewrite length_firstn, Nat.min_l by lia.
        apply mem_read_ext. intros a Ha. unfold m1.
        apply mem_write_out. lia.
      * apply mem_read_write.
    + unfold m1.
      rewrite <- (length_skipn (Z.to_nat setup_size) data).
      apply mem_read_write.
  - intros a Ha Hp Hw. rewrite Hram by lia.
    rewrite header_patched_out by exact Hp.
    rewrite Hwin by exact Hw. apply Hsetup. exact Ha.
  - intros a Ha Hw. rewrite Hram by lia.
    rewrite header_patched_out.
    + rewrite Hwin by exact Hw. apply Hkern. exact Ha.
    + unfold header_patch_addr, hdr_cmd_line_ptr, hdr_type_of_loader,
        hdr_heap_end_ptr, hdr_loadflags.
      repeat (apply orb_false_iff; split);
        try (apply in_range_false; lia); apply Z.eqb_neq; lia.
  - unfold guest_u32. rewrite <- Hf1. f_equal. apply mem_read_ext.
    intros a Ha. apply Hram. unfold hdr_cmd_line_ptr in Ha. lia.
  - unfold guest_u8. rewrite Hram by (unfold hdr_type_of_loader; lia).
    exact Hf2.
  - unfold guest_u16. rewrite <- Hf3. f_equal. apply mem_read_ext.
    intros a Ha. apply Hram. unfold hdr_heap_end_ptr in Ha. lia.
  - unfold guest_u8. rewrite Hram by (unfold hdr_loadflags; lia).
    rewrite Hf4. unfold CAN_USE_HEAP. f_equal.
    rewrite Hframe by (right; left; unfold hdr_loadflags; lia).
    rewrite Hsetup by (unfold hdr_loadflags; lia).
    unfold file_field, boot_field, mem_read. cbn [seq map le_decode Z.of_nat].
    replace (65536 + hdr_loadflags - 65536) with (hdr_loadflags + 0) by lia.
    lia.
  - rewrite Hsel, Hip, Hsp. repeat split; reflexivity.
Qed.

(** ** Which ways [kvm__load_kernel] can end *)

Lemma bind_die {A R} (m : outcome A) (k : A -> outcome R) msg :
  bind m k = Die msg ->
  m = Die msg \/ exists a, m = Ok a /\ k a = Die msg.
Proof.
  destruct m as [a|msg'|]; cbn; intros H.
  - right. exists a. auto.
  - left. inversion H. reflexivity.
  - discriminate H.
Qed.

Lemma read_loop_n_not_die count self f p msg :
  read_loop_n count self f p <> Die msg.
Proof.
  apply (read_loop_n_elim (fun count self f p r => r <> Die msg));
    clear count self f p.
  - intros. discriminate.
  - intros count self f n e p self' IH _ _. exact IH.
  - intros count self f n e p msg' Hst. exfalso.
    exact (host_store_not_die _ _ _ _ Hst).
  - intros. discriminate.
Qed.

Lemma copy_image_die self f setup_size msg :
  copy_image self f setup_size = Die msg ->
  msg = "lseek"%string \/ msg = "read"%string.
Proof.
  unfold copy_image, lseek_set0. intros H.
  destruct (fd_seekable f); [|inversion H; auto]. cbn [bind] in H.
  apply bind_die in H. destruct H as [H|(k1 & _ & H)].
  { exfalso. exact (host_store_not_die _ _ _ _ H). }
  apply bind_die in H. destruct H as [H|(u & _ & H)].
  { unfold die_unless in H. destruct (_ =? _); inversion H. auto. }
  apply bind_die in H. destruct H as [H|([[k2 f2] p2] & _ & H)].
  { exfalso. exact (read_loop_n_not_die _ _ _ _ _ H). }
  discriminate H.
Qed.

Lemma copy_cmdline_not_die self cmd C msg : copy_cmdline self cmd C <> Die msg.
Proof.
  unfold copy_cmdline, cmdline_size, host_memset, host_memcpy_str. destruct cmd; [|discriminate].
  destruct (host_range_ok _ _ _); [|discriminate]. cbn [bind].
  destruct (_ <=? _); [|discriminate]. apply host_store_not_die.
Qed.

Lemma patch_header_not_die self msg : patch_header self <> Die msg.
Proof.
  unfold patch_header. intros H.
  repeat (apply bind_die in H; destruct H as [H|(? & _ & H)];
          [exfalso; first [ exact (host_store_not_die _ _ _ _ H)
                          | unfold host_load8 in H;
                            destruct (host_range_ok _ _ _); discriminate H ]|]).
  exact (host_store_not_die _ _ _ _ H).
Qed.

Lemma setup_bios_not_die self msg : setup_bios B self <> Die msg.
Proof.
  unfold setup_bios, interrupt_table__copy. intros H.
  repeat (apply bind_die in H; destruct H as [H|(? & _ & H)];
          [exfalso; exact (host_store_not_die _ _ _ _ H)|]).
  exact (host_store_not_die _ _ _ _ H).
Qed.

Lemma load_bzimage_die self f cmd uninit msg :
  load_bzimage B self f cmd uninit = Die msg ->
  msg = "lseek"%string \/ msg = "read"%string.
Proof.
  rewrite load_bzimage_eq. intros H.
  destruct (fd_seekable f); [|injection H as <-; auto].
  destruct (read_boot_params _ uninit) as [boot f0].
  cbv zeta in H. cbn [fst snd] in H.
  destruct (negb _); [discriminate H|].
  destruct (_ <? _); [discriminate H|].
  unfold load_bzimage_body in H.
  apply bind_die in H. destruct H as [H|([k1 f1] & _ & H)].
  { apply copy_image_die in H. exact H. }
  apply bind_die in H. destruct H as [H|(k2 & _ & H)].
  { exfalso. exact (copy_cmdline_not_die _ _ _ _ H). }
  apply bind_die in H. destruct H as [H|(k3 & _ & H)].
  { exfalso. exact (patch_header_not_die _ _ H). }
  apply bind_die in H. destruct H as [H|(k4 & _ & H)].
  { exfalso. exact (setup_bios_not_die _ _ H). }
  discriminate H.
Qed.

(** [load_bzimage] returns false without touching the monitor. *)
Lemma load_bzimage_false self f cmd uninit self' f' :
  load_bzimage B self f cmd uninit = Ok (false, self', f') ->
  self' = self /\ fd_data f' = fd_data f /\ fd_seekable f' = true.
Proof.
  rewrite load_bzimage_eq. intros H.
  destruct (fd_seekable f); [|discriminate H].
  destruct (read_boot_params _ uninit) as [boot f0] eqn:Eboot.
  cbv zeta in H. cbn [fst snd] in H.
  apply read_boot_params_spec in Eboot. destruct Eboot as (Hd0 & Hs0 & _).
  destruct (negb _); [injection H as <- <-; auto|].
  destruct (_ <? _); [injection H as <- <-; auto|].
  unfold load_bzimage_body in H.
  binds. destruct a as [k1 f1]. binds.
Qed.

Lemma load_flat_binary_true self f b k g :
  load_flat_binary self f = Ok (b, k, g) ->
  b = true /\
  boot_selector k = BOOT_LOADER_SELECTOR /\
  boot_ip k = BOOT_LOADER_IP /\
  boot_sp k = BOOT_LOADER_SP.
Proof.
  unfold load_flat_binary. intros H. binds.
  destruct a0 as [[k1 f1] p1]. binds. cbn. auto.
Qed.

Lemma load_flat_binary_die self f msg :
  load_flat_binary self f = Die msg -> msg = "lseek"%string.
Proof.
  unfold load_flat_binary, lseek_set0. intros H.
  destruct (fd_seekable f); [|inversion H; auto]. cbn [bind] in H.
  apply bind_die in H. destruct H as [H|([[k1 f1] p1] & _ & H)].
  - exfalso. exact (read_loop_n_not_die _ _ _ _ _ H).
  - discriminate H.
Qed.

Lemma load_kernel_die self f cmd uninit msg :
  kvm__load_kernel B self (Some f) cmd uninit = Die msg ->
  msg = "lseek"%string \/ msg = "read"%string.
Proof.
  unfold kvm__load_kernel. intros H.
  apply bind_die in H. destruct H as [H|([[ret k1] f1] & _ & H)].
  { apply load_bzimage_die in H. exact H. }
  destruct ret; [discriminate H|].
  apply bind_die in H. destruct H as [H|([[ret' k2] f2] & Hflat & H)].
  { apply load_flat_binary_die in H. auto. }
  apply load_flat_binary_true in Hflat. destruct Hflat as [-> _].
  discriminate H.
Qed.

(** A file that [load_bzimage] does not take (no magic, or a protocol
    older than 2.02) goes to the flat-binary branch and is loaded there. *)
Lemma unrecognised_falls_through self f cmd uninit :
  monitor_ok self -> fd_seekable f = true ->
  let data := fd_data f in
  hdr_version + 2 <= Z.of_nat (length data) <= ram_size self - 0x10000 ->
  mem_read (file_mem data) hdr_header 4 <> BZIMAGE_MAGIC \/
  file_field data hdr_version 2 < BOOT_PROTOCOL_REQUIRED ->
  (exists f1, load_bzimage B self f cmd uninit = Ok (false, self, f1)) /\
  kvm__load_kernel B self (Some f) cmd uninit
  = Ok (true, set_boot (set_ram self (mem_write (ram self) 0x10000 data))
                       BOOT_LOADER_SELECTOR BOOT_LOADER_IP BOOT_LOADER_SP).
Proof.
  intros Hok Hseek data Hlen Hno.
  assert (Hbz : exists f1, fd_data f1 = data /\ fd_seekable f1 = true /\
                  load_bzimage B self f cmd uninit = Ok (false, self, f1)).
  { rewrite load_bzimage_eq, Hseek. fold data.
    destruct (read_boot_params _ uninit) as [boot f0] eqn:Eboot.
    cbv zeta. cbn [fst snd].
    apply read_boot_params_spec in Eboot.
    destruct Eboot as (Hd0 & Hs0 & Hboot).
    assert (Hmag : mem_read boot hdr_header 4
                   = mem_read (file_mem data) hdr_header 4).
    { apply mem_read_ext. intros a Ha. apply Hboot;
        unfold hdr_header, hdr_version, sizeof_boot_params in *; lia. }
    assert (Hver : boot_field boot hdr_version 2
                   = file_field data hdr_version 2).
    { apply boot_field_from_file;
        [exact Hboot | ..]; unfold hdr_version, sizeof_boot_params in *; lia. }
    rewrite Hmag, Hver.
    destruct (bytes_eqb (mem_read (file_mem data) hdr_header 4) BZIMAGE_MAGIC)
      eqn:Em; cbn [negb].
    - apply bytes_eqb_eq in Em. destruct Hno as [Hno|Hno]; [tauto|].
      replace (file_field data hdr_version 2 <? BOOT_PROTOCOL_REQUIRED)
        with true by (symmetry; apply Z.ltb_lt; exact Hno).
      exists f0. auto.
    - exists f0. auto. }
  destruct Hbz as (f1 & Hd & Hs & Hbz). split; [eauto|].
  unfold kvm__load_kernel. rewrite Hbz. cbn [bind].
  rewrite load_flat_binary_eq by exact Hok. rewrite Hs, Hd.
  replace (Z.of_nat (length data) <=? ram_size self - 65536) with true
    by (symmetry; apply Z.leb_le; lia).
  reflexivity.
Qed.

(** C3, as the code has it.  A seekable file that fits into guest RAM and
    carries the magic at 0x202 with a protocol version below 0x0202 is not
    refused: [load_bzimage] warns and returns false, as it does for a
    wrong magic, and [kvm__load_kernel] loads the file as a flat binary
    at linear 0x10000 and returns true with the flat-binary entry state. *)
Theorem old_kernel_falls_through self f cmd uninit :
  monitor_ok self -> fd_seekable f = true ->
  let data := fd_data f in
  hdr_version + 2 <= Z.of_nat (length data) <= ram_size self - 0x10000 ->
  mem_read (file_mem data) hdr_header 4 = BZIMAGE_MAGIC ->
  file_field data hdr_version 2 < BOOT_PROTOCOL_REQUIRED ->
  (exists f1, load_bzimage B self f cmd uninit = Ok (false, self, f1)) /\
  kvm__load_kernel B self (Some f) cmd uninit
  = Ok (true, set_boot (set_ram self (mem_write (ram self) 0x10000 data))
                       BOOT_LOADER_SELECTOR BOOT_LOADER_IP BOOT_LOADER_SP).
Proof.
  intros Hok Hseek data Hlen _ Hold.
  apply unrecognised_falls_through; auto.
Qed.

(** C10, as the code has it.  [kvm__load_kernel] never reaches its final
    die: when it dies, it is on a failed lseek or on a short read of the
    setup.  [load_flat_binary] never returns false, and it returns true,
    with [boot_selector = 0x1000], [boot_ip = 0], [boot_sp = 0x8000], for
    every seekable file that fits into guest RAM from 0x10000 on, the
    empty file included; so whenever [load_bzimage] returns false for such
    a file, [kvm__load_kernel] returns true. *)
Theorem flat_binary_always_accepts self f cmd uninit :
  monitor_ok self ->
  kvm__load_kernel B self (Some f) cmd uninit
    <> Die "%s is not a valid bzImage or flat binary" /\
  (forall self0 b k g, load_flat_binary self0 f = Ok (b, k, g) -> b = true) /\
  (fd_seekable f = true ->
   Z.of_nat (length (fd_data f)) <= ram_size self - 0x10000 ->
   exists k g, load_flat_binary self f = Ok (true, k, g) /\
     boot_selector k = 0x1000 /\ boot_ip k = 0x0000 /\ boot_sp k = 0x8000) /\
  (forall f1, load_bzimage B self f cmd uninit = Ok (false, self, f1) ->
   Z.of_nat (length (fd_data f)) <= ram_size self - 0x10000 ->
   exists k, kvm__load_kernel B self (Some f) cmd uninit = Ok (true, k) /\
     boot_selector k = 0x1000 /\ boot_ip k = 0x0000 /\ boot_sp k = 0x8000).
Proof.
  intros Hok. split; [|split; [|split]].
  - intros H. apply load_kernel_die in H. destruct H as [H|H]; discriminate H.
  - intros self0 b k g H. apply load_flat_binary_true in H. tauto.
  - intros Hseek Hfit. rewrite load_flat_binary_eq by exact Hok.
    rewrite Hseek.
    replace (Z.of_nat (length (fd_data f)) <=? ram_size self - 65536) with true
      by (symmetry; apply Z.leb_le; lia).
    do 2 eexists. split; [reflexivity|]. cbn. auto.
  - intros f1 Hbz Hfit. unfold kvm__load_kernel. rewrite Hbz. cbn [bind].
    apply load_bzimage_false in Hbz. destruct Hbz as (_ & Hd & Hs).
    rewrite load_flat_binary_eq by exact Hok. rewrite Hs, Hd.
    replace (Z.of_nat (length (fd_data f)) <=? ram_size self - 65536) with true
      by (symmetry; apply Z.leb_le; lia).
    cbn [bind]. eexists. split; [reflexivity|]. cbn. auto.
Qed.

(** Whatever branch took the file, the entry state a successful
    [kvm__load_kernel] leaves is one that [kvm__reset_vcpu] accepts. *)
Lemma load_kernel_entry self f cmd uninit ret k :
  monitor_ok self -> bios_low B = true ->
  kvm__load_kernel B self (Some f) cmd uninit = Ok (ret, k) ->
  ret = true /\
  boot_selector k = 0x1000 /\
  (boot_ip k = 0x0000 \/ boot_ip k = 0x0200) /\
  boot_sp k = 0x8000.
Proof.
  intros Hok Hlow H. unfold kvm__load_kernel in H.
  destruct (load_bzimage B self f cmd uninit) as [[[b k1] f1]| |] eqn:E;
    [|discriminate H ..].
  cbn [bind] in H. destruct b.
  - injection H as <- <-.
    apply load_bzimage_final in E; [|exact Hok|exact Hlow].
    destruct E as (m2 & _ & _ & _ & Hsel & Hip & Hsp & _).
    rewrite Hsel, Hip, Hsp. auto.
  - destruct (load_flat_binary k1 f1) as [[[b' k2] f2]| |] eqn:E2;
      [|discriminate H ..].
    cbn [bind] in H. apply load_flat_binary_true in E2.
    destruct E2 as (-> & Hsel & Hip & Hsp). injection H as <- <-.
    rewrite Hsel, Hip, Hsp. auto.
Qed.

End Bzimage.

(** A header with [cmdline_size = 0] and a command line: the length
    [cmdline_size - 1] of the copy wraps and the copy faults. *)
Lemma copy_cmdline_zero_size self str :
  monitor_ok self -> copy_cmdline self (Some str) 0 = Fault.
Proof.
  intros Hok. assert (Hsz : ram_size self = 64 * 1024 * 1024) by apply Hok.
  unfold copy_cmdline, cmdline_size.
  rewrite flat_to_host_eq by (auto; rewrite Hsz; unfold BOOT_CMDLINE_OFFSET; lia).
  replace (Z.of_nat (strlen str) + 1 >? 0) with true
    by (symmetry; apply Z.gtb_lt; lia).
  unfold host_memset.
  rewrite host_range_ok_at by (unfold BOOT_CMDLINE_OFFSET; lia).
  rewrite orb_true_r. cbn [bind]. unfold host_memcpy_str.
  change (u64 (0 - 1)) with (2 ^ 64 - 1).
  destruct (2 ^ 64 - 1 <=? Z.of_nat (strlen str) + 1) eqn:E; [|reflexivity].
  apply Z.leb_le in E. unfold host_store.
  replace (host_range_ok _ _ _) with false; [reflexivity|].
  symmetry. apply host_range_ok_false.
  rewrite length_firstn, length_app. cbn [length ram_start ram_size set_ram].
  pose proof (strlen_le str). lia.
Qed.

(** ** The samples *)

Lemma returned_true {A C} (m : outcome (bool * A * C)) :
  returned (fun r => fst (fst r)) m = true ->
  exists a c, m = Ok (true, a, c).
Proof.
  destruct m as [[[b a] c]| |]; cbn; intros H; try discriminate H.
  subst b. eauto.
Qed.

(** C3 fails as stated: the 1 KiB image with the magic and version 0x0201
    is loaded, as a flat binary. *)
Lemma old_kernel_is_loaded :
  mem_read (file_mem (fd_data Samples.old_bzimage)) hdr_header 4 = BZIMAGE_MAGIC /\
  file_field (fd_data Samples.old_bzimage) hdr_version 2 = 0x0201 /\
  exists k,
    kvm__load_kernel Samples.bios0 Samples.monitor0 (Some Samples.old_bzimage)
                     None Samples.stack0 = Ok (true, k) /\
    boot_selector k = 0x1000 /\ boot_ip k = 0x0000.
Proof.
  split; [vm_compute; reflexivity|]. split; [vm_compute; reflexivity|].
  destruct (unrecognised_falls_through Samples.bios0 Samples.monitor0
              Samples.old_bzimage None Samples.stack0) as [_ H].
  - unfold monitor_ok, valid_buffer. cbn. lia.
  - reflexivity.
  - vm_compute. split; intro; discriminate.
  - right. vm_compute. reflexivity.
  - eexists. split; [exact H|]. split; reflexivity.
Qed.

Lemma old_kernel_falls_through_witness :
  kvm__load_kernel Samples.bios0 Samples.monitor0 (Some Samples.old_bzimage)
                   None Samples.stack0
  = Ok (true,
        set_boot (set_ram Samples.monitor0
                    (mem_write (ram Samples.monitor0) 0x10000
                               (fd_data Samples.old_bzimage)))
                 BOOT_LOADER_SELECTOR BOOT_LOADER_IP BOOT_LOADER_SP).
Proof.
  apply (old_kernel_falls_through Samples.bios0 Samples.monitor0
           Samples.old_bzimage None Samples.stack0).
  - unfold monitor_ok, valid_buffer. cbn. lia.
  - reflexivity.
  - vm_compute. split; intro; discriminate.
  - vm_compute. reflexivity.
  - vm_compute. reflexivity.
Defined.

(** C10 fails as stated: a file that opens, carries the magic and protocol
    2.02, and is shorter than its setup, is not loaded. *)
Lemma short_bzimage_dies :
  kvm__load_kernel Samples.bios0 Samples.monitor0 (Some Samples.short_bzimage)
                   None Samples.stack0 = Die "read".
Proof. vm_compute. reflexivity. Qed.

Lemma flat_binary_always_accepts_witness :
  exists k g,
    load_flat_binary Samples.monitor0 Samples.empty_file = Ok (true, k, g) /\
    boot_selector k = 0x1000 /\ boot_ip k = 0x0000 /\ boot_sp k = 0x8000.
Proof.
  destruct (flat_binary_always_accepts Samples.bios0 Samples.monitor0
              Samples.empty_file None Samples.stack0) as (_ & _ & H & _).
  - unfold monitor_ok, valid_buffer. cbn. lia.
  - apply H.
    + reflexivity.
    + vm_compute. intro; discriminate.
Defined.

(** The two-byte flat binary: both HLTs land at linear 0x10000 and the
    entry is 0x1000:0x0000. *)
Lemma flat_hlt_loaded :
  exists k g,
    load_flat_binary Samples.monitor0 Samples.flat_hlt = Ok (true, k, g) /\
    mem_read (ram k) 0x10000 2 = [xf4; xf4] /\
    boot_selector k = 0x1000 /\ boot_ip k = 0x0000 /\ boot_sp k = 0x8000.
Proof.
  do 2 eexists. split.
  - rewrite load_flat_binary_eq
      by (unfold monitor_ok, valid_buffer; cbn; lia).
    reflexivity.
  - split; [vm_compute; reflexivity|]. auto.
Qed.

Lemma bzimage_layout_witness :
  exists self' f',
    load_bzimage Samples.bios0 Samples.monitor0 Samples.good_bzimage
                 (Some Samples.cmdline0) Samples.stack0 = Ok (true, self', f') /\
    guest_u32 self' (0x10000 + hdr_cmd_line_ptr) = 0x20000 /\
    guest_u8 self' (0x10000 + hdr_type_of_loader) = 0xFF /\
    guest_u16 self' (0x10000 + hdr_heap_end_ptr) = 0xFE00 /\
    boot_selector self' = 0x1000 /\ boot_ip self' = 0x0200 /\
    boot_sp self' = 0x8000.
Proof.
  destruct (returned_true
              (load_bzimage Samples.bios0 Samples.monitor0 Samples.good_bzimage
                            (Some Samples.cmdline0) Samples.stack0))
    as (self' & f' & E); [vm_compute; reflexivity|].
  exists self', f'. split; [exact E|].
  destruct (bzimage_layout Samples.bios0 Samples.monitor0 Samples.good_bzimage
              (Some Samples.cmdline0) Samples.stack0 self' f')
    as (_ & _ & _ & H1 & H2 & H3 & _ & H5 & H6 & H7).
  - unfold monitor_ok, valid_buffer. cbn. lia.
  - vm_compute. reflexivity.
  - exact E.
  - auto 10.
Defined.

(** C7 fails on the code for a header whose [cmdline_size] is 0.  The
    command line is longer than that, the local [cmdline_size] is cut
    down to 0, and the length of the copy, [cmdline_size - 1] in [size_t],
    is 2^64 - 1: [memcpy] is asked for more than the eleven bytes of the
    command line and more than the empty reserved region, so nothing cuts
    the command line at [cmdline_size - 1] and the copy leaves the string;
    this holds for every command line.  The same file with
    [cmdline_size = 8] in its header is loaded, with seven characters and a
    NUL at linear 0x20000. *)
Theorem cmdline_size_zero_wraps :
  file_field (fd_data Samples.nosize_bzimage) hdr_cmdline_size 4 = 0 /\
  Z.of_nat (strlen Samples.cmdline0) + 1 = 11 /\
  (forall str, cmdline_size str 0 = 0 /\
               u64 (cmdline_size str 0 - 1) = 2 ^ 64 - 1) /\
  (forall self str,
     monitor_ok self -> copy_cmdline self (Some str) 0 = Fault) /\
  load_bzimage Samples.bios0 Samples.monitor0 Samples.nosize_bzimage
               (Some Samples.cmdline0) Samples.stack0 = Fault /\
  returned (fun r => bytes_eqb (mem_read (ram (snd (fst r))) 0x20000 8)
                       [x61; x62; x63; x64; x65; x66; x67; x00])
    (load_bzimage Samples.bios0 Samples.monitor0 Samples.good_bzimage
                  (Some Samples.cmdline0) Samples.stack0) = true.
Proof.
  split; [vm_compute; reflexivity|]. split; [reflexivity|].
  split.
  { intros str. unfold cmdline_size.
    replace (Z.of_nat (strlen str) + 1 >? 0) with true
      by (symmetry; apply Z.gtb_lt; lia).
    split; reflexivity. }
  split; [exact copy_cmdline_zero_size|].
  split; vm_compute; reflexivity.
Qed.

End LoaderFacts.

(** ** The exit-dispatch loop *)

Module MainFacts.
Import Kvm Main.

Lemma dispatch_default self e :
  exit_reason e <> KVM_EXIT_DEBUG -> exit_reason e <> KVM_EXIT_IO ->
  exit_reason e <> KVM_EXIT_MMIO -> exit_reason e <> KVM_EXIT_INTR ->
  dispatch self e = Ok (GotoExitKvm, self).
Proof.
  intros H1 H2 H3 H4. unfold dispatch.
  apply Z.eqb_neq in H1, H2, H3, H4. rewrite H1, H2, H3, H4. reflexivity.
Qed.

Lemma exit_kvm_status self e r : exit_kvm self e = Ok r -> status r = 0.
Proof.
  unfold exit_kvm. intros H.
  destruct (nth_error _ _); cbn [bind] in H; [|discriminate H].
  destruct (Debug.kvm__show_registers _); cbn [bind] in H;
    [|discriminate H ..].
  destruct (Debug.kvm__show_code _ _) as [[[k1 c1] s1]| |];
    cbn [bind] in H; [|discriminate H ..].
  destruct (Debug.kvm__show_page_tables _ _) as [[k2 t2]| |];
    cbn [bind] in H; [|discriminate H ..].
  injection H as <-. reflexivity.
Qed.

(** Every return of [main] after the loop carries status 0. *)
Lemma main_loop_status events : forall self r,
  main_loop self events = Some (Ok r) -> status r = 0.
Proof.
  induction events as [|e rest IH]; intros self r; [discriminate|].
  cbn [main_loop].
  destruct (kvm__run self e) as [k| |]; [|discriminate ..].
  destruct (dispatch k e) as [[[|] k']| |]; [apply IH| |discriminate ..].
  intros H. injection H as H. exact (exit_kvm_status _ _ _ H).
Qed.

(** C1 fails as stated: an HLT exit does not go on to the next turn of the
    loop; [main] ends there, whatever the hypervisor would deliver
    next. *)
Lemma hlt_leaves_loop :
  dispatch Samples.monitor0 Samples.hlt_event
  = Ok (GotoExitKvm, Samples.monitor0) /\
  main_loop Samples.monitor0 [Samples.hlt_event; Samples.intr_event]
  = Some (Ok (mk_result 0 [ExitReasonLine 5 "KVM_EXIT_HLT"])).
Proof. split; [reflexivity | vm_compute; reflexivity]. Qed.

(** C1, as the code has it.  When [KVM_RUN] returns with exit reason HLT,
    the switch takes its default arm: the monitor leaves the loop through
    [exit_kvm] at this turn, as for every reason other than DEBUG, IO,
    MMIO and INTR. *)
Theorem hlt_exits_loop (self : kvm) (e : run_event) (rest : list run_event) :
  0 <= run_ret e ->
  exit_reason e = KVM_EXIT_HLT ->
  dispatch (set_ram self (guest_ram e)) e
  = Ok (GotoExitKvm, set_ram self (guest_ram e)) /\
  main_loop self (e :: rest) = Some (exit_kvm (set_ram self (guest_ram e)) e).
Proof.
  intros Hrun Hhlt.
  assert (Hd : forall k, dispatch k e = Ok (GotoExitKvm, k))
    by (intros k; apply dispatch_default; rewrite Hhlt; discriminate).
  split; [apply Hd|]. cbn [main_loop]. unfold kvm__run, die_unless.
  replace (0 <=? run_ret e) with true by (symmetry; apply Z.leb_le; exact Hrun).
  cbn [bind]. rewrite Hd. reflexivity.
Qed.

Lemma hlt_exits_loop_witness :
  dispatch Samples.monitor0 Samples.hlt_event
  = Ok (GotoExitKvm, Samples.monitor0) /\
  main_loop Samples.monitor0 [Samples.hlt_event; Samples.intr_event]
  = Some (exit_kvm Samples.monitor0 Samples.hlt_event).
Proof.
  apply (hlt_exits_loop Samples.monitor0 Samples.hlt_event
           [Samples.intr_event]).
  - cbn. lia.
  - reflexivity.
Defined.

(** C2 fails on the code: leaving the loop after an UNKNOWN exit, after an
    I/O exit whose handler returned false and after an unsupported exit
    reason, [main] prints the reason and returns 0, where [handle_sigquit]
    ends the same dump with [exit(1)]. *)
Theorem fatal_exit_returns_0 :
  main_loop Samples.monitor0 [Samples.intr_event; Samples.unknown_event]
  = Some (Ok (mk_result 0 [ExitReasonLine 0 "KVM_EXIT_UNKNOWN";
                           ExitCodeLine 0x21])) /\
  main_loop Samples.monitor0 [Samples.io_unhandled_event]
  = Some (Ok (mk_result 0 [ExitReasonLine 2 "KVM_EXIT_IO"])) /\
  main_loop Samples.monitor0 [Samples.shutdown_event]
  = Some (Ok (mk_result 0 [ExitReasonLine 8 "KVM_EXIT_SHUTDOWN"])) /\
  process_status (exit_kvm Samples.monitor0 Samples.unknown_event) = Some 0 /\
  handle_sigquit Samples.monitor0 (vcpu_now Samples.unknown_event) = Ok 1.
Proof. repeat split; vm_compute; reflexivity. Qed.

End MainFacts.

(** ** The BIOS stubs *)

Module BiosFacts.
Import BiosRom.

(** *** Flags *)

Lemma land_pow2_testbit x k :
  0 <= k -> negb (Z.land x (2 ^ k) =? 0) = Z.testbit x k.
Proof.
  intros Hk. destruct (Z.testbit x k) eqn:E.
  - apply negb_true_iff, Z.eqb_neq. intros H0.
    assert (Hb : Z.testbit (Z.land x (2 ^ k)) k = true)
      by (rewrite Z.land_spec, E, Z.pow2_bits_true by exact Hk; reflexivity).
    rewrite H0, Z.bits_0 in Hb. discriminate Hb.
  - apply negb_false_iff, Z.eqb_eq. apply Z.bits_inj'. intros n Hn.
    rewrite Z.land_spec, Z.bits_0.
    destruct (Z.eq_dec k n) as [<-|Hne].
    + rewrite E. reflexivity.
    + rewrite (Z.pow2_bits_false k n) by exact Hne. apply andb_false_r.
Qed.

Lemma flag_CF m : flag m EFLAGS_CF = Z.testbit (eflags m) 0.
Proof. apply (land_pow2_testbit (eflags m) 0). lia. Qed.

Lemma flag_ZF m : flag m EFLAGS_ZF = Z.testbit (eflags m) 6.
Proof. apply (land_pow2_testbit (eflags m) 6). lia. Qed.

Lemma testbit_set_flag m k b j :
  0 <= k -> 0 <= j ->
  Z.testbit (eflags (set_flag m (2 ^ k) b)) j
  = if Z.eq_dec k j then b else Z.testbit (eflags m) j.
Proof.
  intros Hk Hj. unfold set_flag. cbn [eflags set_eflags].
  destruct b.
  - rewrite Z.lor_spec, Z.pow2_bits_eqb by exact Hk.
    destruct (Z.eq_dec k j) as [->|Hne].
    + rewrite Z.eqb_refl. apply orb_true_r.
    + replace (k =? j) with false by (symmetry; apply Z.eqb_neq; exact Hne).
      apply orb_false_r.
  - rewrite Z.land_spec, Z.lnot_spec, Z.pow2_bits_eqb by assumption.
    destruct (Z.eq_dec k j) as [->|Hne].
    + rewrite Z.eqb_refl. apply andb_false_r.
    + replace (k =? j) with false by (symmetry; apply Z.eqb_neq; exact Hne).
      apply andb_true_r.
Qed.

Lemma flag_ZF_test imm v m : flag (test imm v m) EFLAGS_ZF = (Z.land v imm =? 0).
Proof.
  rewrite flag_ZF. unfold test.
  change EFLAGS_ZF with (2 ^ 6). rewrite testbit_set_flag by lia.
  destruct (Z.eq_dec 6 6); [reflexivity | contradiction].
Qed.

Lemma flag_ZF_cmp imm v m : flag (cmp imm v m) EFLAGS_ZF = (v =? imm).
Proof.
  rewrite flag_ZF. unfold cmp.
  change EFLAGS_ZF with (2 ^ 6). rewrite testbit_set_flag by lia.
  destruct (Z.eq_dec 6 6); [reflexivity | contradiction].
Qed.

(** *** The stack pointer *)

Lemma sp_add_small e d :
  0 <= e -> 0 <= e + d < 2 ^ 16 -> 0 <= d -> sp_add e d = e + d.
Proof.
  intros He Hd H0. unfold sp_add.
  rewrite (Z.mod_small e) by lia. rewrite Z.mod_small by lia. lia.
Qed.

Lemma sp_add_mod e d : sp_add e d mod 2 ^ 16 = (e mod 2 ^ 16 + d) mod 2 ^ 16.
Proof.
  unfold sp_add.
  replace (e - e mod 2 ^ 16) with (e / 2 ^ 16 * 2 ^ 16)
    by (pose proof (Z.div_mod e (2 ^ 16) ltac:(lia)); lia).
  rewrite Z.add_comm, Z.mod_add by lia. apply Z.mod_mod. lia.
Qed.

Lemma sp_add_add e a b : sp_add (sp_add e a) b = sp_add e (a + b).
Proof.
  pose proof (sp_add_mod e a) as Hm. unfold sp_add in *. rewrite Hm.
  rewrite (Z.add_mod_idemp_l (e mod 2 ^ 16 + a) b) by lia.
  replace (e mod 2 ^ 16 + a + b) with (e mod 2 ^ 16 + (a + b)) by lia. lia.
Qed.

Lemma sp_add_0 e : sp_add e 0 = e.
Proof.
  unfold sp_add. rewrite Z.add_0_r, Z.mod_mod by lia. lia.
Qed.

Lemma esp_pushw r m : esp (pushw r m) = sp_add (esp m) (-2).
Proof. reflexivity. Qed.
Lemma esp_pushl r m : esp (pushl r m) = sp_add (esp m) (-4).
Proof. reflexivity. Qed.
Lemma ss_pushw r m : ss (pushw r m) = ss m.
Proof. reflexivity. Qed.
Lemma ss_pushl r m : ss (pushl r m) = ss m.
Proof. reflexivity. Qed.

Lemma esp_popw set m : off_stack set -> esp (popw set m) = sp_add (esp m) 2.
Proof. intros H. unfold popw, pop_done. cbn [esp set_esp]. f_equal. apply H. Qed.
Lemma esp_popl set m : off_stack set -> esp (popl set m) = sp_add (esp m) 4.
Proof. intros H. unfold popl, pop_done. cbn [esp set_esp]. f_equal. apply H. Qed.
Lemma ss_popw set m : off_stack set -> ss (popw set m) = ss m.
Proof. intros H. unfold popw, pop_done. cbn [ss set_esp]. apply H. Qed.
Lemma ss_popl set m : off_stack set -> ss (popl set m) = ss m.
Proof. intros H. unfold popl, pop_done. cbn [ss set_esp]. apply H. Qed.

Lemma off_stack_eax : off_stack set_eax.
Proof. split; reflexivity. Qed.
Lemma off_stack_ebx : off_stack set_ebx.
Proof. split; reflexivity. Qed.
Lemma off_stack_ecx : off_stack set_ecx.
Proof. split; reflexivity. Qed.
Lemma off_stack_edx : off_stack set_edx.
Proof. split; reflexivity. Qed.
Lemma off_stack_edi : off_stack set_edi.
Proof. split; reflexivity. Qed.
Lemma off_stack_fs : off_stack set_fs.
Proof. split; reflexivity. Qed.

Lemma esp_mov_esp_eax m : esp ((fun m => set_eax m (esp m)) m) = esp m.
Proof. reflexivity. Qed.
Lemma ss_mov_esp_eax m : ss ((fun m => set_eax m (esp m)) m) = ss m.
Proof. reflexivity. Qed.

Section Int15Facts.

Variable call_e820_query_map : machine -> machine.
Hypothesis callee : keeps_stack call_e820_query_map.

(** The pushes and pops around the call cancel. *)
Lemma e820_call_stack m :
  esp (e820_call call_e820_query_map m) = esp m /\
  ss (e820_call call_e820_query_map m) = ss m.
Proof.
  unfold e820_call. split.
  - rewrite esp_popw by apply off_stack_fs.
    rewrite esp_popl by apply off_stack_edx.
    rewrite esp_popl by apply off_stack_ecx.
    rewrite esp_popl by apply off_stack_edi.
    rewrite esp_popl by apply off_stack_ebx.
    rewrite esp_popl by apply off_stack_eax.
    rewrite (proj1 (callee _)), esp_mov_esp_eax.
    rewrite !esp_pushl, esp_pushw. rewrite !sp_add_add.
    apply sp_add_0.
  - rewrite ss_popw by apply off_stack_fs.
    rewrite ss_popl by apply off_stack_edx.
    rewrite ss_popl by apply off_stack_ecx.
    rewrite ss_popl by apply off_stack_edi.
    rewrite ss_popl by apply off_stack_ebx.
    rewrite ss_popl by apply off_stack_eax.
    rewrite (proj2 (callee _)), ss_mov_esp_eax.
    rewrite !ss_pushl, ss_pushw. reflexivity.
Qed.

(** *** The interrupt return *)

Lemma saved_flags_same mm m1 m2 :
  esp m1 = esp m2 -> ss m1 = ss m2 -> saved_flags mm m1 = saved_flags mm m2.
Proof.
  intros He Hs. unfold saved_flags, saved_flags_addr. rewrite He, Hs.
  reflexivity.
Qed.

Lemma frame_in_segment_same m1 m2 :
  esp m1 = esp m2 -> frame_in_segment m2 -> frame_in_segment m1.
Proof. unfold frame_in_segment. intros ->. auto. Qed.

Lemma IRET_memory m : memory (IRET m) = memory m.
Proof. reflexivity. Qed.

Lemma IRET_eflags m :
  frame_in_segment m ->
  eflags (IRET m)
  = Z.lor (Z.land (eflags m) 0xffff0000) (saved_flags (memory m) m).
Proof.
  intros [H0 H8]. unfold IRET, pop_done, pop_value, load, sp.
  cbn [eflags esp ss memory set_esp set_ip set_cs set_eflags].
  rewrite sp_add_add. rewrite sp_add_small by lia.
  change 0xffff with (Z.ones 16). rewrite Z.land_ones by lia.
  rewrite Z.mod_small by lia. reflexivity.
Qed.

Lemma IRET_carry m :
  frame_in_segment m ->
  flag (IRET m) EFLAGS_CF = Z.testbit (saved_flags (memory m) m) 0.
Proof.
  intros Hf. rewrite flag_CF, IRET_eflags by exact Hf.
  rewrite Z.lor_spec, Z.land_spec.
  change (Z.testbit 0xffff0000 0) with false.
  rewrite andb_false_r. reflexivity.
Qed.

(** *** The carry bit of the saved image *)

Lemma odd_mod_256 r : Z.odd (r mod 256) = Z.odd r.
Proof.
  rewrite (Z.div_mod r 256) at 2 by lia.
  replace (256 * (r / 256) + r mod 256)
    with (r mod 256 + 2 * (128 * (r / 256))) by lia.
  rewrite Z.odd_add_mul_2. reflexivity.
Qed.

Lemma clear_cf_image_stack m :
  esp (clear_cf_image m) = esp m /\ ss (clear_cf_image m) = ss m.
Proof. split; reflexivity. Qed.

Lemma clear_cf_image_saved m :
  frame_in_segment m ->
  Z.testbit (saved_flags (memory (clear_cf_image m)) m) 0 = false.
Proof.
  intros [H0 H8]. unfold saved_flags, saved_flags_addr, clear_cf_image, store.
  cbn [memory set_memory set_flag set_eflags].
  unfold u32 at 1. rewrite (Z.mod_small (esp m + 4)) by lia.
  set (a := linear (ss m) (esp m + 4)).
  set (r := Z.land (load m a 4) (u32 (Z.lnot EFLAGS_CF))).
  unfold mem_read. cbn [seq map le_decode Z.of_nat].
  rewrite !mem_write_in by (cbn [length le_encode]; lia).
  replace (Z.to_nat (a + 0 - a)) with O by lia.
  cbn [nth le_encode].
  rewrite Z.bit0_odd.
  match goal with
  | |- Z.odd (?x + 256 * ?y) = false =>
      replace (x + 256 * y) with (x + 2 * (128 * y)) by lia
  end.
  rewrite Z.odd_add_mul_2, Z_of_byte_of_Z, odd_mod_256, <- Z.bit0_odd.
  unfold r. rewrite Z.land_spec.
  change (Z.testbit (u32 (Z.lnot EFLAGS_CF)) 0) with false.
  apply andb_false_r.
Qed.

(** C5, as the code has it.  For a handler entered with its interrupt
    frame inside the stack segment, and an [e820_query_map] that returns
    with the stack it was called with: when EAX is 0xE820, [bios_int15]
    clears the carry bit of the saved FLAGS image before IRET, so the
    caller resumes with carry clear; for every other EAX it goes straight
    to IRET, guest memory is untouched and the caller resumes with the
    carry it had when it executed INT. *)
Theorem int15_carry (m : machine) :
  frame_in_segment m ->
  let m' := bios_int15 call_e820_query_map m in
  (eax m = 0xE820 ->
     Z.testbit (saved_flags (memory m') m) 0 = false /\
     flag m' EFLAGS_CF = false) /\
  (eax m <> 0xE820 ->
     memory m' = memory m /\
     flag m' EFLAGS_CF = Z.testbit (saved_flags (memory m) m) 0).
Proof.
  intros Hf m'. unfold m', bios_int15.
  rewrite flag_ZF_cmp. split.
  - intros Heax. rewrite Heax. cbn [Z.eqb Pos.eqb negb].
    unfold e820.
    set (m0 := cmp 0xE820 0xE820 m).
    assert (Hm0 : esp m0 = esp m /\ ss m0 = ss m) by (split; reflexivity).
    destruct (e820_call_stack m0) as [He1 Hs1].
    set (m1 := e820_call call_e820_query_map m0) in *.
    clearbody m1. clearbody m0.
    assert (Hf1 : frame_in_segment m1).
    { apply (frame_in_segment_same m1 m); [lia | exact Hf]. }
    pose proof (clear_cf_image_saved m1 Hf1) as Hbit.
    destruct (clear_cf_image_stack m1) as [He2 Hs2].
    set (m2 := clear_cf_image m1) in *. clearbody m2.
    assert (Hf2 : frame_in_segment m2).
    { apply (frame_in_segment_same m2 m1); [lia | exact Hf1]. }
    rewrite IRET_carry by exact Hf2. rewrite IRET_memory.
    rewrite (saved_flags_same (memory m2) m m1) by lia.
    rewrite (saved_flags_same (memory m2) m2 m1) by lia.
    auto.
  - intros Hne.
    replace (eax m =? 0xE820) with false by (symmetry; apply Z.eqb_neq; exact Hne).
    cbn [negb].
    set (m0 := cmp 0xE820 (eax m) m).
    assert (Hm0 : esp m0 = esp m /\ ss m0 = ss m /\ memory m0 = memory m)
      by (repeat split; reflexivity).
    destruct Hm0 as (He0 & Hs0 & Hmem0). clearbody m0.
    rewrite IRET_memory, IRET_carry
      by (apply (frame_in_segment_same m0 m); [lia | exact Hf]).
    rewrite Hmem0. split; [reflexivity|].
    rewrite (saved_flags_same (memory m) m0 m) by lia. reflexivity.
Qed.

End Int15Facts.

(** C5 fails as stated: INT 15h with AX = 0x5300 from a caller whose carry
    flag is clear returns with the carry flag clear. *)
Lemma int15_other_leaves_carry :
  eax Samples.apm_call <> 0xE820 /\
  flag (bios_int15 (fun m => m) Samples.apm_call) EFLAGS_CF = false.
Proof. split; [discriminate | vm_compute; reflexivity]. Qed.

Lemma int15_carry_witness :
  flag (bios_int15 (fun m => m) Samples.e820_entry) EFLAGS_CF = false /\
  memory (bios_int15 (fun m => m) Samples.apm_call) = memory Samples.apm_call.
Proof.
  destruct (int15_carry (fun m => m) (fun m => conj eq_refl eq_refl)
              Samples.e820_entry) as [H _].
  { unfold frame_in_segment. cbn. lia. }
  destruct (int15_carry (fun m => m) (fun m => conj eq_refl eq_refl)
              Samples.apm_call) as [_ H'].
  { unfold frame_in_segment. cbn. lia. }
  split.
  - apply H. reflexivity.
  - apply H'. discriminate.
Defined.

Section Int10Facts.

Variable stack_swap : machine -> machine.
Variable stack_restore : machine -> machine.
Variable VGA_RAM_SEG : Z.
Variable VGA_PAGE_SIZE : Z.
Variable cursor : Z.

(** [test $0x0e, %ah; jne 1f] leaves for IRET whenever AH has one of the
    bits 1 to 3 set. *)
Lemma bios_int10_skips m :
  Z.land (ah m) 0x0e <> 0 ->
  bios_int10 stack_swap stack_restore VGA_RAM_SEG VGA_PAGE_SIZE cursor m
  = IRET (test 0x0e (ah m) m).
Proof.
  intros H. unfold bios_int10. rewrite flag_ZF_test.
  replace (Z.land (ah m) 14 =? 0) with false
    by (symmetry; apply Z.eqb_neq; exact H).
  reflexivity.
Qed.

Lemma bios_int10_puts m :
  Z.land (ah m) 0x0e = 0 ->
  bios_int10 stack_swap stack_restore VGA_RAM_SEG VGA_PAGE_SIZE cursor m
  = IRET (putchar stack_swap stack_restore VGA_RAM_SEG VGA_PAGE_SIZE cursor
                  (test 0x0e (ah m) m)).
Proof.
  intros H. unfold bios_int10. rewrite flag_ZF_test, H. reflexivity.
Qed.

(** C4 fails on the code.  With AH = 0x0E and AL = 0x41 the handler goes
    straight to IRET: no byte of guest memory changes and the caller
    resumes.  With AH = 0x00 the handler takes the [putchar] path (for
    stack macros that do nothing the character lands at the start of the
    VGA page). *)
Theorem int10_teletype_not_written :
  let m' := bios_int10 stack_swap stack_restore VGA_RAM_SEG VGA_PAGE_SIZE
                       cursor Samples.tty_call in
  ah Samples.tty_call = 0x0E /\ al Samples.tty_call = 0x41 /\
  memory m' = memory Samples.tty_call /\
  cs m' = 0x1000 /\ ip m' = 0x1234 /\
  ah Samples.mode_call = 0x00 /\
  memory (bios_int10 (fun m => m) (fun m => m) 0xb800 0x1000 0x44
                     Samples.mode_call) 0xb8000 = x41.
Proof.
  intros m'. unfold m'.
  rewrite bios_int10_skips by (vm_compute; discriminate).
  repeat split; vm_compute; reflexivity.
Qed.

End Int10Facts.

End BiosFacts.

(** * Further properties of the code *)

(** ** Start-up of the monitor *)

Module InitFacts.
Import Kvm KvmFacts.

Lemma check_extensions_from_le h exts i :
  0 <= i -> check_extensions_from h exts i <= 0.
Proof.
  revert i. induction exts as [|e rest IH]; intros i Hi; cbn.
  - lia.
  - destruct (kvm__supports_extension h (snd e)); cbn.
    + apply IH. lia.
    + lia.
Qed.

Lemma check_extensions_from_pos h exts i :
  0 < i ->
  check_extensions_from h exts i = 0 <->
  Forall (fun e => kvm__supports_extension h (snd e) = true) exts.
Proof.
  revert i. induction exts as [|e rest IH]; intros i Hi; cbn.
  - split; [constructor | reflexivity].
  - destruct (kvm__supports_extension h (snd e)) eqn:E; cbn.
    + rewrite IH by lia. split.
      * intros H. constructor; assumption.
      * intros H. inversion H; assumption.
    + split; [lia|]. intros H. inversion H; congruence.
Qed.

Lemma check_extensions_from_0 h e rest :
  check_extensions_from h (e :: rest) 0 = 0 <->
  kvm__supports_extension h (snd e) = false \/
  Forall (fun e => kvm__supports_extension h (snd e) = true) (e :: rest).
Proof.
  cbn [check_extensions_from].
  destruct (kvm__supports_extension h (snd e)) eqn:E; cbn [negb].
  - rewrite check_extensions_from_pos by lia. split.
    + intros H. right. constructor; assumption.
    + intros [H|H]; [discriminate | inversion H; assumption].
  - split; [auto | reflexivity].
Qed.

Lemma check_extensions_zero_iff h :
  kvm__check_extensions h = 0 <->
  kvm__supports_extension h KVM_CAP_COALESCED_MMIO = false \/
  Forall (fun e => kvm__supports_extension h (snd e) = true) kvm_req_ext.
Proof. apply check_extensions_from_0. Qed.

(** X1.  [kvm__check_extensions] reports success (0) exactly when every
    required extension is there or when the first one of the table,
    KVM_CAP_COALESCED_MMIO, is missing: its failure value [-i] is 0 at
    index 0.  The result is never positive. *)
Theorem check_extensions_zero (h : host) :
  (kvm__check_extensions h = 0 <->
   kvm__supports_extension h KVM_CAP_COALESCED_MMIO = false \/
   Forall (fun e => kvm__supports_extension h (snd e) = true) kvm_req_ext)
  /\ kvm__check_extensions h <= 0.
Proof.
  split.
  - apply check_extensions_zero_iff.
  - apply check_extensions_from_le. lia.
Qed.

Lemma supports_extension_false h e :
  check_extension h e <= 0 -> kvm__supports_extension h e = false.
Proof.
  intros H. unfold kvm__supports_extension.
  destruct (check_extension h e <? 0) eqn:E; [reflexivity|].
  apply Z.ltb_ge in E. replace (check_extension h e) with 0 by lia.
  reflexivity.
Qed.

(** X2.  [kvm__init] returns exactly when the CPU has VMX, every
    allocation, [open] and ioctl succeeds, the API version is 12 and
    [kvm__check_extensions] gives 0; the monitor it returns has 64 MiB of
    RAM at the address [posix_memalign] gave, holding what the heap held
    (the buffer is not cleared), and all its other fields zero. *)
Theorem init_returns_fresh_monitor (KVM__X86_FEATURE_VMX : Z) (h : host)
  (dev : string) (self : kvm) :
  kvm__init KVM__X86_FEATURE_VMX h dev = Ok self <->
  kvm__cpu_supports_vm KVM__X86_FEATURE_VMX h = true /\
  calloc_ok h = true /\
  0 <= open_dev h dev /\ get_api_version h = KVM_API_VERSION /\
  0 <= create_vm h /\ kvm__check_extensions h = 0 /\
  0 <= set_tss_addr h /\ 0 <= create_pit2 h /\
  0 <= set_user_memory_region h /\ 0 <= create_irqchip h /\
  0 <= create_vcpu h /\ 0 <= get_vcpu_mmap_size h /\ mmap_ok h = true /\
  exists p, memalign h = Some p /\
    self = mk_kvm p (64 * 1024 * 1024) (heap_content h) 0 0 0
                  zero_regs zero_sregs zero_fpu []
                  (repeat (mk_intr 0 0) 256).
Proof.
  unfold kvm__init, kvm__new. split.
  - intros H. binds.
    destruct (open_dev h dev <? 0) eqn:Eo;
      [destruct (open_enoent h); discriminate|].
    destruct (memalign h) as [p|] eqn:Em; [|discriminate]. binds.
    apply Z.ltb_ge in Eo.
    repeat match goal with
           | H : (_ <=? _) = true |- _ => apply Z.leb_le in H
           | H : (_ =? _) = true |- _ => apply Z.eqb_eq in H
           end.
    repeat (split; [assumption|]).
    exists p. split; reflexivity.
  - intros (H1 & H2 & H3 & H4 & H5 & H6 & H7 & H8 & H9 & H10 & H11 & H12
            & H13 & p & Hp & ->).
    rewrite H1, H2, H13, Hp. cbn [die_unless bind].
    apply Z.ltb_ge in H3. rewrite H3. cbn [bind].
    apply Z.eqb_eq in H4, H6. rewrite H4, H6. cbn [die_unless bind].
    apply Z.leb_le in H5, H7, H8, H9, H10, H11, H12.
    rewrite H5, H7, H8, H9, H10, H11, H12. reflexivity.
Qed.

Lemma kvm__init_die_extension vmx h dev :
  kvm__init vmx h dev = Die "A required KVM extention is not supported by OS" ->
  kvm__check_extensions h <> 0.
Proof.
  unfold kvm__init, kvm__new. intros H E. rewrite E in H.
  cbn [Z.eqb die_unless] in H.
  repeat match type of H with
         | context [die_unless ?c _] =>
             destruct c; cbn [die_unless bind] in H; try discriminate H
         | context [if ?c then _ else _] =>
             destruct c; cbn [die_unless bind] in H; try discriminate H
         | context [match ?c with Some _ => _ | None => _ end] =>
             destruct c; cbn [die_unless bind] in H; try discriminate H
         end.
Qed.

(** X3.  A hypervisor without KVM_CAP_COALESCED_MMIO passes the extension
    check of [kvm__init]: [kvm__check_extensions] gives 0 whatever the
    other extensions are, and [kvm__init] never dies with the message of
    that check. *)
Theorem missing_first_extension_accepted (KVM__X86_FEATURE_VMX : Z)
  (h : host) (dev : string) :
  check_extension h KVM_CAP_COALESCED_MMIO <= 0 ->
  kvm__check_extensions h = 0 /\
  kvm__init KVM__X86_FEATURE_VMX h dev
    <> Die "A required KVM extention is not supported by OS".
Proof.
  intros H.
  assert (E : kvm__check_extensions h = 0).
  { apply check_extensions_zero_iff. left.
    apply supports_extension_false, H. }
  split; [exact E|].
  intros Hd. apply kvm__init_die_extension in Hd. contradiction.
Qed.

Lemma missing_first_extension_accepted_witness :
  check_extension MoreSamples.no_mmio_host KVM_CAP_COALESCED_MMIO <= 0 /\
  kvm__check_extensions MoreSamples.no_mmio_host = 0 /\
  kvm__init 5 MoreSamples.no_mmio_host "/dev/kvm"
    <> Die "A required KVM extention is not supported by OS".
Proof.
  split; [vm_compute; discriminate|].
  apply (missing_first_extension_accepted 5 MoreSamples.no_mmio_host).
  vm_compute. discriminate.
Defined.

End InitFacts.

(** ** More on address translation *)

Module AddressFacts.
Import Kvm KvmFacts Debug.

Lemma host_ptr_in_ram_iff self p :
  monitor_ok self ->
  host_ptr_in_ram self p = true <->
  ram_start self <= p < ram_start self + ram_size self.
Proof.
  intros [(Hp & Hs & Hend) _]. unfold host_ptr_in_ram.
  rewrite u64_small by lia.
  rewrite andb_true_iff, Z.leb_le, Z.ltb_lt. tauto.
Qed.

Lemma segment_to_flat_u16 sel off :
  segment_to_flat sel off = u16 sel * 16 + u16 off.
Proof.
  unfold segment_to_flat.
  assert (Hs : 0 <= u16 sel < 2 ^ 16) by (apply Z.mod_pos_bound; lia).
  assert (Ho : 0 <= u16 off < 2 ^ 16) by (apply Z.mod_pos_bound; lia).
  rewrite Z.shiftl_mul_pow2 by lia. unfold u32.
  rewrite (Z.mod_small (u16 sel * 2 ^ 4)) by lia.
  rewrite Z.mod_small by lia. lia.
Qed.

(** X4.  In a monitor with its 64 MiB of RAM, every real-mode address
    translates into the RAM buffer: whatever the selector and the offset
    (they are taken as 16-bit values), [guest_real_to_host] is the buffer
    start plus [selector * 16 + offset], at most 0x10FFEF, and
    [host_ptr_in_ram] holds for it. *)
Theorem real_mode_reaches_ram (self : kvm) (sel off : Z) :
  monitor_ok self ->
  guest_real_to_host self sel off
  = ram_start self + (u16 sel * 16 + u16 off) /\
  u16 sel * 16 + u16 off <= 0x10FFEF /\
  host_ptr_in_ram self (guest_real_to_host self sel off) = true.
Proof.
  intros Hok.
  assert (Hs : 0 <= u16 sel < 2 ^ 16) by (apply Z.mod_pos_bound; lia).
  assert (Ho : 0 <= u16 off < 2 ^ 16) by (apply Z.mod_pos_bound; lia).
  assert (E : guest_real_to_host self sel off
              = ram_start self + (u16 sel * 16 + u16 off)).
  { unfold guest_real_to_host. rewrite segment_to_flat_u16.
    apply flat_to_host_eq; [exact Hok|].
    destruct Hok as [_ Hsz]. rewrite Hsz. lia. }
  split; [exact E|]. split; [lia|].
  rewrite E. apply host_ptr_in_ram_iff; [exact Hok|].
  destruct Hok as [_ Hsz]. rewrite Hsz. lia.
Qed.

Lemma real_mode_reaches_ram_witness :
  guest_real_to_host Samples.monitor0 0xffff 0xffff
  = ram_start Samples.monitor0 + (u16 0xffff * 16 + u16 0xffff) /\
  u16 0xffff * 16 + u16 0xffff <= 0x10FFEF /\
  host_ptr_in_ram Samples.monitor0
    (guest_real_to_host Samples.monitor0 0xffff 0xffff) = true.
Proof.
  apply (real_mode_reaches_ram Samples.monitor0 0xffff 0xffff).
  split; [unfold valid_buffer; cbn; lia | reflexivity].
Defined.

(** X5.  Guest-physical offsets at or beyond [ram_size] never translate
    into the RAM buffer, not even through the wrap of the pointer
    addition: for a 64-bit offset, [host_ptr_in_ram] holds for
    [guest_flat_to_host] exactly when the offset is below [ram_size]. *)
Theorem flat_in_ram_iff (self : kvm) (off : Z) :
  monitor_ok self -> 0 <= off < 2 ^ 64 ->
  host_ptr_in_ram self (guest_flat_to_host self off) = true <->
  off < ram_size self.
Proof.
  intros Hok Hoff. rewrite host_ptr_in_ram_iff by exact Hok.
  destruct Hok as [(Hp & Hs & Hend) Hsz].
  unfold guest_flat_to_host. rewrite (u64_small off) by exact Hoff.
  unfold u64.
  destruct (Z_lt_dec (ram_start self + off) (2 ^ 64)) as [Hlt|Hge].
  - rewrite Z.mod_small by lia. lia.
  - replace ((ram_start self + off) mod 2 ^ 64)
      with (ram_start self + off - 2 ^ 64).
    + lia.
    + apply Z.mod_unique with (q := 1); lia.
Qed.

Lemma flat_in_ram_iff_witness :
  host_ptr_in_ram Samples.monitor0
    (guest_flat_to_host Samples.monitor0 (2 ^ 64 - 0x1000)) = false.
Proof.
  destruct (host_ptr_in_ram Samples.monitor0
              (guest_flat_to_host Samples.monitor0 (2 ^ 64 - 0x1000)))
    eqn:E; [|reflexivity].
  apply (flat_in_ram_iff Samples.monitor0 (2 ^ 64 - 0x1000)) in E.
  - cbn in E. lia.
  - split; [unfold valid_buffer; cbn; lia | reflexivity].
  - lia.
Defined.

(** X6.  While the cached CR0 has protection off, [ip_to_flat] and
    [ip_flat_to_real] are inverse to each other on 64-bit values: the code
    segment's [selector << 4] is added and taken away again, modulo 2^64.
    With protection on, [ip_to_flat] is the identity. *)
Theorem ip_round_trip (self : kvm) (ip : Z) :
  0 <= ip < 2 ^ 64 ->
  (is_in_protected_mode self = false ->
     ip_flat_to_real self (ip_to_flat self ip) = ip /\
     ip_to_flat self (ip_flat_to_real self ip) = ip) /\
  (is_in_protected_mode self = true -> ip_to_flat self ip = ip).
Proof.
  intros Hip. split.
  - intros Hreal. unfold ip_to_flat, ip_flat_to_real. rewrite Hreal.
    set (c := u64 (Z.shiftl (u64 (selector (cs (sregs self)))) 4)).
    unfold u64.
    rewrite (Z.mod_small ip) by exact Hip.
    rewrite !Z.mod_mod by lia.
    rewrite Zminus_mod_idemp_l, Zplus_mod_idemp_l.
    replace (ip + c - c) with ip by lia.
    replace (ip - c + c) with ip by lia.
    rewrite Z.mod_small by exact Hip. auto.
  - intros Hprot. unfold ip_to_flat. rewrite Hprot.
    apply u64_small, Hip.
Qed.

Lemma ip_round_trip_witness :
  ip_flat_to_real (set_sregs Samples.monitor0 (Samples.real_sregs 0x1000))
    (ip_to_flat (set_sregs Samples.monitor0 (Samples.real_sregs 0x1000))
                0x200) = 0x200.
Proof.
  destruct (ip_round_trip
              (set_sregs Samples.monitor0 (Samples.real_sregs 0x1000))
              0x200) as [H _]; [lia|].
  apply H. reflexivity.
Defined.

End AddressFacts.

(** ** More on the kernel loader *)

Module LoaderMore.
Import Kvm KvmFacts LoaderFacts.

Lemma monitor0_ok : monitor_ok Samples.monitor0.
Proof. split; [unfold valid_buffer; cbn; lia | reflexivity]. Qed.

Lemma flat_hlt_load_kernel :
  kvm__load_kernel Samples.bios0 Samples.monitor0 (Some Samples.flat_hlt)
                   None Samples.stack0
  = Ok (true,
        set_boot (set_ram Samples.monitor0
                    (mem_write (ram Samples.monitor0) 0x10000 [xf4; xf4]))
                 BOOT_LOADER_SELECTOR BOOT_LOADER_IP BOOT_LOADER_SP).
Proof.
  unfold kvm__load_kernel. rewrite load_bzimage_eq.
  cbn [Samples.flat_hlt fd_seekable fd_data]. cbv zeta.
  change (bytes_eqb _ BZIMAGE_MAGIC) with false. cbn [negb bind].
  rewrite load_flat_binary_eq by exact monitor0_ok. reflexivity.
Qed.

(** *** Flat binaries *)

(** X7.  A seekable file that fits into guest RAM above 0x10000 is loaded
    whole by [load_flat_binary], from its first byte whatever the file
    offset was: reading the guest RAM at 0x10000 gives the file back,
    every other byte of RAM is as before, the buffer is neither moved nor
    resized, and the descriptor is left at the end of the file. *)
Theorem flat_binary_image (self : kvm) (f : fd) :
  monitor_ok self -> fd_seekable f = true ->
  Z.of_nat (length (fd_data f)) <= ram_size self - 0x10000 ->
  exists k g,
    load_flat_binary self f = Ok (true, k, g) /\
    mem_read (ram k) 0x10000 (length (fd_data f)) = fd_data f /\
    (forall a, a < 0x10000 \/ 0x10000 + Z.of_nat (length (fd_data f)) <= a ->
               ram k a = ram self a) /\
    ram_start k = ram_start self /\ ram_size k = ram_size self /\
    fd_pos g = length (fd_data f).
Proof.
  intros Hok Hseek Hfit.
  rewrite load_flat_binary_eq by exact Hok. rewrite Hseek.
  replace (Z.of_nat (length (fd_data f)) <=? ram_size self - 65536) with true
    by (symmetry; apply Z.leb_le; exact Hfit).
  eexists. eexists. split; [reflexivity|].
  cbn [ram set_boot set_ram ram_start ram_size fd_pos].
  split; [apply mem_read_write|].
  split; [|auto].
  intros a Ha. apply mem_write_out. exact Ha.
Qed.

Lemma flat_binary_image_witness :
  exists k g,
    load_flat_binary Samples.monitor0 Samples.flat_hlt = Ok (true, k, g) /\
    mem_read (ram k) 0x10000 2 = [xf4; xf4] /\
    fd_pos g = 2%nat.
Proof.
  destruct (flat_binary_image Samples.monitor0 Samples.flat_hlt)
    as (k & g & H & Hr & _ & _ & _ & Hp).
  - exact monitor0_ok.
  - reflexivity.
  - cbn. lia.
  - exists k, g. auto.
Defined.

(** X8.  [load_flat_binary] has no check of the file size: a seekable file
    longer than the RAM above 0x10000 makes the read loop store past the
    end of the RAM buffer. *)
Theorem flat_binary_overruns_ram (self : kvm) (f : fd) :
  monitor_ok self -> fd_seekable f = true ->
  ram_size self - 0x10000 < Z.of_nat (length (fd_data f)) ->
  load_flat_binary self f = Fault.
Proof.
  intros Hok Hseek Hbig.
  rewrite load_flat_binary_eq by exact Hok. rewrite Hseek.
  replace (Z.of_nat (length (fd_data f)) <=? ram_size self - 65536) with false
    by (symmetry; apply Z.leb_gt; exact Hbig).
  reflexivity.
Qed.

Lemma flat_binary_overruns_ram_witness :
  load_flat_binary Samples.monitor0 MoreSamples.huge_file = Fault.
Proof.
  apply flat_binary_overruns_ram.
  - exact monitor0_ok.
  - reflexivity.
  - unfold MoreSamples.huge_file. cbn [fd_data].
    rewrite repeat_length, Z2Nat.id by lia. cbn. lia.
Defined.

(** *** bzImages *)

Lemma load_flat_binary_pos self f g :
  fd_data f = fd_data g -> fd_seekable f = fd_seekable g ->
  load_flat_binary self f = load_flat_binary self g.
Proof.
  intros Hd Hs. unfold load_flat_binary, lseek_set0. rewrite Hd, Hs.
  reflexivity.
Qed.

Section More.

Variable B : bios_env.

(** X9.  When [load_bzimage] returns false it has changed nothing of the
    monitor, and the flat-binary loader that [kvm__load_kernel] tries next
    sees the file as if the header had never been read. *)
Theorem rejected_bzimage_leaves_monitor (self : kvm) (f : fd)
  (cmd : option (list byte)) (uninit : mem) (self' : kvm) (f' : fd) :
  load_bzimage B self f cmd uninit = Ok (false, self', f') ->
  self' = self /\
  load_flat_binary self' f' = load_flat_binary self f /\
  kvm__load_kernel B self (Some f) cmd uninit
  = '(ret, k, _) <- load_flat_binary self f ;; Ok (ret, k).
Proof.
  intros H.
  assert (Hseek : fd_seekable f = true).
  { rewrite load_bzimage_eq in H.
    destruct (fd_seekable f); [reflexivity | discriminate H]. }
  pose proof (load_bzimage_false B _ _ _ _ _ _ H) as (-> & Hd & Hs).
  assert (E : load_flat_binary self f' = load_flat_binary self f).
  { apply load_flat_binary_pos; congruence. }
  split; [reflexivity|]. split; [exact E|].
  unfold kvm__load_kernel. rewrite H. cbn [bind]. rewrite E.
  destruct (load_flat_binary self f) as [[[b k] g]| |] eqn:El;
    cbn [bind]; try reflexivity.
  apply load_flat_binary_true in El. destruct El as (-> & _). reflexivity.
Qed.

End More.

Lemma rejected_bzimage_leaves_monitor_witness :
  exists f',
    load_bzimage Samples.bios0 Samples.monitor0 Samples.flat_hlt None
                 Samples.stack0 = Ok (false, Samples.monitor0, f') /\
    load_flat_binary Samples.monitor0 f'
    = load_flat_binary Samples.monitor0 Samples.flat_hlt.
Proof.
  assert (E : exists f',
             load_bzimage Samples.bios0 Samples.monitor0 Samples.flat_hlt None
                          Samples.stack0 = Ok (false, Samples.monitor0, f')).
  { rewrite load_bzimage_eq. cbn. eexists. reflexivity. }
  destruct E as (f' & E). exists f'. split; [exact E|].
  exact (proj1 (proj2 (rejected_bzimage_leaves_monitor
                         Samples.bios0 _ _ _ _ _ _ E))).
Defined.

(** *** The header and the stack *)

Lemma boot_short_tail data uninit a :
  Z.of_nat (length data) <= a ->
  fst (read_boot_params (mkfd data true 0) uninit) a = uninit a.
Proof.
  intros Ha. unfold read_boot_params, boot_buf. cbn [fst].
  apply mem_write_out. right. rewrite read_fst. cbn [fd_pos fd_data skipn].
  rewrite length_firstn. lia.
Qed.

Lemma read_boot_params_data f uninit :
  fd_data (snd (read_boot_params f uninit)) = fd_data f.
Proof. reflexivity. Qed.

Lemma read_boot_params_seekable f uninit :
  fd_seekable (snd (read_boot_params f uninit)) = fd_seekable f.
Proof. reflexivity. Qed.

Lemma copy_image_short self f setup_size :
  monitor_ok self -> fd_seekable f = true ->
  Z.of_nat (length (fd_data f)) < setup_size ->
  Z.of_nat (length (fd_data f)) <= ram_size self - 0x10000 ->
  copy_image self f setup_size = Die "read".
Proof.
  intros Hok Hseek Hshort Hfit. unfold copy_image, lseek_set0.
  rewrite Hseek. cbn [bind].
  rewrite read_fst. cbn [fd_pos fd_data skipn].
  rewrite firstn_all2 by lia.
  rewrite real_to_host_boot by (auto; unfold BOOT_LOADER_IP; lia).
  rewrite host_store_at by (unfold BOOT_LOADER_IP; lia).
  cbn [bind].
  replace (Z.of_nat (length (fd_data f)) =? setup_size) with false
    by (symmetry; apply Z.eqb_neq; lia).
  reflexivity.
Qed.

Section Stack.

Variable B : bios_env.

(** X10.  [load_bzimage] does not look at what [read] returned for the
    header.  For a seekable file of at most 0x202 bytes the magic and the
    version are what the stack held where [boot] lies: over a zeroed stack
    the file is loaded as a flat binary, over a stack that holds "HdrS"
    and a version of 0xFFFF [kvm__load_kernel] dies in the read of the
    setup. *)
Theorem short_file_reads_stack (self : kvm) (f : fd)
  (cmd : option (list byte)) :
  monitor_ok self -> fd_seekable f = true ->
  Z.of_nat (length (fd_data f)) <= hdr_header ->
  (exists k, kvm__load_kernel B self (Some f) cmd (fun _ => x00) = Ok (true, k)
             /\ boot_ip k = BOOT_LOADER_IP) /\
  kvm__load_kernel B self (Some f) cmd
                   (mem_write (fun _ => xff) hdr_header BZIMAGE_MAGIC)
  = Die "read".
Proof.
  intros Hok Hseek Hlen.
  assert (Hsz : ram_size self = 64 * 1024 * 1024) by apply Hok.
  unfold hdr_header in Hlen.
  split.
  - unfold kvm__load_kernel. rewrite load_bzimage_eq, Hseek. cbv zeta.
    replace (mem_read (fst (read_boot_params (mkfd (fd_data f) true 0)
                                             (fun _ => x00))) hdr_header 4)
      with [x00; x00; x00; x00].
    2:{ symmetry. unfold mem_read. cbn [seq map].
        rewrite !boot_short_tail by (unfold hdr_header; lia). reflexivity. }
    change (bytes_eqb [x00; x00; x00; x00] BZIMAGE_MAGIC) with false.
    cbn [negb bind].
    rewrite load_flat_binary_eq by exact Hok.
    cbn [snd read_boot_params fd_seekable fd_data read].
    replace (Z.of_nat (length (fd_data f)) <=? ram_size self - 65536)
      with true by (symmetry; apply Z.leb_le; lia).
    cbn [bind]. eexists. split; reflexivity.
  - unfold kvm__load_kernel. rewrite load_bzimage_eq, Hseek. cbv zeta.
    set (u := mem_write (fun _ => xff) hdr_header BZIMAGE_MAGIC).
    replace (mem_read (fst (read_boot_params (mkfd (fd_data f) true 0) u))
                      hdr_header 4)
      with BZIMAGE_MAGIC.
    2:{ symmetry. unfold mem_read. cbn [seq map].
        rewrite !boot_short_tail by (unfold hdr_header; lia). reflexivity. }
    rewrite bytes_eqb_refl. cbn [negb].
    replace (boot_field (fst (read_boot_params (mkfd (fd_data f) true 0) u))
                        hdr_version 2)
      with 0xffff.
    2:{ symmetry. unfold boot_field, mem_read. cbn [seq map].
        rewrite !boot_short_tail by (unfold hdr_version; lia). reflexivity. }
    change (65535 <? BOOT_PROTOCOL_REQUIRED) with false. cbv iota.
    unfold load_bzimage_body.
    pose proof (boot_field_range
                  (fst (read_boot_params (mkfd (fd_data f) true 0) u))
                  hdr_setup_sects 1) as Hn.
    change (256 ^ Z.of_nat 1) with 256 in Hn.
    rewrite bz_setup_size_eq by exact Hn.
    set (n := boot_field _ hdr_setup_sects 1) in *.
    rewrite copy_image_short;
      rewrite ?read_boot_params_data, ?read_boot_params_seekable;
      [reflexivity | exact Hok | reflexivity | | ]; cbn [fd_data].
    + destruct (n =? 0) eqn:E0; [unfold BZ_DEFAULT_SETUP_SECTS; lia|].
      apply Z.eqb_neq in E0. lia.
    + lia.
Qed.

End Stack.

Lemma short_file_reads_stack_witness :
  (exists k, kvm__load_kernel Samples.bios0 Samples.monitor0
               (Some Samples.flat_hlt) None (fun _ => x00) = Ok (true, k)
             /\ boot_ip k = BOOT_LOADER_IP) /\
  kvm__load_kernel Samples.bios0 Samples.monitor0 (Some Samples.flat_hlt) None
                   (mem_write (fun _ => xff) hdr_header BZIMAGE_MAGIC)
  = Die "read".
Proof.
  apply (short_file_reads_stack Samples.bios0 Samples.monitor0
           Samples.flat_hlt None).
  - exact monitor0_ok.
  - reflexivity.
  - change (2 <= 0x202). lia.
Defined.

Section Header.

Variable B : bios_env.

Lemma load_bzimage_body_boot self f cmd boot1 boot2 :
  monitor_ok self ->
  boot_field boot1 hdr_setup_sects 1 = boot_field boot2 hdr_setup_sects 1 ->
  (1024 <= Z.of_nat (length (fd_data f)) ->
   boot_field boot1 hdr_cmdline_size 4 = boot_field boot2 hdr_cmdline_size 4) ->
  load_bzimage_body B self f cmd boot1 = load_bzimage_body B self f cmd boot2.
Proof.
  intros Hok Hss Hcs. unfold load_bzimage_body. rewrite Hss.
  pose proof (boot_field_range boot2 hdr_setup_sects 1) as Hn.
  change (256 ^ Z.of_nat 1) with 256 in Hn.
  set (n := boot_field boot2 hdr_setup_sects 1) in *.
  destruct (copy_image self f (bz_setup_size n)) as [[self1 f1]| |] eqn:Ec;
    cbn [bind]; try reflexivity.
  rewrite bz_setup_size_eq in Ec by exact Hn.
  apply copy_image_ok in Ec;
    [|exact Hok | destruct (n =? 0); unfold BZ_DEFAULT_SETUP_SECTS; lia].
  destruct Ec as (_ & Hlen & _).
  rewrite Hcs; [reflexivity|].
  destruct (n =? 0) eqn:E0; [unfold BZ_DEFAULT_SETUP_SECTS in Hlen; lia|].
  apply Z.eqb_neq in E0. lia.
Qed.

(** X11.  Once the file reaches to the end of the header's version field
    (0x208 bytes), what the stack held where [boot] lies plays no role:
    [kvm__load_kernel] behaves the same over any two stacks, because every
    header field it goes on to use lies in the part of [boot] that [read]
    filled. *)
Theorem header_read_from_file (self : kvm) (f : fd)
  (cmd : option (list byte)) (u1 u2 : mem) :
  monitor_ok self ->
  hdr_version + 2 <= Z.of_nat (length (fd_data f)) ->
  kvm__load_kernel B self (Some f) cmd u1
  = kvm__load_kernel B self (Some f) cmd u2.
Proof.
  intros Hok Hlen. unfold kvm__load_kernel.
  enough (E : load_bzimage B self f cmd u1 = load_bzimage B self f cmd u2)
    by (rewrite E; reflexivity).
  rewrite !load_bzimage_eq.
  destruct (fd_seekable f); [|reflexivity]. cbv zeta.
  set (data := fd_data f) in *.
  destruct (read_boot_params (mkfd data true 0) u1) as [b1 f1] eqn:E1.
  destruct (read_boot_params (mkfd data true 0) u2) as [b2 f2] eqn:E2.
  assert (Ef : f1 = f2).
  { apply (f_equal snd) in E1, E2. cbn [snd] in E1, E2.
    rewrite <- E1, <- E2. reflexivity. }
  subst f2.
  apply read_boot_params_spec in E1, E2.
  destruct E1 as (Hd & _ & Hb1). destruct E2 as (_ & _ & Hb2).
  cbn [fst snd].
  unfold hdr_version in Hlen.
  assert (Hmag : mem_read b1 hdr_header 4 = mem_read b2 hdr_header 4).
  { apply mem_read_ext. intros a Ha. unfold hdr_header in Ha.
    rewrite Hb1, Hb2 by (unfold sizeof_boot_params; lia). reflexivity. }
  assert (Hfld : forall off n, 0 <= off ->
             off + Z.of_nat n <= Z.of_nat (length data) ->
             off + Z.of_nat n <= sizeof_boot_params ->
             boot_field b1 off n = boot_field b2 off n).
  { intros off n H0 H1 H2.
    rewrite (boot_field_from_file data b1), (boot_field_from_file data b2)
      by assumption. reflexivity. }
  rewrite Hmag.
  rewrite (Hfld hdr_version 2%nat)
    by (unfold hdr_version, sizeof_boot_params; lia).
  destruct (negb _); [reflexivity|].
  destruct (_ <? _); [reflexivity|].
  apply load_bzimage_body_boot; [exact Hok | |].
  - apply Hfld; unfold hdr_setup_sects, sizeof_boot_params; lia.
  - rewrite Hd. intros Hbig.
    apply Hfld; unfold hdr_cmdline_size, sizeof_boot_params; lia.
Qed.

(** X12.  The command line in guest RAM.  When [load_bzimage] returns true
    for a command line and a header whose [cmdline_size] is at least 1,
    the [cmdline_size] bytes at linear 0x20000 are the command line cut to
    at most [cmdline_size - 1] characters, followed by zeroes up to the
    end of the region: a command line that fits is there whole, a longer
    one loses its tail, and in both cases a NUL follows the characters. *)
Theorem cmdline_in_region (self : kvm) (f : fd) (str : list byte)
  (uninit : mem) (self' : kvm) (f' : fd) :
  monitor_ok self -> bios_low B = true ->
  load_bzimage B self f (Some str) uninit = Ok (true, self', f') ->
  let C := file_field (fd_data f) hdr_cmdline_size 4 in
  let n := Z.to_nat (Z.min (Z.of_nat (strlen str)) (C - 1)) in
  1 <= C ->
  (n < Z.to_nat C)%nat /\
  length (firstn n str) = n /\
  mem_read (ram self') 0x20000 (Z.to_nat C)
  = firstn n str ++ repeat x00 (Z.to_nat C - n).
Proof.
  intros Hok Hlow H C n HC1.
  pose proof (boot_field_range (file_mem (fd_data f)) hdr_cmdline_size 4) as HC.
  change (256 ^ Z.of_nat 4) with (2 ^ 32) in HC.
  fold (file_field (fd_data f) hdr_cmdline_size 4) in HC. fold C in HC.
  apply load_bzimage_final in H; [|exact Hok|exact Hlow].
  destruct H as (m2 & _ & _ & Hcmd & _ & _ & _ & Hram). fold C in Hcmd.
  apply copy_cmdline_some in Hcmd; [|exact Hok|lia].
  destruct Hcmd as (Hfit & Hm2).
  apply (f_equal ram) in Hm2. cbn [ram set_ram] in Hm2. subst m2.
  assert (Hn : Z.to_nat (cmdline_size str C - 1) = n).
  { unfold n, cmdline_size.
    destruct (Z.of_nat (strlen str) + 1 >? C) eqn:E.
    - apply Z.gtb_lt in E. f_equal. lia.
    - rewrite Z.gtb_ltb in E. apply Z.ltb_ge in E. f_equal. lia. }
  rewrite Hn in Hram.
  pose proof (strlen_le str) as Hstr.
  assert (Hlen : length (firstn n str) = n)
    by (rewrite length_firstn; unfold n; lia).
  split; [unfold n; lia|]. split; [exact Hlen|].
  apply nth_ext with (d := x00) (d' := x00).
  { rewrite mem_read_length, length_app, Hlen, repeat_length. unfold n. lia. }
  intros i Hi. rewrite mem_read_length in Hi.
  rewrite mem_read_nth by exact Hi.
  rewrite Hram by lia.
  rewrite header_patched_out.
  2:{ unfold header_patch_addr, hdr_cmd_line_ptr, hdr_type_of_loader,
        hdr_heap_end_ptr, hdr_loadflags.
      repeat (apply orb_false_iff; split);
        try (apply in_range_false; lia); apply Z.eqb_neq; lia. }
  destruct (Nat.lt_ge_cases i n) as [Hin|Hout].
  - rewrite mem_write_in by lia. rewrite app_nth1 by lia. f_equal. lia.
  - rewrite mem_write_out by lia. rewrite app_nth2 by lia.
    rewrite nth_repeat. unfold mem_fill.
    replace (in_range 131072 C (131072 + Z.of_nat i)) with true
      by (symmetry; apply in_range_true; lia).
    reflexivity.
Qed.

End Header.

Lemma header_read_from_file_witness :
  kvm__load_kernel Samples.bios0 Samples.monitor0 (Some Samples.good_bzimage)
                   (Some Samples.cmdline0) (fun _ => x00)
  = kvm__load_kernel Samples.bios0 Samples.monitor0 (Some Samples.good_bzimage)
                     (Some Samples.cmdline0) (fun _ => xff).
Proof.
  apply (header_read_from_file Samples.bios0).
  - exact monitor0_ok.
  - vm_compute. discriminate.
Defined.

Lemma cmdline_in_region_witness :
  exists self' f',
    load_bzimage Samples.bios0 Samples.monitor0 Samples.good_bzimage
                 (Some Samples.cmdline0) Samples.stack0 = Ok (true, self', f') /\
    mem_read (ram self') 0x20000 8 = [x61; x62; x63; x64; x65; x66; x67; x00].
Proof.
  destruct (returned_true
              (load_bzimage Samples.bios0 Samples.monitor0 Samples.good_bzimage
                            (Some Samples.cmdline0) Samples.stack0))
    as (self' & f' & E); [vm_compute; reflexivity|].
  exists self', f'. split; [exact E|].
  destruct (cmdline_in_region Samples.bios0 Samples.monitor0
              Samples.good_bzimage Samples.cmdline0 Samples.stack0 self' f')
    as (_ & _ & H).
  - exact monitor0_ok.
  - vm_compute. reflexivity.
  - exact E.
  - vm_compute. discriminate.
  - vm_compute in H. vm_compute. exact H.
Defined.

(** *** What loading leaves alone *)

Lemma setup_bios_fields B s s' :
  setup_bios B s = Ok s' ->
  ram_start s' = ram_start s /\ ram_size s' = ram_size s /\
  regs s' = regs s /\ sregs s' = sregs s /\ fpu s' = fpu s /\
  msrs s' = msrs s /\
  boot_selector s' = boot_selector s /\ boot_ip s' = boot_ip s /\
  boot_sp s' = boot_sp s.
Proof.
  unfold setup_bios, interrupt_table__copy. intros H.
  destruct (host_store s _ (intfake B)) as [s1| |] eqn:E1;
    cbn [bind] in H; try discriminate H.
  destruct (host_store _ _ (int10 B)) as [s2| |] eqn:E2;
    cbn [bind] in H; try discriminate H.
  apply host_store_ok in E1, E2, H.
  destruct E1 as (_ & ->), E2 as (_ & ->), H as (_ & ->).
  cbn. auto 10.
Qed.

Section Frame.

Variable B : bios_env.

Lemma load_kernel_fields self f cmd uninit ret k :
  monitor_ok self ->
  kvm__load_kernel B self (Some f) cmd uninit = Ok (ret, k) ->
  (ram_start k = ram_start self /\ ram_size k = ram_size self /\
   regs k = regs self /\ sregs k = sregs self /\ fpu k = fpu self /\
   msrs k = msrs self) /\
  boot_selector k = BOOT_LOADER_SELECTOR /\
  (boot_ip k = BOOT_LOADER_IP \/ boot_ip k = BOOT_LOADER_IP + 0x200) /\
  boot_sp k = BOOT_LOADER_SP.
Proof.
  intros Hok H. unfold kvm__load_kernel in H.
  destruct (load_bzimage B self f cmd uninit) as [[[b s1] f1]| |] eqn:E;
    cbn [bind] in H; try discriminate H.
  destruct b.
  - injection H as <- <-.
    apply load_bzimage_loaded in E; [|exact Hok].
    destruct E as (_ & _ & _ & _ & self1 & self2 & Hc & Hcmd & Hb).
    apply copy_image_ok in Hc;
      [|exact Hok | pose proof (file_setup_sects_range (fd_data f)); lia].
    destruct Hc as (_ & _ & ->).
    apply copy_cmdline_frame in Hcmd;
      [|exact Hok | exact (boot_field_range _ hdr_cmdline_size 4)].
    destruct Hcmd as (m2 & -> & _).
    apply setup_bios_fields in Hb. cbn in Hb.
    destruct Hb as (H1 & H2 & H3 & H4 & H5 & H6 & H7 & H8 & H9).
    repeat split; try assumption. right. exact H8.
  - apply load_bzimage_false in E. destruct E as (-> & Hd & Hs).
    rewrite load_flat_binary_eq in H by exact Hok. rewrite Hs in H.
    destruct (_ <=? _); cbn [bind] in H; [|discriminate H].
    injection H as <- <-. cbn. auto 10.
Qed.

(** X13.  Loading a kernel touches guest RAM and the boot entry only: when
    [kvm__load_kernel] returns, the RAM buffer is where and as large as it
    was (so the monitor is still well formed), the cached general,
    segment, FPU and MSR state is unchanged, and the entry is
    0x1000:0x0000 or 0x1000:0x0200 with the stack pointer at 0x8000. *)
Theorem load_keeps_buffer_and_cpu (self : kvm) (f : fd)
  (cmd : option (list byte)) (uninit : mem) (ret : bool) (k : kvm) :
  monitor_ok self ->
  kvm__load_kernel B self (Some f) cmd uninit = Ok (ret, k) ->
  monitor_ok k /\
  ram_start k = ram_start self /\ ram_size k = ram_size self /\
  regs k = regs self /\ sregs k = sregs self /\ fpu k = fpu self /\
  msrs k = msrs self /\
  boot_selector k = 0x1000 /\
  (boot_ip k = 0x0000 \/ boot_ip k = 0x0200) /\
  boot_sp k = 0x8000.
Proof.
  intros Hok H.
  destruct (load_kernel_fields _ _ _ _ _ _ Hok H)
    as ((H1 & H2 & H3 & H4 & H5 & H6) & H7 & H8 & H9).
  split.
  { unfold monitor_ok. rewrite H1, H2. exact Hok. }
  auto 10.
Qed.

(** X14.  Bring-up after loading always finds a real-mode entry: when
    [kvm__load_kernel] has returned, the VCPU's ioctls work and the MSR
    list can be allocated, [kvm__reset_vcpu] returns, the check of the instruction pointer
    against 0xFFFF never fires, guest RAM is as the loader left it, and
    execution starts at CS base + RIP = 0x10000 + [boot_ip], the first
    byte of a flat binary or offset 0x200 of a bzImage. *)
Theorem loaded_kernel_boots (CONFIG_X86_64 : bool) (v : vcpu) (self : kvm)
  (f : fd) (cmd : option (list byte)) (uninit : mem) (ret : bool) (k : kvm)
  (sr0 : kvm_sregs) :
  monitor_ok self ->
  kvm__load_kernel B self (Some f) cmd uninit = Ok (ret, k) ->
  get_sregs v = Some sr0 ->
  0 <= set_sregs_ret v -> 0 <= set_regs_ret v ->
  0 <= set_fpu_ret v -> msrs_calloc_ok v = true -> 0 <= set_msrs_ret v ->
  exists k',
    kvm__reset_vcpu CONFIG_X86_64 v k = Ok k' /\
    ram k' = ram k /\
    selector (cs (sregs k')) = 0x1000 /\
    base (cs (sregs k')) + rip (regs k') = 0x10000 + boot_ip k /\
    (boot_ip k = 0x0000 \/ boot_ip k = 0x0200) /\
    rsp (regs k') = 0x8000.
Proof.
  intros Hok H Hget H1 H2 H3 Hc H4.
  destruct (load_kernel_fields _ _ _ _ _ _ Hok H)
    as (_ & Hsel & Hip & Hsp).
  unfold kvm__reset_vcpu, kvm__setup_sregs, kvm__setup_regs,
    kvm__setup_fpu, kvm__setup_msrs, kvm_msrs__new.
  rewrite Hget. cbn [bind].
  apply Z.leb_le in H1, H2, H3, H4. rewrite H1, H2, H3, Hc, H4.
  cbn [die_unless bind regs set_regs set_sregs rip boot_ip boot_sp
       boot_selector].
  rewrite Hsel, Hsp.
  destruct Hip as [Hip|Hip]; rewrite Hip; cbn [die_unless bind negb];
    (eexists; split; [reflexivity|]); cbn; auto 10.
Qed.

End Frame.

Lemma load_keeps_buffer_and_cpu_witness :
  exists k,
    kvm__load_kernel Samples.bios0 Samples.monitor0 (Some Samples.flat_hlt)
                     None Samples.stack0 = Ok (true, k) /\
    monitor_ok k /\ regs k = zero_regs /\ boot_selector k = 0x1000.
Proof.
  eexists. split; [exact flat_hlt_load_kernel|].
  destruct (load_keeps_buffer_and_cpu Samples.bios0 _ _ _ _ _ _
              monitor0_ok flat_hlt_load_kernel)
    as (Hm & _ & _ & Hr & _ & _ & _ & Hs & _).
  auto.
Defined.

Lemma loaded_kernel_boots_witness :
  exists k k',
    kvm__load_kernel Samples.bios0 Samples.monitor0 (Some Samples.flat_hlt)
                     None Samples.stack0 = Ok (true, k) /\
    kvm__reset_vcpu true Samples.vcpu0 k = Ok k' /\
    base (cs (sregs k')) + rip (regs k') = 0x10000 + boot_ip k.
Proof.
  destruct (loaded_kernel_boots Samples.bios0 true Samples.vcpu0 _ _ _ _ _ _ _
              monitor0_ok flat_hlt_load_kernel eq_refl)
    as (k' & Hr & _ & _ & Hb & _); try (cbn; lia); try reflexivity.
  eexists. exists k'.
  split; [exact flat_hlt_load_kernel|]. split; [exact Hr | exact Hb].
Defined.

End LoaderMore.

(** ** More on CPU bring-up *)

Module BringUpFacts.
Import Kvm KvmFacts.


(** X16.  When [kvm__reset_vcpu] returns, the FPU state is zero but for
    the control word 0x37F and MXCSR 0x1F80; the MSR list holds the three
    SYSENTER registers, on a 64-bit build STAR, CSTAR, KERNEL_GS_BASE,
    FMASK and LSTAR, and the time-stamp counter last, each once and each
    with value 0; guest RAM, its buffer, the boot entry and the interrupt
    table are untouched. *)
Theorem reset_vcpu_fpu_msrs (CONFIG_X86_64 : bool) (v : vcpu)
  (self self' : kvm) :
  kvm__reset_vcpu CONFIG_X86_64 v self = Ok self' ->
  fpu self' = mk_fpu (repeat 0 128) 0x37f 0 0 0 0 0 (repeat 0 256) 0x1f80 /\
  map index (msrs self')
  = [0x174; 0x175; 0x176]
    ++ (if CONFIG_X86_64
        then [0xc0000081; 0xc0000083; 0xc0000102; 0xc0000084; 0xc0000082]
        else [])
    ++ [0x10] /\
  Forall (fun e => data e = 0) (msrs self') /\
  NoDup (map index (msrs self')) /\
  ram self' = ram self /\ ram_start self' = ram_start self /\
  ram_size self' = ram_size self /\
  boot_selector self' = boot_selector self /\
  boot_ip self' = boot_ip self /\ boot_sp self' = boot_sp self /\
  intr_table self' = intr_table self.
Proof.
  unfold kvm__reset_vcpu, kvm__setup_sregs, kvm__setup_regs,
    kvm__setup_fpu, kvm__setup_msrs, kvm_msrs__new.
  intros H.
  destruct (get_sregs v) as [sr|]; [|discriminate H]. cbn [bind] in H.
  binds. cbn [fpu msrs set_msrs ram ram_start ram_size boot_selector boot_ip
              boot_sp intr_table set_fpu set_regs set_sregs].
  split; [reflexivity|].
  destruct CONFIG_X86_64; cbn [app map index];
    (split; [reflexivity|]);
    (split; [repeat constructor|]);
    (split; [|auto 10]);
    repeat (constructor; [cbn; intuition discriminate|]); constructor.
Qed.

Lemma reset_vcpu_fpu_msrs_witness :
  exists self',
    kvm__reset_vcpu true Samples.vcpu0 Samples.booted = Ok self' /\
    fcw (fpu self') = 0x37f /\ mxcsr (fpu self') = 0x1f80 /\
    length (msrs self') = 9%nat.
Proof.
  assert (E : exists self',
             kvm__reset_vcpu true Samples.vcpu0 Samples.booted = Ok self')
    by (vm_compute; eexists; reflexivity).
  destruct E as (self' & E). exists self'. split; [exact E|].
  destruct (reset_vcpu_fpu_msrs true Samples.vcpu0 Samples.booted self' E)
    as (Hf & Hm & _).
  rewrite Hf. split; [reflexivity|]. split; [reflexivity|].
  rewrite <- (length_map index), Hm. reflexivity.
Defined.

End BringUpFacts.

(** ** The memory dumps *)

Module DebugFacts.
Import Kvm KvmFacts LoaderFacts Debug.

Lemma ramp_ok : monitor_ok MoreSamples.ramp.
Proof. split; [unfold valid_buffer; cbn; lia | reflexivity]. Qed.

Lemma land_u64_lnot_ones s n :
  0 <= s < 2 ^ 64 -> 0 <= n ->
  Z.land s (u64 (Z.lnot (Z.ones n))) = 2 ^ n * (s / 2 ^ n).
Proof.
  intros Hs Hn. unfold u64. rewrite <- Z.land_ones by lia.
  rewrite (Z.land_comm (Z.lnot _)), Z.land_assoc.
  rewrite (Z.land_ones s) by lia. rewrite (Z.mod_small s) by exact Hs.
  rewrite <- Z.ldiff_land, Z.ldiff_ones_r by exact Hn.
  rewrite Z.shiftl_mul_pow2, Z.shiftr_div_pow2 by exact Hn. lia.
Qed.

Lemma host_ptr_at self X :
  monitor_ok self -> 0 <= X ->
  host_ptr_in_ram self (ram_start self + X) = (X <? ram_size self).
Proof.
  intros [(Hp & Hs & Hend) _] HX. unfold host_ptr_in_ram.
  rewrite u64_small by lia.
  replace (ram_start self <=? ram_start self + X) with true
    by (symmetry; apply Z.leb_le; lia).
  cbn [andb].
  destruct (X <? ram_size self) eqn:E.
  - apply Z.ltb_lt in E. apply Z.ltb_lt. lia.
  - apply Z.ltb_ge in E. apply Z.ltb_ge. lia.
Qed.

Lemma flat_outside self off :
  monitor_ok self -> ram_size self <= off < 2 ^ 64 ->
  host_ptr_in_ram self (guest_flat_to_host self off) = false.
Proof.
  intros Hok Hoff. pose proof Hok as [(Hp & Hs & Hend) Hsz].
  unfold guest_flat_to_host, host_ptr_in_ram.
  rewrite (u64_small off) by lia.
  rewrite (u64_small (ram_start self + ram_size self)) by lia.
  apply andb_false_iff. rewrite Z.leb_gt, Z.ltb_ge. unfold u64.
  destruct (Z_lt_dec (ram_start self + off) (2 ^ 64)) as [Hlt|Hge].
  - rewrite Z.mod_small by lia. lia.
  - replace ((ram_start self + off) mod 2 ^ 64)
      with (ram_start self + off - 2 ^ 64)
      by (apply Z.mod_unique with (q := 1); lia).
    lia.
Qed.

Lemma host_load_bytes_at self X n :
  0 <= X -> X + Z.of_nat n <= ram_size self ->
  host_load_bytes self (ram_start self + X) n
  = Ok (mem_read (ram self) X n).
Proof.
  intros HX Hfit. unfold host_load_bytes.
  rewrite host_range_ok_at by lia.
  replace (X + Z.of_nat n <=? ram_size self) with true
    by (symmetry; apply Z.leb_le; exact Hfit).
  cbn [orb]. do 2 f_equal. lia.
Qed.

Lemma seq_map_S {A} (f : nat -> A) m :
  map f (seq 0 (S m)) = f O :: map (fun k => f (S k)) (seq 0 m).
Proof. cbn [seq map]. rewrite <- seq_shift, map_map. reflexivity. Qed.

Lemma dump_loop_aligned self addr todo :
  monitor_ok self -> 0 <= addr ->
  forall n, 0 <= n -> addr + n <= ram_size self ->
    (ram_size self - (addr + n)) mod 8 = 0 ->
    dump_loop self addr (ram_start self + addr) n todo
    = Ok (map (fun k => mk_line (addr + n + 8 * Z.of_nat k)
                          (mem_read (ram self) (addr + n + 8 * Z.of_nat k) 8))
              (seq 0 (Nat.min todo
                        (Z.to_nat ((ram_size self - (addr + n)) / 8))))).
Proof.
  intros Hok Haddr. pose proof Hok as [(Hp & Hs & Hend) Hsz].
  induction todo as [|todo IH]; intros n Hn Hin Hal; [reflexivity|].
  cbn [dump_loop].
  replace (ram_start self + addr + n) with (ram_start self + (addr + n))
    by lia.
  rewrite (u64_small (ram_start self + (addr + n))) by lia.
  rewrite host_ptr_at by (auto; lia).
  set (D := ram_size self - (addr + n)) in *.
  destruct (addr + n <? ram_size self) eqn:E; cbn [negb].
  - apply Z.ltb_lt in E.
    assert (HD : 8 <= D).
    { pose proof (Z.div_mod D 8 ltac:(lia)) as Hdm. lia. }
    rewrite host_load_bytes_at by (cbn; lia). cbn [bind].
    replace (ram_start self + (addr + n) + 8)
      with (ram_start self + addr + (n + 8)) by lia.
    rewrite IH; [|lia|lia|].
    2:{ replace (ram_size self - (addr + (n + 8))) with (D + (-1) * 8)
          by (unfold D; lia).
        rewrite Z_mod_plus_full. exact Hal. }
    cbn [bind].
    replace (ram_size self - (addr + (n + 8))) with (D + (-1) * 8)
      by (unfold D; lia).
    replace (Z.to_nat (D / 8)) with (S (Z.to_nat ((D + (-1) * 8) / 8))).
    2:{ rewrite Z_div_plus_full by lia.
        pose proof (Z.div_pos D 8 ltac:(lia) ltac:(lia)).
        pose proof (Z.div_le_lower_bound D 8 1 ltac:(lia) ltac:(lia)). lia. }
    rewrite <- Nat.succ_min_distr, seq_map_S.
    rewrite u64_small by lia.
    f_equal. f_equal.
    + f_equal; [lia | f_equal; lia].
    + apply map_ext. intros k. f_equal; [lia | f_equal; lia].
  - apply Z.ltb_ge in E. replace D with 0 by (unfold D; lia).
    rewrite Nat.min_0_r. reflexivity.
Qed.

(** X20.  [kvm__dump_mem] prints whole lines of eight bytes only, and
    stops at the end of RAM.  For an address inside RAM (or at its end)
    that is a multiple of 8, it prints [size / 8] lines, or as many as fit
    below the end of RAM when that is less; line [k] shows the address
    [addr + 8k] and the eight bytes of guest RAM there.  With [size] below
    8 nothing is printed. *)
Theorem dump_mem_lines (self : kvm) (addr size : Z) :
  monitor_ok self ->
  0 <= addr <= ram_size self -> addr mod 8 = 0 -> 0 <= size < 2 ^ 64 ->
  kvm__dump_mem self addr size
  = Ok (map (fun k => mk_line (addr + 8 * Z.of_nat k)
                        (mem_read (ram self) (addr + 8 * Z.of_nat k) 8))
            (seq 0 (Z.to_nat (Z.min (size / 8)
                                    ((ram_size self - addr) / 8))))).
Proof.
  intros Hok Haddr Hal Hsize. pose proof Hok as [(Hp & Hs & Hend) Hsz].
  unfold kvm__dump_mem. rewrite (u64_small size) by exact Hsize.
  change 7 with (Z.ones 3). rewrite land_u64_lnot_ones by lia.
  change (2 ^ 3) with 8.
  pose proof (Z.div_pos size 8 ltac:(lia) ltac:(lia)) as Hq.
  destruct (8 * (size / 8) =? 0) eqn:E0.
  - apply Z.eqb_eq in E0. replace (size / 8) with 0 by lia.
    rewrite Z.min_l by (apply Z.div_pos; lia). reflexivity.
  - rewrite flat_to_host_eq by (auto; lia).
    rewrite (Z.mul_comm 8), Z.div_mul by lia.
    rewrite dump_loop_aligned; [| exact Hok | lia | lia | lia |].
    2:{ rewrite Z.add_0_r, Hsz.
        replace (64 * 1024 * 1024 - addr)
          with (addr * (-1) + 8388608 * 8) by lia.
        rewrite Z_mod_plus_full, Z.mul_mod, Hal by lia. reflexivity. }
    rewrite Z2Nat.inj_min. f_equal.
    replace (ram_size self - (addr + 0)) with (ram_size self - addr) by lia.
    apply map_ext. intros k. f_equal; [lia | f_equal; lia].
Qed.

Lemma dump_mem_lines_witness :
  kvm__dump_mem MoreSamples.ramp 0x8000 20
  = Ok [mk_line 0x8000 [x00; x01; x02; x03; x04; x05; x06; x07];
        mk_line 0x8008 [x08; x09; x0a; x0b; x0c; x0d; x0e; x0f]].
Proof.
  rewrite (dump_mem_lines MoreSamples.ramp 0x8000 20).
  - reflexivity.
  - exact ramp_ok.
  - cbn. lia.
  - reflexivity.
  - lia.
Defined.

(** X21.  The bounds check of [kvm__dump_mem] covers the first byte of a
    line only: at an address within the last seven bytes of RAM a dump of
    8 bytes or more reads past the end of the RAM buffer. *)
Theorem dump_mem_overruns_ram (self : kvm) (addr size : Z) :
  monitor_ok self ->
  ram_size self - 8 < addr < ram_size self -> 8 <= size < 2 ^ 64 ->
  kvm__dump_mem self addr size = Fault.
Proof.
  intros Hok Haddr Hsize. pose proof Hok as [(Hp & Hs & Hend) Hsz].
  unfold kvm__dump_mem. rewrite (u64_small size) by lia.
  change 7 with (Z.ones 3). rewrite land_u64_lnot_ones by lia.
  change (2 ^ 3) with 8.
  pose proof (Z.div_le_lower_bound size 8 1 ltac:(lia) ltac:(lia)) as Hq.
  replace (8 * (size / 8) =? 0) with false
    by (symmetry; apply Z.eqb_neq; lia).
  rewrite (Z.mul_comm 8), Z.div_mul by lia.
  destruct (Z.to_nat (size / 8)) as [|todo] eqn:Et; [lia|].
  cbn [dump_loop]. rewrite Z.add_0_r.
  rewrite flat_to_host_eq by (auto; lia).
  rewrite u64_small by lia.
  rewrite host_ptr_at by (auto; lia).
  replace (addr <? ram_size self) with true
    by (symmetry; apply Z.ltb_lt; lia).
  cbn [negb]. unfold host_load_bytes.
  rewrite host_range_ok_at by lia.
  replace (addr + Z.of_nat 8 <=? ram_size self) with false
    by (symmetry; apply Z.leb_gt; lia).
  reflexivity.
Qed.

Lemma dump_mem_overruns_ram_witness :
  kvm__dump_mem Samples.monitor0 (64 * 1024 * 1024 - 4) 32 = Fault.
Proof.
  apply dump_mem_overruns_ram.
  - exact ramp_ok.
  - cbn. lia.
  - lia.
Defined.

(** *** The code window *)

Lemma ip_to_flat_range self ip : 0 <= ip_to_flat self ip < 2 ^ 64.
Proof.
  unfold ip_to_flat, u64.
  destruct (is_in_protected_mode self); apply Z.mod_pos_bound; lia.
Qed.

Lemma code_loop_in_ram self todo :
  monitor_ok self ->
  forall s, 0 <= s <= ram_size self ->
    code_loop self (ram_start self + s) todo
    = Ok (map (fun i =>
                 mk_code (ram_start self + s + Z.of_nat i
                          =? guest_flat_to_host self
                               (ip_to_flat self (rip (regs self))))
                         (Z_of_byte (ram self (s + Z.of_nat i))))
              (seq 0 (Nat.min todo (Z.to_nat (ram_size self - s))))).
Proof.
  intros Hok. pose proof Hok as [(Hp & Hs & Hend) Hsz].
  induction todo as [|todo IH]; intros s Hin; [reflexivity|].
  cbn [code_loop]. rewrite host_ptr_at by (auto; lia).
  destruct (s <? ram_size self) eqn:E; cbn [negb].
  - apply Z.ltb_lt in E. unfold host_load8.
    rewrite host_range_ok_at by lia.
    replace (s + 1 <=? ram_size self) with true
      by (symmetry; apply Z.leb_le; lia).
    cbn [orb bind].
    rewrite u64_small by lia.
    replace (ram_start self + s + 1) with (ram_start self + (s + 1)) by lia.
    rewrite IH by lia. cbn [bind].
    replace (Z.to_nat (ram_size self - s))
      with (S (Z.to_nat (ram_size self - (s + 1)))) by lia.
    rewrite <- Nat.succ_min_distr, seq_map_S.
    f_equal. f_equal.
    + f_equal; [f_equal; lia | do 2 f_equal; lia].
    + apply map_ext. intros i.
      f_equal; [f_equal; lia | do 2 f_equal; lia].
  - apply Z.ltb_ge in E.
    replace (ram_size self - s) with 0 by lia.
    rewrite Nat.min_0_r. reflexivity.
Qed.

(** X22.  The "Code:" line of [kvm__show_code] starts 43 bytes before the
    instruction pointer.  When that start lies in RAM, the line shows the
    64 bytes from there, or as many as there are up to the end of RAM;
    byte 43, the one at the flat instruction pointer, is the only one
    printed in angle brackets; no byte outside RAM is read for it.  The
    fetched registers are kept in the monitor, and the stack dump of 32
    bytes at RSP follows. *)
Theorem show_code_window (v : vcpu_state) (self : kvm) (r : kvm_regs)
  (sr : kvm_sregs) :
  monitor_ok self ->
  now_regs v = Some r -> now_sregs v = Some sr ->
  let k := set_sregs (set_regs self r) sr in
  let flat := ip_to_flat k (rip r) in
  43 <= flat < ram_size self + 43 ->
  kvm__show_code v self
  = (stack <- kvm__dump_mem k (rsp r) 32 ;;
     Ok (k,
         map (fun i => mk_code (i =? 43)%nat
                         (Z_of_byte (ram self (flat - 43 + Z.of_nat i))))
             (seq 0 (Z.to_nat (Z.min 64 (ram_size self - (flat - 43))))),
         stack)).
Proof.
  intros Hok Hr Hsr k flat Hflat.
  pose proof Hok as [(Hp & Hs & Hend) Hsz].
  assert (Hk : monitor_ok k) by exact Hok.
  unfold kvm__show_code. rewrite Hr, Hsr. cbn [bind]. fold k.
  change (u32 (64 * 43) / 64) with 43.
  change (rip (regs k)) with (rip r). change (rsp (regs k)) with (rsp r).
  fold flat.
  rewrite (u64_small (flat - 43)) by lia.
  rewrite flat_to_host_eq by (auto; change (ram_size k) with (ram_size self); lia).
  rewrite code_loop_in_ram
    by (auto; change (ram_size k) with (ram_size self); lia).
  cbn [bind].
  change (ram_size k) with (ram_size self).
  change (ram_start k) with (ram_start self).
  change (ram k) with (ram self).
  change (rip (regs k)) with (rip r). fold flat.
  change (Z.to_nat 64) with 64%nat.
  replace (Nat.min 64 (Z.to_nat (ram_size self - (flat - 43))))
    with (Z.to_nat (Z.min 64 (ram_size self - (flat - 43))))
    by (rewrite Z2Nat.inj_min; reflexivity).
  f_equal.
  apply functional_extensionality. intros stack. do 3 f_equal.
  apply map_ext_in. intros i Hi. apply in_seq in Hi. f_equal.
  unfold guest_flat_to_host. change (ram_start k) with (ram_start self).
  rewrite (u64_small flat) by (apply ip_to_flat_range).
  destruct (Nat.eqb_spec i 43) as [->|Hne].
  - apply Z.eqb_eq. rewrite u64_small by lia. lia.
  - apply Z.eqb_neq. unfold u64.
    destruct (Z_lt_dec (ram_start self + flat) (2 ^ 64)) as [Hlt|Hge].
    + rewrite Z.mod_small by lia. lia.
    + replace ((ram_start self + flat) mod 2 ^ 64)
        with (ram_start self + flat - 2 ^ 64)
        by (apply Z.mod_unique with (q := 1); lia).
      lia.
Qed.

(** X23.  When the instruction pointer is less than 43 bytes into guest
    memory, or 43 bytes or more beyond its end, the start of the code
    window is outside RAM and [kvm__show_code] prints no code byte at
    all, not even the bytes of the window that do lie in RAM. *)
Theorem show_code_no_window (v : vcpu_state) (self : kvm) (r : kvm_regs)
  (sr : kvm_sregs) :
  monitor_ok self ->
  now_regs v = Some r -> now_sregs v = Some sr ->
  let k := set_sregs (set_regs self r) sr in
  let flat := ip_to_flat k (rip r) in
  flat < 43 \/ ram_size self + 43 <= flat ->
  kvm__show_code v self
  = (stack <- kvm__dump_mem k (rsp r) 32 ;; Ok (k, [], stack)).
Proof.
  intros Hok Hr Hsr k flat Hflat.
  pose proof Hok as [(Hp & Hs & Hend) Hsz].
  assert (Hk : monitor_ok k) by exact Hok.
  pose proof (ip_to_flat_range k (rip r)) as Hrange. fold flat in Hrange.
  unfold kvm__show_code. rewrite Hr, Hsr. cbn [bind]. fold k.
  change (u32 (64 * 43) / 64) with 43.
  change (rip (regs k)) with (rip r). change (rsp (regs k)) with (rsp r).
  fold flat.
  change (Z.to_nat 64) with 64%nat. cbn [code_loop].
  rewrite flat_outside; [reflexivity | exact Hk |].
  change (ram_size k) with (ram_size self). unfold u64.
  destruct Hflat as [Hlow|Hhigh].
  - replace ((flat - 43) mod 2 ^ 64) with (flat - 43 + 2 ^ 64)
      by (apply Z.mod_unique with (q := -1); lia).
    lia.
  - rewrite Z.mod_small by lia. lia.
Qed.

Lemma show_code_window_witness :
  exists k stack,
    kvm__show_code (Samples.stopped 0x1000 0x200) MoreSamples.ramp
    = Ok (k, map (fun i => mk_code (i =? 43)%nat
                             (Z_of_byte (byte_of_Z (0x10200 - 43 + Z.of_nat i))))
                 (seq 0 64),
          stack).
Proof.
  pose proof (show_code_window (Samples.stopped 0x1000 0x200)
                MoreSamples.ramp _ _ ramp_ok eq_refl eq_refl) as H.
  cbv zeta in H. rewrite H by (vm_compute; split; congruence).
  eexists. eexists. reflexivity.
Defined.

Lemma show_code_no_window_witness :
  exists k stack,
    kvm__show_code (Samples.stopped 0 0x10) MoreSamples.ramp
    = Ok (k, [], stack).
Proof.
  pose proof (show_code_no_window (Samples.stopped 0 0x10)
                MoreSamples.ramp _ _ ramp_ok eq_refl eq_refl) as H.
  cbv zeta in H. rewrite H by (left; vm_compute; reflexivity).
  eexists. eexists. reflexivity.
Defined.

(** *** The page-table dump *)

Lemma flat_inside self off :
  monitor_ok self -> 0 <= off < 2 ^ 64 ->
  host_ptr_in_ram self (guest_flat_to_host self off) = true ->
  off < ram_size self.
Proof.
  intros Hok Hoff Hin.
  destruct (Z_lt_dec off (ram_size self)) as [Hlt|Hge]; [exact Hlt|].
  rewrite flat_outside in Hin by (auto; lia). discriminate Hin.
Qed.

Lemma load64_checked self off :
  monitor_ok self -> 0 <= off < 2 ^ 64 -> off mod 8 = 0 ->
  host_ptr_in_ram self (guest_flat_to_host self off) = true ->
  host_load64 self (guest_flat_to_host self off)
  = Ok (le_decode (mem_read (ram self) off 8)).
Proof.
  intros Hok Hoff Hal Hin.
  pose proof (flat_inside _ _ Hok Hoff Hin) as Hlt.
  pose proof Hok as [_ Hsz].
  assert (Hfit : off + 8 <= ram_size self).
  { pose proof (Z.div_mod off 8 ltac:(lia)) as Hdm. lia. }
  unfold host_load64. rewrite flat_to_host_eq by (auto; lia).
  rewrite host_load_bytes_at by (cbn; lia). reflexivity.
Qed.

Lemma page_base_aligned v :
  0 <= v < 2 ^ 64 ->
  0 <= page_base v < 2 ^ 64 /\ page_base v mod 8 = 0.
Proof.
  intros Hv. unfold page_base. change 0xfff with (Z.ones 12).
  rewrite land_u64_lnot_ones by lia. change (2 ^ 12) with 4096.
  pose proof (Z.mul_div_le v 4096 ltac:(lia)) as Hle.
  pose proof (Z.div_pos v 4096 ltac:(lia) ltac:(lia)) as Hq.
  split; [lia|].
  replace (4096 * (v / 4096)) with (v / 4096 * 512 * 8) by lia.
  apply Z_mod_mult.
Qed.

Lemma le_decode_u64 m off : 0 <= le_decode (mem_read m off 8) < 2 ^ 64.
Proof.
  pose proof (le_decode_range (mem_read m off 8)) as H.
  rewrite mem_read_length in H. exact H.
Qed.

(** X24.  [kvm__show_page_tables] decides on the CR0 the monitor has
    cached: in real mode it prints nothing and asks the hypervisor
    nothing.  In protected mode it checks each table pointer against RAM
    before it reads the 8-byte entry there, so with a CR3 that is a
    multiple of 8 it never reads outside the RAM buffer; but the check is
    on the first byte only, and a CR3 within the last seven bytes of RAM
    makes it read past the end. *)
Theorem page_tables_reads (v : vcpu_state) (self : kvm) :
  monitor_ok self ->
  (is_in_protected_mode self = false ->
   kvm__show_page_tables v self = Ok (self, NoTables)) /\
  (forall sr, now_sregs v = Some sr ->
     0 <= cr3 sr < 2 ^ 64 -> cr3 sr mod 8 = 0 ->
     kvm__show_page_tables v self <> Fault) /\
  (forall sr, now_sregs v = Some sr ->
     is_in_protected_mode self = true ->
     ram_size self - 8 < cr3 sr < ram_size self ->
     kvm__show_page_tables v self = Fault).
Proof.
  intros Hok. pose proof Hok as [(Hp & Hs & Hend) Hsz].
  unfold kvm__show_page_tables. split; [|split].
  - intros ->. reflexivity.
  - intros sr Hsr Hc Hal. rewrite Hsr.
    destruct (is_in_protected_mode self); cbn [negb bind]; [|discriminate].
    set (k := set_sregs self sr).
    assert (Hk : monitor_ok k) by exact Hok.
    change (cr3 (sregs k)) with (cr3 sr).
    destruct (host_ptr_in_ram k (guest_flat_to_host k (cr3 sr))) eqn:E4;
      cbn [negb]; [|discriminate].
    rewrite load64_checked by assumption. cbn [bind].
    set (v4 := le_decode (mem_read (ram k) (cr3 sr) 8)).
    pose proof (page_base_aligned v4 (le_decode_u64 _ _)) as (H3 & A3).
    destruct (host_ptr_in_ram k (guest_flat_to_host k (page_base v4))) eqn:E3;
      cbn [negb]; [|discriminate].
    rewrite load64_checked by assumption. cbn [bind].
    set (v3 := le_decode (mem_read (ram k) (page_base v4) 8)).
    pose proof (page_base_aligned v3 (le_decode_u64 _ _)) as (H2 & A2).
    destruct (host_ptr_in_ram k (guest_flat_to_host k (page_base v3))) eqn:E2;
      cbn [negb]; [|discriminate].
    rewrite load64_checked by assumption. cbn [bind].
    set (v2 := le_decode (mem_read (ram k) (page_base v3) 8)).
    pose proof (page_base_aligned v2 (le_decode_u64 _ _)) as (H1 & A1).
    destruct (host_ptr_in_ram k (guest_flat_to_host k (page_base v2))) eqn:E1;
      cbn [negb]; [|discriminate].
    destruct (negb _); [discriminate|].
    rewrite load64_checked by assumption. discriminate.
  - intros sr Hsr -> Hc. rewrite Hsr. cbn [negb bind].
    set (k := set_sregs self sr).
    assert (Hk : monitor_ok k) by exact Hok.
    change (cr3 (sregs k)) with (cr3 sr).
    rewrite flat_to_host_eq
      by (auto; change (ram_size k) with (ram_size self); lia).
    rewrite host_ptr_at by (auto; lia).
    change (ram_size k) with (ram_size self).
    replace (cr3 sr <? ram_size self) with true
      by (symmetry; apply Z.ltb_lt; lia).
    cbn [negb]. unfold host_load64, host_load_bytes.
    rewrite host_range_ok_at by lia.
    change (ram_size k) with (ram_size self).
    replace (cr3 sr + Z.of_nat 8 <=? ram_size self) with false
      by (symmetry; apply Z.leb_gt; lia).
    reflexivity.
Qed.

Lemma page_tables_reads_witness :
  kvm__show_page_tables (Samples.stopped 0x1000 0x200) MoreSamples.ramp
  = Ok (MoreSamples.ramp, NoTables).
Proof.
  apply (page_tables_reads (Samples.stopped 0x1000 0x200)
           MoreSamples.ramp ramp_ok).
  reflexivity.
Defined.

End DebugFacts.

(** ** More on the exit-dispatch loop *)

Module LoopFacts.
Import Kvm KvmFacts LoaderFacts Debug Main.

(** Every byte of the "Code:" line is tested against RAM before it is
    read: the loop never leaves the buffer. *)
Lemma code_loop_returns self todo :
  monitor_ok self ->
  forall ip, exists code, code_loop self ip todo = Ok code.
Proof.
  intros [(Hp & Hs & Hend) _].
  induction todo as [|todo IH]; intros ip; [eexists; reflexivity|].
  cbn [code_loop].
  destruct (host_ptr_in_ram self ip) eqn:E; cbn [negb];
    [|eexists; reflexivity].
  unfold host_ptr_in_ram in E. rewrite u64_small in E by lia.
  apply andb_true_iff in E. destruct E as [E1 E2].
  apply Z.leb_le in E1. apply Z.ltb_lt in E2.
  unfold host_load8.
  replace (host_range_ok self ip 1) with true
    by (symmetry; apply host_range_ok_true; right; lia).
  cbn [bind]. destruct (IH (u64 (ip + 1))) as [code ->]. cbn [bind].
  eexists. reflexivity.
Qed.

(** The lines of a dump that lies in RAM as a whole. *)
Lemma dump_loop_fits self addr todo :
  monitor_ok self -> 0 <= addr ->
  forall n, 0 <= n -> addr + n + 8 * Z.of_nat todo <= ram_size self ->
    exists lines, dump_loop self addr (ram_start self + addr) n todo = Ok lines.
Proof.
  intros Hok Haddr. pose proof Hok as [(Hp & Hs & Hend) Hsz].
  induction todo as [|todo IH]; intros n Hn Hfit; [eexists; reflexivity|].
  cbn [dump_loop].
  replace (ram_start self + addr + n) with (ram_start self + (addr + n))
    by lia.
  rewrite (u64_small (ram_start self + (addr + n))) by lia.
  unfold host_ptr_in_ram. rewrite u64_small by lia.
  replace (ram_start self <=? ram_start self + (addr + n)) with true
    by (symmetry; apply Z.leb_le; lia).
  replace (ram_start self + (addr + n) <? ram_start self + ram_size self)
    with true by (symmetry; apply Z.ltb_lt; lia).
  cbn [andb negb]. unfold host_load_bytes.
  rewrite host_range_ok_at by lia.
  replace (addr + n + Z.of_nat 8 <=? ram_size self) with true
    by (symmetry; apply Z.leb_le; lia).
  cbn [orb bind].
  destruct (IH (n + 8)) as [rest Hrest]; [lia|lia|].
  rewrite Hrest. cbn [bind]. eexists. reflexivity.
Qed.

(** [kvm__show_code] returns, with the registers it fetched kept in the
    monitor, when both register ioctls work and the 32 bytes at the stack
    pointer lie in guest RAM. *)
Lemma show_code_returns v self r sr :
  monitor_ok self ->
  now_regs v = Some r -> now_sregs v = Some sr ->
  0 <= rsp r -> rsp r + 32 <= ram_size self ->
  exists code stack,
    kvm__show_code v self = Ok (set_sregs (set_regs self r) sr, code, stack).
Proof.
  intros Hok Hr Hsr Hsp0 Hsp.
  set (k := set_sregs (set_regs self r) sr).
  assert (Hk : monitor_ok k) by exact Hok.
  unfold kvm__show_code. rewrite Hr, Hsr. cbn [bind]. fold k.
  destruct (code_loop_returns k (Z.to_nat 64) Hk
              (guest_flat_to_host k
                 (u64 (ip_to_flat k (rip (regs k)) - u32 (64 * 43) / 64))))
    as [code ->].
  cbn [bind]. unfold kvm__dump_mem.
  change (Z.land (u64 32) (u64 (Z.lnot 7))) with 32.
  change (32 =? 0) with false. change (Z.to_nat (32 / 8)) with 4%nat.
  cbv iota. change (rsp (regs k)) with (rsp r).
  rewrite flat_to_host_eq
    by (auto; change (ram_size k) with (ram_size self); lia).
  destruct (dump_loop_fits k (rsp r) 4 Hk Hsp0 0) as [stack ->];
    [lia | change (ram_size k) with (ram_size self); lia |].
  cbn [bind]. eexists. eexists. reflexivity.
Qed.

(** X17.  The exits the monitor handles keep the loop running.  After an
    INTR exit and after an I/O or MMIO exit whose handler returned true,
    [main] goes on to the next [KVM_RUN] with the monitor unchanged but
    for what the guest wrote to RAM.  After a DEBUG exit it dumps the
    registers, the code and the stack first: when both register ioctls
    work and the 32 bytes at the stack pointer lie in guest RAM, it goes
    on as well, with the fetched registers kept in the monitor.  What
    follows is decided by the later exits alone. *)
Theorem handled_exit_continues (self : kvm) (e : run_event)
  (rest : list run_event) :
  0 <= run_ret e ->
  (exit_reason e = KVM_EXIT_INTR \/
   (exit_reason e = KVM_EXIT_IO /\ emulate_io e = true) \/
   (exit_reason e = KVM_EXIT_MMIO /\ emulate_mmio e = true) ->
   main_loop self (e :: rest) = main_loop (set_ram self (guest_ram e)) rest)
  /\
  (forall r sr,
     exit_reason e = KVM_EXIT_DEBUG -> monitor_ok self ->
     now_regs (vcpu_now e) = Some r -> now_sregs (vcpu_now e) = Some sr ->
     0 <= rsp r -> rsp r + 32 <= ram_size self ->
     main_loop self (e :: rest)
     = main_loop (set_sregs (set_regs (set_ram self (guest_ram e)) r) sr)
                 rest).
Proof.
  intros Hrun. apply Z.leb_le in Hrun. split.
  - intros H. cbn [main_loop]. unfold kvm__run. rewrite Hrun.
    cbn [die_unless bind]. unfold dispatch.
    destruct H as [H|[(H & Hio)|(H & Hio)]]; rewrite H.
    + reflexivity.
    + cbn. rewrite Hio. reflexivity.
    + cbn. rewrite Hio. reflexivity.
  - intros r sr H Hok Hr Hsr Hsp0 Hsp.
    cbn [main_loop]. unfold kvm__run. rewrite Hrun.
    cbn [die_unless bind]. unfold dispatch. rewrite H.
    cbn [Z.eqb KVM_EXIT_DEBUG Pos.eqb].
    unfold kvm__show_registers. rewrite Hr, Hsr. cbn [bind].
    destruct (show_code_returns (vcpu_now e) (set_ram self (guest_ram e))
                r sr Hok Hr Hsr Hsp0 Hsp) as (code & stack & ->).
    reflexivity.
Qed.

Lemma handled_exit_continues_witness :
  main_loop Samples.monitor0 [Samples.debug_event; Samples.hlt_event]
  = main_loop (set_sregs (set_regs Samples.monitor0
                            (Samples.real_regs 0x200))
                 (Samples.real_sregs 0x1000))
              [Samples.hlt_event].
Proof.
  destruct (handled_exit_continues Samples.monitor0 Samples.debug_event
              [Samples.hlt_event]) as [_ H].
  - cbn. lia.
  - apply (H (Samples.real_regs 0x200) (Samples.real_sregs 0x1000)).
    + reflexivity.
    + split; [unfold valid_buffer; cbn; lia | reflexivity].
    + reflexivity.
    + reflexivity.
    + cbn. lia.
    + cbn. lia.
Defined.

(** X19.  [kvm_exit_reasons] has 18 entries and [main] indexes it with the
    exit reason unchecked: an exit reason above KVM_EXIT_INTERNAL_ERROR
    (17) leaves the loop through its default arm and reads past the end of
    the table. *)
Theorem exit_reason_beyond_table (self : kvm) (e : run_event)
  (rest : list run_event) :
  0 <= run_ret e ->
  KVM_EXIT_INTERNAL_ERROR < exit_reason e ->
  dispatch (set_ram self (guest_ram e)) e
  = Ok (GotoExitKvm, set_ram self (guest_ram e)) /\
  main_loop self (e :: rest) = Some Fault.
Proof.
  intros Hrun Hbig. unfold KVM_EXIT_INTERNAL_ERROR in Hbig.
  assert (Hd : forall k, dispatch k e = Ok (GotoExitKvm, k)).
  { intros k. apply MainFacts.dispatch_default;
      unfold KVM_EXIT_DEBUG, KVM_EXIT_IO, KVM_EXIT_MMIO, KVM_EXIT_INTR; lia. }
  split; [apply Hd|].
  cbn [main_loop]. unfold kvm__run.
  apply Z.leb_le in Hrun. rewrite Hrun. cbn [die_unless bind]. rewrite Hd.
  unfold exit_kvm.
  replace (nth_error kvm_exit_reasons (Z.to_nat (exit_reason e)))
    with (@None string); [reflexivity|].
  symmetry. apply nth_error_None.
  change (length kvm_exit_reasons) with 18%nat. lia.
Qed.

Lemma exit_reason_beyond_table_witness :
  main_loop Samples.monitor0 [Samples.exit_event 18 0 true] = Some Fault.
Proof.
  apply (exit_reason_beyond_table Samples.monitor0
           (Samples.exit_event 18 0 true) []).
  - cbn. lia.
  - cbn. unfold KVM_EXIT_INTERNAL_ERROR. lia.
Defined.

End LoopFacts.

(** ** The command line *)

Module ArgsFacts.
Import Args.

Lemma prefix_first c s a :
  String.prefix (String c s) a = true -> first_char a = c.
Proof.
  destruct a as [|d r]; cbn [String.prefix first_char]; [discriminate|].
  destruct (ascii_dec c d) as [->|]; [reflexivity | discriminate].
Qed.

Lemma first_char_dash a :
  option_matches a "-" = Ascii.eqb (first_char a) "-".
Proof.
  unfold option_matches.
  destruct a as [|d r]; cbn [String.prefix first_char]; [reflexivity|].
  destruct (ascii_dec "-" d) as [<-|Hne].
  - destruct r; reflexivity.
  - symmetry. apply Ascii.eqb_neq. congruence.
Qed.

(** Two prefixes of one string: one is a prefix of the other. *)
Lemma prefix_chain p q a :
  String.prefix p a = true -> String.prefix q a = true ->
  String.prefix p q = true \/ String.prefix q p = true.
Proof.
  revert p q. induction a as [|c a IH]; intros p q Hp Hq.
  - destruct p; [|discriminate Hp]. left. destruct q; reflexivity.
  - destruct p as [|x p]; [left; destruct q; reflexivity|].
    destruct q as [|y q]; [right; reflexivity|].
    cbn [String.prefix] in *.
    destruct (ascii_dec x c) as [->|]; [|discriminate Hp].
    destruct (ascii_dec y c) as [->|]; [|discriminate Hq].
    destruct (ascii_dec c c) as [_|Hne]; [|congruence].
    apply IH; assumption.
Qed.

(** How one argument changes the kernel file name. *)
Lemma parse_arg_kernel o a o1 :
  parse_arg o a = Ok o1 ->
  kernel_filename o1
  = if option_matches a "--kernel=" then Some (skip 9 a)
    else if negb (option_matches a "-") then Some a
    else kernel_filename o.
Proof.
  unfold parse_arg. rewrite first_char_dash.
  destruct (option_matches a "--kernel="); [intros [= <-]; reflexivity|].
  repeat match goal with
         | |- context [if option_matches a ?s then _ else _] =>
             let E := fresh "E" in
             destruct (option_matches a s) eqn:E;
             [ apply prefix_first in E; rewrite E;
               try (intros [= <-]; reflexivity) | ]
         end.
  - cbn [Ascii.eqb Bool.eqb negb].
    destruct (atol _) as [n| |]; cbn [bind]; try discriminate.
    destruct (shl_long n 20) as [val| |]; cbn [bind]; try discriminate.
    destruct (val <? ram_size o); [discriminate|].
    intros [= <-]. reflexivity.
  - destruct (negb (Ascii.eqb (first_char a) "-"));
      intros [= <-]; reflexivity.
Qed.

Lemma parse_arg_ram_size o a o1 :
  parse_arg o a = Ok o1 -> ram_size o <= ram_size o1.
Proof.
  unfold parse_arg.
  repeat match goal with
         | |- context [if option_matches a ?s then _ else _] =>
             destruct (option_matches a s);
             [ try (intros [= <-]; cbn; lia) | ]
         end.
  - destruct (atol _) as [n| |]; cbn [bind]; try discriminate.
    destruct (shl_long n 20) as [val| |]; cbn [bind]; try discriminate.
    destruct (val <? ram_size o) eqn:E; [discriminate|].
    apply Z.ltb_ge in E. intros [= <-]. cbn. exact E.
  - destruct (negb _); intros [= <-]; cbn; lia.
Qed.

Lemma parse_args_app o xs ys :
  parse_args o (xs ++ ys) = (o1 <- parse_args o xs ;; parse_args o1 ys).
Proof.
  revert o. induction xs as [|x xs IH]; intros o; [reflexivity|].
  cbn [app parse_args]. destruct (parse_arg o x); cbn [bind]; auto.
Qed.

Lemma parse_args_kernel_none o args o' :
  parse_args o args = Ok o' ->
  kernel_filename o' = None <->
  kernel_filename o = None /\
  Forall (fun a => option_matches a "--kernel=" = false /\
                   option_matches a "-" = true) args.
Proof.
  revert o. induction args as [|a args IH]; intros o H.
  - injection H as <-. split; [auto | tauto].
  - cbn [parse_args] in H.
    destruct (parse_arg o a) as [o1| |] eqn:E; cbn [bind] in H;
      try discriminate H.
    rewrite (IH _ H). apply parse_arg_kernel in E. rewrite E.
    destruct (option_matches a "--kernel=") eqn:Ek.
    + split; [intros [? _]; discriminate|].
      intros [_ HF]. inversion HF as [|? ? [? _] _]. congruence.
    + destruct (option_matches a "-") eqn:Ed; cbn [negb].
      * split.
        -- intros [? ?]. split; [assumption|]. constructor; auto.
        -- intros [? HF]. inversion HF. auto.
      * split; [intros [? _]; discriminate|].
        intros [_ HF]. inversion HF as [|? ? [_ ?] _]. congruence.
Qed.

(** X25.  [main] ends in [usage] exactly when the options parse and no
    argument names a kernel: every argument starts with '-' and none
    starts with "--kernel=".  An argument that does not start with '-',
    the empty string among them, is taken for the kernel image. *)
Theorem usage_iff_no_kernel (dbg : bool) (args : list string) :
  main_options dbg args = Ok Usage <->
  (exists o, parse_args (initial dbg) args = Ok o) /\
  Forall (fun a => option_matches a "--kernel=" = false /\
                   option_matches a "-" = true) args.
Proof.
  unfold main_options.
  destruct (parse_args (initial dbg) args) as [o| |] eqn:E; cbn [bind].
  - pose proof (parse_args_kernel_none _ _ _ E) as Hk.
    destruct (kernel_filename o) eqn:Ek.
    + split; [discriminate|]. intros [_ HF].
      assert (Hn : @None string = None /\
                   Forall (fun a => option_matches a "--kernel=" = false /\
                                    option_matches a "-" = true) args)
        by (split; [reflexivity | exact HF]).
      apply Hk in Hn. discriminate Hn.
    + split; [|reflexivity]. intros _. split; [eauto|].
      apply Hk. reflexivity.
  - split; [discriminate|]. intros [[o Ho] _]. discriminate Ho.
  - split; [discriminate|]. intros [[o Ho] _]. discriminate Ho.
Qed.

Lemma parse_args_ram_size o args o' :
  parse_args o args = Ok o' -> ram_size o <= ram_size o'.
Proof.
  revert o. induction args as [|a args IH]; intros o H.
  - injection H as <-. lia.
  - cbn [parse_args] in H.
    destruct (parse_arg o a) as [o1| |] eqn:E; cbn [bind] in H;
      try discriminate H.
    apply parse_arg_ram_size in E. apply IH in H. lia.
Qed.

(** X26.  The guest RAM size never goes down while the options are read:
    every [--mem=] is checked against the size reached so far, so a
    [--mem=] below an earlier one ends the program like one below the
    default.  When [main] goes on to [kvm__init], the size is at least
    64 MiB. *)
Theorem mem_never_shrinks (dbg : bool) (args : list string) :
  (forall o o', parse_args o args = Ok o' -> ram_size o <= ram_size o') /\
  (forall o a n,
     option_matches a "--mem=" = true ->
     atol (skip 6 a) = Ok n -> 0 <= n -> n * 2 ^ 20 <= LONG_MAX ->
     n * 2 ^ 20 < ram_size o ->
     parse_arg o a = Die "Not enough memory specified: %sMB (min %luMB)") /\
  (forall o, main_options dbg args = Ok (Start o) ->
     64 * 1024 * 1024 <= ram_size o).
Proof.
  split; [|split].
  - intros o o'. apply parse_args_ram_size.
  - intros o a n Hm Ha Hn Hmax Hlt. unfold parse_arg.
    do 6 match goal with
         | |- context [if option_matches a ?s then _ else _] =>
             let E := fresh "E" in
             destruct (option_matches a s) eqn:E;
             [ destruct (prefix_chain _ _ _ E Hm) as [X|X];
               vm_compute in X; discriminate X | ]
         end.
    rewrite Hm, Ha. cbn [bind]. unfold shl_long.
    apply Z.leb_le in Hn, Hmax. rewrite Hn, Hmax. cbn [andb bind].
    apply Z.ltb_lt in Hlt. rewrite Hlt. reflexivity.
  - intros o H. unfold main_options in H.
    destruct (parse_args (initial dbg) args) as [o1| |] eqn:E;
      cbn [bind] in H; try discriminate H.
    destruct (kernel_filename o1); [|discriminate H].
    injection H as <-. apply parse_args_ram_size in E. exact E.
Qed.

Lemma parse_args_kernel_keep o args o' :
  Forall (fun a => option_matches a "--kernel=" = false /\
                   option_matches a "-" = true) args ->
  parse_args o args = Ok o' -> kernel_filename o' = kernel_filename o.
Proof.
  intros HF. revert o. induction HF as [|a args [Hk Hd] _ IH]; intros o H.
  - injection H as <-. reflexivity.
  - cbn [parse_args] in H.
    destruct (parse_arg o a) as [o1| |] eqn:E; cbn [bind] in H;
      try discriminate H.
    rewrite (IH _ H). apply parse_arg_kernel in E.
    rewrite E, Hk, Hd. reflexivity.
Qed.

(** X27.  The kernel image is the last argument that names one: when the
    options parse, and after the argument [a] every argument starts with
    '-' and none starts with "--kernel=", the kernel file name is what
    follows "--kernel=" in [a] if [a] starts so, and [a] itself if [a]
    does not start with '-'. *)
Theorem last_kernel_wins (o : options) (xs : list string) (a : string)
  (ys : list string) (o' : options) :
  parse_args o (xs ++ a :: ys) = Ok o' ->
  Forall (fun b => option_matches b "--kernel=" = false /\
                   option_matches b "-" = true) ys ->
  (option_matches a "--kernel=" = true ->
   kernel_filename o' = Some (skip 9 a)) /\
  (option_matches a "-" = false -> kernel_filename o' = Some a).
Proof.
  intros H HF. rewrite parse_args_app in H.
  destruct (parse_args o xs) as [o1| |]; cbn [bind] in H;
    try discriminate H.
  cbn [parse_args] in H.
  destruct (parse_arg o1 a) as [o2| |] eqn:E; cbn [bind] in H;
    try discriminate H.
  rewrite (parse_args_kernel_keep _ _ _ HF H).
  apply parse_arg_kernel in E. rewrite E. split.
  - intros ->. reflexivity.
  - intros Hd. rewrite Hd. cbn [negb].
    destruct (option_matches a "--kernel=") eqn:Ek; [|reflexivity].
    apply prefix_first in Ek. rewrite first_char_dash, Ek in Hd.
    discriminate Hd.
Qed.

Lemma last_kernel_wins_witness :
  exists o',
    parse_args (initial false)
               ["--kernel=bzImage"; "vmlinux"; "--single-step"]%string
    = Ok o' /\
    kernel_filename o' = Some "vmlinux"%string.
Proof.
  assert (E : exists o',
             parse_args (initial false)
               ["--kernel=bzImage"; "vmlinux"; "--single-step"]%string
             = Ok o') by (vm_compute; eexists; reflexivity).
  destruct E as (o' & E). exists o'. split; [exact E|].
  apply (last_kernel_wins (initial false) ["--kernel=bzImage"%string]
           "vmlinux" ["--single-step"%string] o' E).
  - repeat constructor.
  - reflexivity.
Defined.

End ArgsFacts.

(** ** More on the BIOS stubs *)

Module BiosMore.
Import BiosRom BiosFacts E820.

Lemma le_encode_length n v : length (le_encode n v) = n.
Proof. revert v. induction n; intros v; cbn; [reflexivity | f_equal; auto]. Qed.

Lemma le_decode_encode n v : le_decode (le_encode n v) = v mod 256 ^ Z.of_nat n.
Proof.
  revert v. induction n as [|n IH]; intros v.
  - cbn. rewrite Z.mod_1_r. reflexivity.
  - cbn [le_encode le_decode]. rewrite Z_of_byte_of_Z, IH.
    rewrite Nat2Z.inj_succ, Z.pow_succ_r by lia.
    rewrite Z.rem_mul_r by lia. reflexivity.
Qed.

Lemma bx_set_bx m v : bx (set_bx m v) = Z.land v 0xffff.
Proof.
  unfold bx, set_bx. cbn [ebx set_ebx].
  rewrite Z.land_lor_distr_l, <- !Z.land_assoc.
  change (Z.land 0xffff0000 0xffff) with 0.
  change (Z.land 0xffff 0xffff) with 0xffff.
  rewrite Z.land_0_r. reflexivity.
Qed.

Lemma land_sp16 x : 0 <= x < 2 ^ 16 -> Z.land x 0xffff = x.
Proof.
  intros H. change 0xffff with (Z.ones 16).
  rewrite Z.land_ones by lia. apply Z.mod_small, H.
Qed.

Lemma bx_set_flag m b v : bx (set_flag m b v) = bx m.
Proof. reflexivity. Qed.

Lemma flag_CF_test imm v m : flag (test imm v m) EFLAGS_CF = false.
Proof.
  rewrite flag_CF. unfold test.
  change EFLAGS_ZF with (2 ^ 6). rewrite testbit_set_flag by lia.
  destruct (Z.eq_dec 6 0) as [E|_]; [discriminate E|].
  change EFLAGS_CF with (2 ^ 0). rewrite testbit_set_flag by lia.
  destruct (Z.eq_dec 0 0) as [_|E]; [reflexivity | contradiction].
Qed.

Section Cursor.

Variable stack_swap : machine -> machine.
Variable stack_restore : machine -> machine.
Variable VGA_RAM_SEG : Z.
Variable VGA_PAGE_SIZE : Z.
Variable cursor : Z.

(** [stack_restore] switches back to the caller's stack: it writes no
    memory. *)
Hypothesis restore_reads : forall m, memory (stack_restore m) = memory m.
Hypothesis seg16 : 0 <= VGA_RAM_SEG < 2 ^ 16.

(** X28.  The cursor of [putchar] never advances.  [test] clears the
    carry flag, so the [jb] after it is never taken and [xor %bx, %bx]
    always runs: whatever the character and the old cursor, the word
    [putchar] stores as the new cursor is 0, and it stores it at offset
    [cursor] of the VGA segment, not of the code segment where it reads
    the cursor from. *)
Theorem putchar_cursor_reset (m : machine) :
  load (putchar stack_swap stack_restore VGA_RAM_SEG VGA_PAGE_SIZE cursor m)
       (linear VGA_RAM_SEG cursor) 2 = 0.
Proof.
  unfold putchar, load. rewrite restore_reads.
  cbn [memory pop_done set_esp set_fs set_bx set_ebx store set_memory].
  rewrite flag_CF_test.
  rewrite !bx_set_flag, !bx_set_bx.
  cbn [fs set_flag set_eflags set_bx set_ebx test store set_memory set_fs].
  rewrite ?bx_set_bx.
  rewrite (land_sp16 VGA_RAM_SEG) by exact seg16.
  change (Z.land 0 0xffff) with 0.
  change 2%nat with (length (le_encode 2 0)) at 2.
  rewrite mem_read_write. reflexivity.
Qed.

End Cursor.

Lemma putchar_cursor_reset_witness :
  load (putchar (fun m => m) (fun m => m) 0xb800 0x1000 0x44
                Samples.mode_call)
       (linear 0xb800 0x44) 2 = 0.
Proof.
  apply (putchar_cursor_reset (fun m => m) (fun m => m) 0xb800 0x1000 0x44).
  - reflexivity.
  - lia.
Defined.


(** *** The register frame of E820 *)

Lemma sp_add_lin e d :
  0 <= e < 2 ^ 16 -> 0 <= e + d < 2 ^ 16 -> sp_add e d = e + d.
Proof.
  intros He Hd. unfold sp_add.
  rewrite (Z.mod_small e) by exact He. rewrite Z.mod_small by exact Hd. lia.
Qed.

Lemma sp_in_range m : 0 <= esp m < 2 ^ 16 -> sp m = esp m.
Proof.
  intros H. unfold sp. change 0xffff with (Z.ones 16).
  rewrite Z.land_ones by lia. apply Z.mod_small, H.
Qed.

(** A push that stays inside the stack segment. *)
Lemma push_in_segment n v m :
  Z.of_nat n <= esp m < 2 ^ 16 ->
  push n v m
  = set_memory (set_esp m (esp m - Z.of_nat n))
      (mem_write (memory m) (linear (ss m) (esp m - Z.of_nat n))
                 (le_encode n v)).
Proof.
  intros H. unfold push, store, sp. cbn [esp set_esp ss memory].
  rewrite sp_add_lin by lia.
  change 0xffff with (Z.ones 16). rewrite Z.land_ones by lia.
  rewrite Z.mod_small by lia. reflexivity.
Qed.

Lemma load_mem_write mm a n v :
  le_decode (mem_read (mem_write mm a (le_encode n v)) a n)
  = v mod 256 ^ Z.of_nat n.
Proof.
  rewrite <- (le_encode_length n v) at 2.
  rewrite mem_read_write. apply le_decode_encode.
Qed.

Lemma load_mem_write_other mm a bs b k :
  b + Z.of_nat k <= a \/ a + Z.of_nat (length bs) <= b ->
  mem_read (mem_write mm a bs) b k = mem_read mm b k.
Proof.
  intros H. apply mem_read_ext. intros x Hx. apply mem_write_out. lia.
Qed.

Lemma e820_enter_stack (m : machine) :
  22 <= esp m < 2 ^ 16 ->
  esp (e820_enter m) = esp m - 22 /\ ss (e820_enter m) = ss m.
Proof.
  intros H. unfold e820_enter. split.
  - rewrite esp_mov_esp_eax, !esp_pushl, esp_pushw, !sp_add_add.
    apply sp_add_lin; lia.
  - rewrite ss_mov_esp_eax, !ss_pushl, ss_pushw. reflexivity.
Qed.

(** X29.  The frame that [bios_int15] hands to [e820_query_map].  With at
    least 22 bytes of stack left in the segment, the six pushes build, at
    SS:SP, the 32-bit images of EAX, EBX, EDI, ECX and EDX at offsets 0,
    4, 8, 12 and 16 and the 16-bit image of FS at offset 20; EAX points at
    the frame, and no other byte of memory has changed. *)
Theorem e820_frame_layout (m : machine) :
  22 <= esp m < 2 ^ 16 ->
  let m' := e820_enter m in
  let frame := linear (ss m) (esp m - 22) in
  esp m' = esp m - 22 /\ ss m' = ss m /\ eax m' = esp m - 22 /\
  load m' frame 4 = eax m mod 2 ^ 32 /\
  load m' (frame + 4) 4 = ebx m mod 2 ^ 32 /\
  load m' (frame + 8) 4 = edi m mod 2 ^ 32 /\
  load m' (frame + 12) 4 = ecx m mod 2 ^ 32 /\
  load m' (frame + 16) 4 = edx m mod 2 ^ 32 /\
  load m' (frame + 20) 2 = fs m mod 2 ^ 16 /\
  (forall a, a < frame \/ frame + 22 <= a -> memory m' a = memory m a).
Proof.
  intros H. destruct m as [a b c d di sp0 cs0 ss0 fs0 ip0 fl mm].
  cbn [esp ss eax ebx ecx edx edi fs memory] in *.
  unfold e820_enter, pushw, pushl.
  rewrite (push_in_segment 2) by (cbn; lia).
  cbn [esp ss eax ebx ecx edx edi fs memory set_esp set_memory].
  rewrite (push_in_segment 4 d) by (cbn; lia).
  cbn [esp ss eax ebx ecx edx edi fs memory set_esp set_memory].
  rewrite (push_in_segment 4 c) by (cbn; lia).
  cbn [esp ss eax ebx ecx edx edi fs memory set_esp set_memory].
  rewrite (push_in_segment 4 di) by (cbn; lia).
  cbn [esp ss eax ebx ecx edx edi fs memory set_esp set_memory].
  rewrite (push_in_segment 4 b) by (cbn; lia).
  cbn [esp ss eax ebx ecx edx edi fs memory set_esp set_memory].
  rewrite (push_in_segment 4 a) by (cbn; lia).
  cbn [esp ss eax ebx ecx edx edi fs memory set_esp set_memory set_eax].
  change (Z.of_nat 2) with 2. change (Z.of_nat 4) with 4.
  unfold load. cbn [memory set_eax set_memory set_esp]. unfold linear.
  set (F := ss0 * 16 + (sp0 - 22)).
  replace (ss0 * 16 + (sp0 - 2)) with (F + 20) by (unfold F; lia).
  replace (ss0 * 16 + (sp0 - 2 - 4)) with (F + 16) by (unfold F; lia).
  replace (ss0 * 16 + (sp0 - 2 - 4 - 4)) with (F + 12) by (unfold F; lia).
  replace (ss0 * 16 + (sp0 - 2 - 4 - 4 - 4)) with (F + 8)
    by (unfold F; lia).
  replace (ss0 * 16 + (sp0 - 2 - 4 - 4 - 4 - 4)) with (F + 4)
    by (unfold F; lia).
  replace (ss0 * 16 + (sp0 - 2 - 4 - 4 - 4 - 4 - 4)) with F
    by (unfold F; lia).
  clearbody F.
  split; [lia|]. split; [reflexivity|]. split; [lia|].
  repeat split;
    try (repeat (rewrite load_mem_write_other
                   by (rewrite le_encode_length; lia));
         rewrite load_mem_write; reflexivity).
  intros x Hx.
  rewrite !mem_write_out by (rewrite le_encode_length; lia). reflexivity.
Qed.

Lemma e820_frame_layout_witness :
  load (e820_enter Samples.e820_entry) (linear 0 (0x7000 - 22)) 4 = 0xE820 /\
  eax (e820_enter Samples.e820_entry) = 0x7000 - 22.
Proof.
  destruct (e820_frame_layout Samples.e820_entry) as (_ & _ & He & Hl & _).
  - change (22 <= 0x7000 < 2 ^ 16). lia.
  - split; [exact Hl | exact He].
Defined.


Lemma pop_step n (set : machine -> Z -> machine) m :
  off_stack set -> (forall m v, memory (set m v) = memory m) ->
  0 <= esp m -> esp m + Z.of_nat n < 2 ^ 16 ->
  pop_done n (set m (pop_value n m))
  = set_esp (set m (le_decode (mem_read (memory m)
                                        (linear (ss m) (esp m)) n)))
            (esp m + Z.of_nat n).
Proof.
  intros Hoff Hmem H0 H1. unfold pop_done, pop_value, load.
  rewrite sp_in_range by lia. f_equal.
  destruct (Hoff m (le_decode (mem_read (memory m)
                                        (linear (ss m) (esp m)) n)))
    as [-> _].
  apply sp_add_lin; lia.
Qed.

Section Results.

Variable call_e820_query_map : machine -> machine.
Hypothesis callee : keeps_stack call_e820_query_map.

(** X30.  What [e820_query_map] leaves in the frame is what the caller of
    INT 15h gets: after the call, EAX, EBX, EDI, ECX, EDX and FS are
    loaded from offsets 0, 4, 8, 12, 16 and 20 of the frame as the callee
    left it, the stack pointer is back where it was on entry, and the pops
    write no memory. *)
Theorem e820_results_from_frame (m : machine) :
  22 <= esp m < 2 ^ 16 ->
  let mc := call_e820_query_map (e820_enter m) in
  let m' := e820_call call_e820_query_map m in
  let frame := linear (ss m) (esp m - 22) in
  eax m' = load mc frame 4 /\
  ebx m' = load mc (frame + 4) 4 /\
  edi m' = load mc (frame + 8) 4 /\
  ecx m' = load mc (frame + 12) 4 /\
  edx m' = load mc (frame + 16) 4 /\
  fs m' = load mc (frame + 20) 2 /\
  memory m' = memory mc /\ esp m' = esp m /\ ss m' = ss m.
Proof.
  intros H mc m' frame.
  assert (Hesp : esp mc = esp m - 22 /\ ss mc = ss m).
  { destruct (callee (e820_enter m)) as [He Hs].
    destruct (e820_enter_stack m H) as (He' & Hs').
    unfold mc. rewrite He, Hs. auto. }
  destruct Hesp as [Hesp Hss].
  change m' with (e820_leave mc). subst frame. rewrite <- Hss.
  replace (esp m) with (esp mc + 22) by lia.
  replace (esp mc + 22 - 22) with (esp mc) by lia.
  assert (Hr : 0 <= esp mc /\ esp mc + 22 < 2 ^ 16) by lia.
  clear H Hesp Hss m'. clearbody mc.
  destruct mc as [a b c d di sp0 cs0 ss0 fs0 ip0 fl mm].
  cbn [esp ss] in *.
  unfold e820_leave, popl, popw, load.
  rewrite (pop_step 4 set_eax)
    by (try apply off_stack_eax; try reflexivity;
        cbn [esp set_esp set_eax set_ebx set_ecx set_edx set_edi set_fs];
        lia).
  cbn [eax ebx ecx edx edi esp cs ss fs ip eflags memory
       set_eax set_ebx set_ecx set_edx set_edi set_esp set_fs].
  change (Z.of_nat 4) with 4.
  rewrite (pop_step 4 set_ebx)
    by (try apply off_stack_ebx; try reflexivity;
        cbn [esp set_esp set_eax set_ebx set_ecx set_edx set_edi set_fs];
        lia).
  cbn [eax ebx ecx edx edi esp cs ss fs ip eflags memory
       set_eax set_ebx set_ecx set_edx set_edi set_esp set_fs].
  change (Z.of_nat 4) with 4.
  rewrite (pop_step 4 set_edi)
    by (try apply off_stack_edi; try reflexivity;
        cbn [esp set_esp set_eax set_ebx set_ecx set_edx set_edi set_fs];
        lia).
  cbn [eax ebx ecx edx edi esp cs ss fs ip eflags memory
       set_eax set_ebx set_ecx set_edx set_edi set_esp set_fs].
  change (Z.of_nat 4) with 4.
  rewrite (pop_step 4 set_ecx)
    by (try apply off_stack_ecx; try reflexivity;
        cbn [esp set_esp set_eax set_ebx set_ecx set_edx set_edi set_fs];
        lia).
  cbn [eax ebx ecx edx edi esp cs ss fs ip eflags memory
       set_eax set_ebx set_ecx set_edx set_edi set_esp set_fs].
  change (Z.of_nat 4) with 4.
  rewrite (pop_step 4 set_edx)
    by (try apply off_stack_edx; try reflexivity;
        cbn [esp set_esp set_eax set_ebx set_ecx set_edx set_edi set_fs];
        lia).
  cbn [eax ebx ecx edx edi esp cs ss fs ip eflags memory
       set_eax set_ebx set_ecx set_edx set_edi set_esp set_fs].
  change (Z.of_nat 4) with 4.
  rewrite (pop_step 2 set_fs)
    by (try apply off_stack_fs; try reflexivity;
        cbn [esp set_esp set_eax set_ebx set_ecx set_edx set_edi set_fs];
        lia).
  cbn [eax ebx ecx edx edi esp cs ss fs ip eflags memory
       set_eax set_ebx set_ecx set_edx set_edi set_esp set_fs].
  unfold linear. change (Z.of_nat 2) with 2.
  repeat split; try reflexivity; try (do 2 f_equal; lia); lia.
Qed.

End Results.

Lemma e820_results_from_frame_witness :
  eax (e820_call (fun m => m) Samples.e820_entry) = 0xE820 /\
  esp (e820_call (fun m => m) Samples.e820_entry) = 0x7000.
Proof.
  destruct (e820_results_from_frame (fun m => m) (fun m => conj eq_refl eq_refl)
              Samples.e820_entry) as (Ha & _ & _ & _ & _ & _ & _ & He & _).
  - change (22 <= 0x7000 < 2 ^ 16). lia.
  - split; [|exact He]. rewrite Ha. vm_compute. reflexivity.
Defined.

End BiosMore.
